(* ===== verification/_CoqProject ===== *)
-Q . S2P
Prelude.v
Types.v
Vdom.v
TaskStore.v
JsString.v
Json.v
Storage.v
TaskInput.v
TaskList.v
App.v
Session.v
AppView.v
Foreign.v
ForeignSession.v
