(* ===== verification/Prelude.v ===== *)
(** * Verification of ToDoList-react ("Task Master")

    The program is a client-side to-do list in React/TypeScript, four files
    under [src/src/]:
    - [types.ts]: the [Task] and [EditingTask] interfaces and the priority
      union ['low' | 'medium' | 'high'];
    - [App.tsx]: the root component; it owns the collection [tasks],
      mutates it through four callbacks ([addTask], [toggleTask],
      [deleteTask], [updateTask]), reads it from [localStorage] when it is
      first rendered and writes it back in an effect after every change;
    - [components/TaskInput.tsx]: the new-task form; it owns the text and
      the selected priority and calls [onAddTask] on submit when the text
      is not blank;
    - [components/TaskList.tsx]: the rows; it owns the optional
      [editingTask] and calls [onToggleTask], [onDeleteTask] and
      [onUpdateTask].
    The children talk to [App] only through their props; [App] talks to the
    browser through [localStorage], [JSON] and [crypto.randomUUID()].

    ** Files and what they model (in dependency order)
    - [Prelude.v] (this file): notation scope [todo_scope] ([+s+] for string
      concatenation), the hint databases [todo] and [todo_rw], the tactics
      [simpl_str], [decide_prop], [destruct_in] and [rewrite_eqs], and the
      list lemmas shared by the components ([map_if] is
      [l.map(x => p(x) ? f(x) : x)]).
    - [Types.v]: [Priority] with its string literals, the records [Task.t]
      and [EditingTask.t] (types.ts).
    - [Vdom.v]: what a component returns, modelled from React's and HTML's
      documented behaviour: element trees [node E] whose handler props
      produce messages [E], the [listeners] React attaches, and [fires n e]
      (some user action on the page dispatches [e]: a click, a form
      submission, any text typed into an input, one of a select's options);
      [priority_options] and [select_priority] are the priority selects'
      options and [onChange] shared by both components.
    - [TaskStore.v], module [TaskStore]: the four callbacks of [App.tsx] as
      pure functions on [list Task.t], the counters [activeTasks] and
      [completedTasks]; module [TaskStore.Spec] is the abstract store (the
      order of the ids and a [gmap] from id to the task's data), [abs] the
      abstraction function, [concretize] its inverse.
    - [JsString.v]: [String.prototype.trim] and string truthiness, modelled
      from ECMAScript on the code units 0..255 (a Rocq [ascii]).
    - [Json.v]: JSON values, [JSON.stringify] and [JSON.parse] (from
      ECMA-262); the parser runs on fuel ([JSON_parse_fuel]) and takes the
      decoder of [\uXXXX] escapes as a parameter: [JSON_parse] decodes
      the code units the model of strings holds, [JSON_accepts] is the
      grammar alone.
    - [Storage.v], module [Storage]: [localStorage] as [gmap string string],
      the serialization of a task, [load] (the [useState] initializer of
      [App.tsx], [load_with] with the parser as a parameter) and [save]
      (the effect).
    - [TaskInput.v], module [TaskInput]: the form's state and handlers,
      parametric in the parent's state through the record [TaskInputProps];
      [view] is its JSX and [update] what each bound handler does.
    - [TaskList.v], module [TaskList]: [editingTask], the handlers,
      [getPriorityColor], the choice of each row ([render_row]) and the
      JSX of the list, the rows and the editor ([view], [row_view],
      [editor_view], [task_view]), parametric through [TaskListProps].
    - [App.v], module [App]: the composed program.  [AppState] holds the
      three components' states, the storage, the number of UUIDs drawn and
      whether an effect is pending; [handle] runs the handler of a user
      [Event]; [commit] runs the pending effect as React does after the
      render; [enabled] says whether the element an event fires on is
      rendered; [app_step] is the step relation, [mount] the first render,
      [reachable] the states a session can reach.  The UUID source is a
      section variable [randomUUID : nat -> string] (the n-th value
      returned).
    - [Session.v], module [Session]: whole runs against the store's
      contract: [event_cmd] is the store operation an event performs,
      [run_cmds] the operations of a run, [spec_run] their effect on the
      abstract store, [clear_events] a user strategy that empties the list.
    - [AppView.v], module [AppView]: the page [App] renders ([view]: header,
      form, counters, list, empty-state message), with the children's
      messages mapped to [App]'s events ([input_event], [list_event]).
    - [Foreign.v], module [Foreign]: [App] on whatever [JSON.parse]
      returned, in JavaScript's semantics.  Lines 50-51 of [App.tsx] (the
      two counters, [first_render]): property reads, ToBoolean, and the
      [TypeError]s of [filter] on a non-array and of a read on [null].
      The four callbacks on an untyped [tasks] value ([toggleTask],
      [deleteTask], [updateTask], [addTask], and the rows' buttons
      [toggle_row], [delete_row]) are built from [js_map] and [js_filter]
      (callbacks that may throw), [===] on ids ([id_strict_eq]) and object
      spreads ([spread_props], [set_prop]).  The rows [TaskList] renders
      from such a value ([row_render], [list_render]) record what each row
      evaluates: its key, the edit test [editingTask?.id === task.id], and
      the children React renders for [{task.text}] and [{task.priority}]
      ([react_child]); [mount_render] is the whole first render.  The
      editor on such rows: [handleEdit] copies the row's fields unchecked,
      and [handleSaveEdit] calls [editingTask.text.trim()].
    - [ForeignSession.v], module [ForeignSession]: those pieces composed
      into the running program on untyped data: the state [FState]
      ([tasks], [editingTask], the form, the UUIDs drawn), the handler of
      each user event [fhandle] (the form is the typed [TaskInput] with
      [App]'s [addTask] on the untyped value), [fdispatch] (a throwing
      handler leaves the state as it was, as React does) and the step
      relation [fstep] over the events whose element is on the page;
      the relation [encodes] between typed and untyped states and the
      simulation of [App.app_step] by [fstep].

    ** What is proved
    - Persistence: [Storage.load_save] (loading after saving gives the
      collection back), built on [Json.JSON_parse_stringify] (JSON.parse
      inverts JSON.stringify on well-formed values, every code unit
      escaped and read back); [App.reload_restores]: in every reachable
      state the storage holds the collection on screen.
    - The store: each operation's behaviour ([addTask_spec],
      [toggleTask_one], [updateTask_one], [deleteTask_one],
      [toggleTask_involutive], [absent_id_noop]); the refinement
      [store_refines] of the abstract store and the round trip
      [concretize_abs]; toggling moves one task between the counters
      ([toggle_completed_count]).
    - Refinement of sessions: [Session.session_refines]: along every run of
      events, the abstraction of the collection is the abstract store
      after the operations the events perform (a simulation of the program
      by [TaskStore.Spec], one step of the program for zero or one step of
      the specification).
    - Invariants of the composed program, by induction on [reachable] or
      on runs ([rtc app_step]): [App.editing_id_present] (the editor is
      never open on a missing task) and [App.ids_unique_run] (ids stay
      distinct when the UUID source never repeats and never hits a loaded
      id), hence distinct React keys ([AppView.row_keys_distinct]).
    - Liveness: [Session.clear_all]: from every reachable state the user can
      empty the list by enabled events, and the storage then holds [[]].
    - The selects: [AppView.select_cast_exact] (the
      [as 'low' | 'medium' | 'high'] of both selects holds).
    - The guards: a blank text is neither added ([TaskInput.handleSubmit_blank],
      [App.submit_blank_noop]) nor saved by the editor
      ([TaskList.handleSaveEdit_blank]); at most one row is in edit mode
      ([TaskList.edit_rows_count]); a non-blank edit saved through the
      whole program changes exactly the edited task and is persisted
      ([App.save_edit_updates]).
    - Error paths of [load]: missing or empty data loads as [[]]
      ([Storage.load_missing]); a text the JSON grammar rejects throws
      ([Storage.load_malformed_throws], stated with [JSON_accepts], the
      grammar alone, so that an escape above U+00FF, which the model of
      strings cannot hold, is not taken for a syntax error); JSON that is
      not an array of tasks is kept as it is and crashes the first render
      (below): both contradict the spec, which promises an empty
      collection.  Loaded data is not checked: for every saved collection,
      a row's delete removes every task sharing its id
      ([App.duplicate_ids_delete_all]), and the rows' keys are distinct
      exactly when the saved ids are
      ([AppView.duplicate_ids_duplicate_keys]).
    - Untyped data: saved JSON that is not an array crashes the first
      render ([Foreign.foreign_non_array_crashes]), and an array crashes
      it exactly when it holds [null] ([Foreign.foreign_array_render]).
      The first render of a saved array succeeds exactly when every
      element has an [id] and renderable [text] and [priority]
      ([Foreign.foreign_mount_render]): with [editingTask] [null], a row
      without an id takes the editor branch and reads a property of
      [null].  A rendered row whose text is not a string (a number, shown
      as text) makes the save of its editor, untouched, throw a [TypeError]
      that leaves the editor open ([Foreign.foreign_edit_save]); data that
      has rendered keeps rendering in every state a run of events reaches
      ([ForeignSession.foreign_runs_render], by an invariant of the step
      relation), so no later render throws.
    - Agreement of the models with each other (lemmas that validate the
      modelling rather than properties of the code, since both sides
      translate the same lines): the page and the step relation
      ([AppView.enabled_iff_fires], [AppView.handle_child_update]); the
      typed model and JavaScript's semantics on the data the program
      writes: the counters ([Foreign.first_render_encode]), the callbacks
      ([Foreign.callbacks_encode]), the rows ([Foreign.render_encode]),
      and whole runs ([ForeignSession.typed_runs_foreign], from the
      one-step simulation [ForeignSession.step_encodes], the editor's
      identity tracked across deletions by [reindex]).
    - The scenario of spec §8 ([App.scenario_from_empty]).

    ** Bounds and fuel
    [JSON_parse] runs [parse_value] with fuel [S (length text)].  A parse
    that succeeds with some fuel succeeds with [length s - length r], the
    number of characters it consumes ([parse_fuel_enough]: each unit of
    fuel is matched by a consumed character, the brackets, commas and
    quotes included), and more fuel never changes a result
    ([parse_fuel_mono]); so [S (length text)] gives the same result as any
    larger fuel, on every text, valid or not ([JSON_parse_fuel_adequate],
    and for the initializer [Storage.load_fuel_adequate]).
    [clear_events] takes as many rounds as there are tasks: each round
    deletes the first task.  The other functions are structural.

    ** Not modelled
    What the CSS classes and the icons look like (the JSX is modelled with
    its class strings and icon leaves); the [ThemeToggle] component
    (imported by [App.tsx] but not part of [src/]), rendered as a leaf;
    the value of JSON numbers (kept as lexemes; the callbacks take the
    equality of two number ids as a parameter [num_eq]) and [\u] escapes
    above U+00FF; the order JavaScript gives to integer-like keys of a
    parsed object (the model keeps the text's order); a property set to
    [undefined] by a spread (a foreign row without [priority] saved from
    the editor) is modelled as absent, which differs from JavaScript only
    in the place a later assignment of the key takes; on rows built from
    foreign data, the text
    [Number::toString] gives a number (a parameter [num_text]), the
    handlers and class strings (the model records what the row reads),
    and React's handling of keys that are not strings; the storage effect
    on foreign data ([JSON.stringify] of foreign numbers needs
    [Number::toString]); React's
    reconciliation and
    batching beyond "one handler, then the effects"; a failing [setItem]
    (quota).
    The DOM value of a controlled input is the state it is bound to
    ([value={text}], [value={editingTask.text}]): the model keeps the
    state and not a second copy in the element. *)

From Stdlib Require Import Ascii String Lia.
From stdpp Require Import base list gmap strings.

(** The shared prelude: a notation scope, the hint database of the
    development, and generic lemmas on strings, lists and options that
    every component uses. *)

Declare Scope todo_scope.
Delimit Scope todo_scope with todo.

Create HintDb todo discriminated.
Create Rewrite HintDb todo_rw.

(** ** Strings *)

(** JavaScript string concatenation on the modelled code units. *)
Notation "s1 +s+ s2" := (String.append s1 s2)
  (at level 60, right associativity) : todo_scope.
Open Scope todo_scope.

(* stdpp declares [String.append] [simpl never]: the two computation
   rules are stated once here and used by rewriting. *)
Lemma sapp_nil_l (s : string) : EmptyString +s+ s = s.
Proof. reflexivity. Qed.

Lemma sapp_cons (c : ascii) (s1 s2 : string) :
  String c s1 +s+ s2 = String c (s1 +s+ s2).
Proof. reflexivity. Qed.

Lemma sapp_assoc (s1 s2 s3 : string) : (s1 +s+ s2) +s+ s3 = s1 +s+ (s2 +s+ s3).
Proof. induction s1 as [|c s1 IH]; [done|]. by rewrite !sapp_cons, IH. Qed.

Lemma sapp_nil_r (s : string) : s +s+ EmptyString = s.
Proof. induction s as [|c s IH]; [done|]. by rewrite sapp_cons, IH. Qed.

Lemma slength_app (s1 s2 : string) :
  String.length (s1 +s+ s2) = String.length s1 + String.length s2.
Proof. induction s1 as [|c s1 IH]; [done|]. rewrite sapp_cons. simpl. by rewrite IH. Qed.

#[export] Hint Rewrite sapp_nil_l sapp_cons sapp_assoc sapp_nil_r : todo_rw.

Ltac simpl_str := autorewrite with todo_rw in *.

(** Close a decidable proposition on concrete data by evaluating its
    decision procedure. *)
Ltac decide_prop := apply (bool_decide_unpack _); vm_compute; reflexivity.

(** Case analysis on every [match] of a hypothesis (the paths of a
    computation that returned a value); the impossible paths are closed by
    [discriminate]. *)
Ltac destruct_in H :=
  repeat match type of H with
  | context [match ?x with _ => _ end] =>
      first [is_var x; destruct x | let E := fresh "E" in destruct x eqn:E];
      try discriminate H
  end.

(** Rewrite the goal with every equation of the context whose left side
    occurs in it. *)
Ltac rewrite_eqs :=
  repeat match goal with E : ?x = _ |- context [?x] => rewrite E end.

(** ** Lists *)

(** [map] with a function that is the identity on every element the
    predicate rejects: [l.map(x => p(x) ? f(x) : x)]. *)
Definition map_if {A} (p : A -> bool) (f : A -> A) (l : list A) : list A :=
  (fun x => if p x then f x else x) <$> l.

Lemma length_map_if {A} (p : A -> bool) f (l : list A) :
  length (map_if p f l) = length l.
Proof. apply length_fmap. Qed.

Lemma map_if_id {A} (p : A -> bool) f (l : list A) :
  Forall (fun x => p x = false) l -> map_if p f l = l.
Proof. induction 1 as [|x l Hx _ IH]; simpl; [done|]. by rewrite Hx, IH. Qed.

Lemma map_if_cons {A} (p : A -> bool) f x (l : list A) :
  map_if p f (x :: l) = (if p x then f x else x) :: map_if p f l.
Proof. done. Qed.

Lemma map_if_app {A} (p : A -> bool) f (l1 l2 : list A) :
  map_if p f (l1 ++ l2) = map_if p f l1 ++ map_if p f l2.
Proof. apply fmap_app. Qed.

Lemma map_if_map_if {A} (p : A -> bool) f g (l : list A) :
  (forall x, p x = true -> p (f x) = true) ->
  map_if p g (map_if p f l) = map_if p (fun x => g (f x)) l.
Proof.
  intros Hp. induction l as [|x l IH]; [done|].
  rewrite !map_if_cons, IH.
  destruct (p x) eqn:E; [by rewrite (Hp x E)|by rewrite E].
Qed.

Lemma fmap_map_if {A B} (h : A -> B) (p : A -> bool) f (l : list A) :
  (forall x, h (f x) = h x) -> h <$> map_if p f l = h <$> l.
Proof.
  intros Hh. induction l as [|x l IH]; [done|].
  rewrite map_if_cons, !fmap_cons, IH. by destruct (p x); [rewrite Hh|].
Qed.

Lemma length_filter_split {A} (p : A -> bool) (l : list A) :
  length (List.filter (fun x => negb (p x)) l) + length (List.filter p l) = length l.
Proof. rewrite Nat.add_comm. apply filter_length. Qed.

Lemma filter_negb_id {A} (p : A -> bool) (l : list A) :
  Forall (fun x => p x = false) l -> List.filter (fun x => negb (p x)) l = l.
Proof. induction 1 as [|x l Hx _ IH]; simpl; [done|]. by rewrite Hx, IH. Qed.

(** The element the predicate selects is the only one changed... *)
Lemma map_if_one {A} (p : A -> bool) f (l1 : list A) x l2 :
  Forall (fun y => p y = false) l1 -> Forall (fun y => p y = false) l2 ->
  p x = true -> map_if p f (l1 ++ x :: l2) = l1 ++ f x :: l2.
Proof. intros H1 H2 Hx. by rewrite map_if_app, map_if_cons, Hx, !map_if_id. Qed.

(** ... or the only one removed. *)
Lemma filter_negb_one {A} (p : A -> bool) (l1 : list A) x l2 :
  Forall (fun y => p y = false) l1 -> Forall (fun y => p y = false) l2 ->
  p x = true -> List.filter (fun y => negb (p y)) (l1 ++ x :: l2) = l1 ++ l2.
Proof.
  intros H1 H2 Hx. induction H1 as [|y l1 Hy _ IH]; simpl.
  - by rewrite Hx, filter_negb_id.
  - by rewrite Hy, IH.
Qed.

Lemma NoDup_list_filter {A} (p : A -> bool) (l : list A) :
  NoDup l -> NoDup (List.filter p l).
Proof.
  induction 1 as [|x l Hx _ IH]; simpl; [constructor|].
  destruct (p x); [|done]. constructor; [|done].
  intros Hin%list_elem_of_In. apply Hx, list_elem_of_In.
  by apply filter_In in Hin as [? _].
Qed.

#[export] Hint Resolve map_if_id length_map_if : todo.
