(* ===== verification/Types.v ===== *)
(** * Types: the data model of [src/src/types.ts]

    [Priority] is the string-literal union ['low' | 'medium' | 'high'];
    [Task.t] and [EditingTask.t] are the two interfaces, as records with
    the source's field names (each in its own module, since both have an
    [id], a [text] and a [priority]).  The priority literals are the
    strings the code compares, renders and persists. *)

From Stdlib Require Import Ascii String.
From stdpp Require Import base list gmap strings.
From S2P Require Import Prelude.

Inductive Priority := Low | Medium | High.

#[export] Instance Priority_eq_dec : EqDecision Priority.
Proof. solve_decision. Defined.

(** The string literal of each member of the union. *)
Definition priority_to_string (p : Priority) : string :=
  match p with
  | Low => "low"
  | Medium => "medium"
  | High => "high"
  end.

(** The inverse partial map: which strings are members of the union. *)
Definition priority_of_string (s : string) : option Priority :=
  if bool_decide (s = "low") then Some Low
  else if bool_decide (s = "medium") then Some Medium
  else if bool_decide (s = "high") then Some High
  else None.

#[export] Instance Priority_countable : Countable Priority.
Proof.
  refine (inj_countable' priority_to_string
            (fun s => default Medium (priority_of_string s)) _).
  by intros [].
Defined.

Module Task.
(** [export interface Task] *)
Record t := mk {
  id : string;
  text : string;
  completed : bool;
  priority : Priority
}.
End Task.

Module EditingTask.
(** [export interface EditingTask] *)
Record t := mk {
  id : string;
  text : string;
  priority : Priority
}.
End EditingTask.

#[export] Instance Task_eq_dec : EqDecision Task.t.
Proof. solve_decision. Defined.

#[export] Instance EditingTask_eq_dec : EqDecision EditingTask.t.
Proof. solve_decision. Defined.

(** The ids of a task sequence, in order. *)
Definition task_ids (tasks : list Task.t) : list string := Task.id <$> tasks.

Lemma priority_of_to_string p : priority_of_string (priority_to_string p) = Some p.
Proof. by destruct p. Qed.

Lemma priority_of_string_Some s p :
  priority_of_string s = Some p -> s = priority_to_string p.
Proof.
  unfold priority_of_string.
  repeat case_bool_decide; intros; simplify_eq; done.
Qed.

#[export] Hint Resolve priority_of_to_string : todo.
#[export] Hint Rewrite priority_of_to_string : todo_rw.
