(* ===== verification/Vdom.v ===== *)
(** * Vdom: the element trees the components render

    A React component returns a tree of elements.  [node E] is such a tree
    whose event handlers produce messages of type [E]: an element has a tag
    (an HTML tag such as ["div"], ["input"], ["select"], ["button"], or the
    name of a component rendered as a leaf: an icon of [lucide-react], or
    [ThemeToggle]), its attributes in the order the JSX writes them, and
    its children; a text node holds a string.  The handler attributes are
    the three the program binds: [onClick], [onChange], which receives
    [e.target.value], and [onSubmit].

    [listeners n] are the listeners React attaches for [n], in document
    order; [fires n e] holds when some user action on the rendered page
    dispatches [e]: a click on an element with [onClick], the submission of
    a form, a text typed into an input (any string), or the choice of one
    of a select's options (whose value is then [e.target.value]). *)

From Stdlib Require Import Ascii String.
From stdpp Require Import base list sets strings.
From S2P Require Import Prelude Types.

Inductive attr (E : Type) :=
| AClass (c : string)
| AKey (k : string)
| AType (t : string)
| AValue (v : string)
| APlaceholder (p : string)
| ASize (n : nat)
| AOnClick (e : E)
| AOnChange (h : string -> option E)
| AOnSubmit (e : E).

#[warnings="-register-all"]
Inductive node (E : Type) :=
| Elem (tag : string) (attrs : list (attr E)) (children : list (node E))
| Text (s : string).

Arguments AClass {E} _. Arguments AKey {E} _. Arguments AType {E} _.
Arguments AValue {E} _. Arguments APlaceholder {E} _. Arguments ASize {E} _.
Arguments AOnClick {E} _. Arguments AOnChange {E} _. Arguments AOnSubmit {E} _.
Arguments Elem {E} _ _ _. Arguments Text {E} _.

(** An event listener, with what it can dispatch. *)
Inductive listener (E : Type) :=
| LClick (e : E)
| LSubmit (e : E)
| LInput (h : string -> option E)
| LSelect (values : list string) (h : string -> option E).

Arguments LClick {E} _. Arguments LSubmit {E} _.
Arguments LInput {E} _. Arguments LSelect {E} _ _.

Section Listeners.
Context {E : Type}.

(** The [value] attribute of an element. *)
Definition attr_value (attrs : list (attr E)) : option string :=
  head (omap (fun a => match a with AValue v => Some v | _ => None end) attrs).

(** The values of the [<option>] children of a select. *)
Definition option_values (children : list (node E)) : list string :=
  omap (fun c => match c with
                 | Elem tag attrs _ => if bool_decide (tag = "option") then attr_value attrs else None
                 | Text _ => None
                 end) children.

Definition attr_listener (tag : string) (children : list (node E)) (a : attr E)
    : option (listener E) :=
  match a with
  | AOnClick e => Some (LClick e)
  | AOnSubmit e => Some (LSubmit e)
  | AOnChange h =>
      Some (if bool_decide (tag = "select") then LSelect (option_values children) h else LInput h)
  | _ => None
  end.

Fixpoint listeners (n : node E) : list (listener E) :=
  match n with
  | Text _ => []
  | Elem tag attrs children =>
      omap (attr_listener tag children) attrs ++
      (fix go (l : list (node E)) : list (listener E) :=
         match l with [] => [] | c :: l' => listeners c ++ go l' end) children
  end.

(** What a user action on a listener dispatches. *)
Definition triggers (e : E) (l : listener E) : Prop :=
  match l with
  | LClick e' | LSubmit e' => e = e'
  | LInput h => exists v, h v = Some e
  | LSelect vs h => exists v, v ∈ vs /\ h v = Some e
  end.

(** Some listener of [n] satisfies [P]. *)
Definition has_listener (P : listener E -> Prop) (n : node E) : Prop := Exists P (listeners n).

Definition fires (n : node E) (e : E) : Prop := has_listener (triggers e) n.

(** The [key] of an element. *)
Definition key_of (n : node E) : option string :=
  match n with
  | Elem _ attrs _ => head (omap (fun a => match a with AKey k => Some k | _ => None end) attrs)
  | Text _ => None
  end.

End Listeners.

(** The three [<option>]s of both priority selects. *)
Definition priority_options {E} : list (node E) :=
  [Elem "option" [AValue "low"] [Text "Low"];
   Elem "option" [AValue "medium"] [Text "Medium"];
   Elem "option" [AValue "high"] [Text "High"]].

(** The [onChange] of a priority select, [(e) => f(e.target.value as 'low'
    | 'medium' | 'high')]: the assertion is unchecked in the code; the
    model reads the value as a member of the union, and
    [priority_select_values] shows that every value the select offers is
    one. *)
Definition select_priority {E} (f : Priority -> E) (v : string) : option E :=
  f <$> priority_of_string v.

(** ** Lemmas *)

Lemma listeners_Elem {E} tag (attrs : list (attr E)) children :
  listeners (Elem tag attrs children) =
  omap (attr_listener tag children) attrs ++ concat (listeners <$> children).
Proof.
  simpl. f_equal. induction children as [|c l IH]; [done|]. simpl. by rewrite IH.
Qed.

Lemma has_listener_Elem {E} (P : listener E -> Prop) tag attrs children :
  has_listener P (Elem tag attrs children) <->
  Exists P (omap (attr_listener tag children) attrs) \/
  exists c, c ∈ children /\ has_listener P c.
Proof.
  unfold has_listener. rewrite listeners_Elem, Exists_app. apply or_iff_compat_l.
  rewrite Exists_exists. split.
  - intros (l & Hl & Ht). apply list_elem_of_In, in_concat in Hl as (ls & Hls & Hin).
    apply list_elem_of_In, list_elem_of_fmap in Hls as (c & -> & Hc).
    exists c. split; [done|]. apply Exists_exists.
    exists l. split; [by apply list_elem_of_In|done].
  - intros (c & Hc & (l & Hl & Ht)%Exists_exists). exists l. split; [|done].
    apply list_elem_of_In, in_concat. exists (listeners c).
    split; [apply list_elem_of_In, list_elem_of_fmap_2, Hc|by apply list_elem_of_In].
Qed.

Lemma priority_select_values {E} v :
  v ∈ option_values (E:=E) priority_options <-> exists p, v = priority_to_string p.
Proof.
  assert (option_values (E:=E) priority_options = ["low"; "medium"; "high"]) as ->
    by reflexivity.
  split.
  - rewrite !elem_of_cons, elem_of_nil.
    intros [->|[->|[->|[]]]]; [exists Low|exists Medium|exists High]; done.
  - intros [[] ->]; simpl; set_solver.
Qed.

Lemma select_priority_to_string {E} (f : Priority -> E) p :
  select_priority f (priority_to_string p) = Some (f p).
Proof. by destruct p. Qed.

(** A priority select dispatches exactly the three priorities. *)
Lemma triggers_select_priority {E} (f : Priority -> E) e :
  triggers e (LSelect (option_values (E:=E) priority_options) (select_priority f)) <->
  exists p, e = f p.
Proof.
  cbn [triggers]. split.
  - intros (v & Hv & He). apply priority_select_values in Hv as [p ->].
    rewrite select_priority_to_string in He. injection He as <-. by exists p.
  - intros [p ->]. exists (priority_to_string p).
    split; [apply (priority_select_values (E:=E)); by exists p|apply select_priority_to_string].
Qed.

(** A text input dispatches its handler's message for every string. *)
Lemma triggers_input {E} (g : string -> E) e :
  triggers e (LInput (fun v => Some (g v))) <-> exists v, e = g v.
Proof. simpl. split; intros [v H]; exists v; congruence. Qed.

(** An element with no handler of its own has the listeners of its
    children. *)
Lemma has_listener_children {E} (P : listener E -> Prop) tag attrs children :
  omap (attr_listener tag children) attrs = [] ->
  has_listener P (Elem tag attrs children) <-> Exists (has_listener P) children.
Proof.
  intros Hnone. rewrite has_listener_Elem, Hnone, Exists_nil, Exists_exists. naive_solver.
Qed.

(** A subtree without listeners fires nothing. *)
Lemma has_listener_inert {E} (P : listener E -> Prop) (n : node E) :
  listeners n = [] -> has_listener P n <-> False.
Proof. unfold has_listener. intros ->. by rewrite Exists_nil. Qed.
