(* ===== verification/TaskStore.v ===== *)
(** * TaskStore: the task collection of [src/src/App.tsx]

    [App] keeps [tasks : Task[]] in React state and changes it only
    through the four callbacks [addTask], [toggleTask], [deleteTask] and
    [updateTask]; each builds a new array from the old one.  They are
    modelled here as pure functions on [list Task.t].  The fresh id that
    [addTask] draws from [crypto.randomUUID()] is an argument: the
    environment that produces it is modelled in [App.v].

    Module [Spec] states what the store promises as an abstract state
    (the order of the ids and a finite map from id to the task's data);
    [store_refines] shows that each operation implements its abstract
    counterpart. *)

From Stdlib Require Import Ascii String.
From stdpp Require Import base list gmap strings.
From S2P Require Import Prelude Types.

Module TaskStore.

(** [task.id === id], the test every callback applies to each task. *)
Definition has_id (id : string) (task : Task.t) : bool :=
  bool_decide (Task.id task = id).

(** [addTask]: append [{ id: crypto.randomUUID(), text, completed: false,
    priority }] to the end of the array. *)
Definition addTask (uuid : string) (text : string) (priority : Priority)
    (tasks : list Task.t) : list Task.t :=
  tasks ++ [Task.mk uuid text false priority].

(** [{ ...task, completed: !task.completed }] *)
Definition toggled (task : Task.t) : Task.t :=
  Task.mk (Task.id task) (Task.text task) (negb (Task.completed task))
    (Task.priority task).

(** [toggleTask]: [tasks.map(task => task.id === id ? toggled : task)]. *)
Definition toggleTask (id : string) (tasks : list Task.t) : list Task.t :=
  map_if (has_id id) toggled tasks.

(** [deleteTask]: [tasks.filter(task => task.id !== id)]. *)
Definition deleteTask (id : string) (tasks : list Task.t) : list Task.t :=
  List.filter (fun task => negb (has_id id task)) tasks.

(** [{ ...task, text, priority }] *)
Definition edited (text : string) (priority : Priority) (task : Task.t) : Task.t :=
  Task.mk (Task.id task) text (Task.completed task) priority.

(** [updateTask]: [tasks.map(task => task.id === id ? edited : task)]. *)
Definition updateTask (id : string) (text : string) (priority : Priority)
    (tasks : list Task.t) : list Task.t :=
  map_if (has_id id) (edited text priority) tasks.

(** The two counters rendered under the input form. *)
Definition activeTasks (tasks : list Task.t) : nat :=
  length (List.filter (fun task => negb (Task.completed task)) tasks).

Definition completedTasks (tasks : list Task.t) : nat :=
  length (List.filter Task.completed tasks).

(** The collection invariant of the spec: ids are pairwise distinct. *)
Definition ids_unique (tasks : list Task.t) : Prop := NoDup (task_ids tasks).

#[export] Instance ids_unique_dec tasks : Decision (ids_unique tasks).
Proof. unfold ids_unique. apply _. Defined.

(** ** Helper lemmas *)

Lemma has_id_true id task : has_id id task = true <-> Task.id task = id.
Proof. unfold has_id. by rewrite bool_decide_eq_true. Qed.

Lemma has_id_false id task : has_id id task = false <-> Task.id task <> id.
Proof. unfold has_id. by rewrite bool_decide_eq_false. Qed.

Lemma not_in_ids_Forall id (tasks : list Task.t) :
  id ∉ task_ids tasks -> Forall (fun t => has_id id t = false) tasks.
Proof.
  intros Hn. apply Forall_forall. intros t Ht. apply has_id_false.
  intros <-. apply Hn. by apply list_elem_of_fmap_2.
Qed.

(** In a collection with unique ids, the task with a given id is the only
    one that has it. *)
Lemma ids_unique_split l1 t l2 :
  ids_unique (l1 ++ t :: l2) ->
  Forall (fun u => has_id (Task.id t) u = false) l1 /\
  Forall (fun u => has_id (Task.id t) u = false) l2.
Proof.
  unfold ids_unique, task_ids. rewrite fmap_app, fmap_cons.
  intros [_ [Hdisj Hk]]%NoDup_app.
  apply NoDup_cons in Hk as [Hk _].
  split; apply not_in_ids_Forall; [|done].
  intros Hin. apply (Hdisj _ Hin). by left.
Qed.

Lemma task_ids_map_if p f tasks :
  (forall t, Task.id (f t) = Task.id t) ->
  task_ids (map_if p f tasks) = task_ids tasks.
Proof. intros Hf. by apply fmap_map_if. Qed.


(** Changing every task with a given id, when exactly one has it. *)
Lemma map_if_has_id_split l1 t l2 f :
  ids_unique (l1 ++ t :: l2) ->
  map_if (has_id (Task.id t)) f (l1 ++ t :: l2) = l1 ++ f t :: l2.
Proof.
  intros [H1 H2]%ids_unique_split. apply map_if_one; [done|done|].
  by apply has_id_true.
Qed.

Lemma filter_has_id_split l1 t l2 :
  ids_unique (l1 ++ t :: l2) ->
  List.filter (fun u => negb (has_id (Task.id t) u)) (l1 ++ t :: l2) = l1 ++ l2.
Proof.
  intros [H1 H2]%ids_unique_split. apply filter_negb_one; [done|done|].
  by apply has_id_true.
Qed.

#[export] Hint Resolve not_in_ids_Forall : todo.

Lemma task_ids_addTask uuid text p tasks :
  task_ids (addTask uuid text p tasks) = task_ids tasks ++ [uuid].
Proof. unfold addTask, task_ids. by rewrite fmap_app. Qed.

Lemma task_ids_toggleTask id tasks : task_ids (toggleTask id tasks) = task_ids tasks.
Proof. by apply task_ids_map_if. Qed.

Lemma task_ids_updateTask id text p tasks :
  task_ids (updateTask id text p tasks) = task_ids tasks.
Proof. by apply task_ids_map_if. Qed.

(** [filter(task => task.id !== id)] keeps exactly the tasks with another
    id. *)
Lemma elem_of_deleteTask u id tasks :
  u ∈ deleteTask id tasks <-> u ∈ tasks /\ Task.id u <> id.
Proof.
  unfold deleteTask. rewrite !list_elem_of_In, filter_In, negb_true_iff, has_id_false.
  done.
Qed.

Lemma elem_of_task_ids_deleteTask j id tasks :
  j ∈ task_ids (deleteTask id tasks) <-> j ∈ task_ids tasks /\ j <> id.
Proof.
  unfold task_ids, deleteTask. rewrite !list_elem_of_fmap. split.
  - intros (t & -> & Ht). apply list_elem_of_In, filter_In in Ht as [Ht Hn].
    split; [exists t; split; [done|by apply list_elem_of_In]|].
    apply negb_true_iff, has_id_false in Hn. done.
  - intros [(t & -> & Ht) Hn]. exists t. split; [done|].
    apply list_elem_of_In, filter_In. split; [by apply list_elem_of_In|].
    apply negb_true_iff, has_id_false. done.
Qed.

#[export] Hint Rewrite task_ids_addTask task_ids_toggleTask task_ids_updateTask : todo_rw.

(** ** Functional behaviour of each operation *)

(** C9: [addTask] with a fresh id appends exactly one task: the existing
    tasks stay in front, in their order, the new task is not completed and
    carries the given text and priority, and the ids stay pairwise
    distinct. *)
Theorem addTask_spec uuid text p tasks :
  ids_unique tasks -> uuid ∉ task_ids tasks ->
  length (addTask uuid text p tasks) = S (length tasks) /\
  take (length tasks) (addTask uuid text p tasks) = tasks /\
  last (addTask uuid text p tasks) = Some (Task.mk uuid text false p) /\
  ids_unique (addTask uuid text p tasks).
Proof.
  intros Hu Hfresh. unfold addTask. split_and!.
  - rewrite length_app. simpl. lia.
  - apply take_app_length.
  - by rewrite last_snoc.
  - unfold ids_unique, task_ids. rewrite fmap_app. simpl.
    apply NoDup_app. split_and!; [done| |by apply NoDup_singleton].
    intros x Hx ->%list_elem_of_singleton. done.
Qed.

(** toggling the same id twice gives back the original collection. *)
Lemma toggleTask_involutive id tasks :
  toggleTask id (toggleTask id tasks) = tasks.
Proof.
  unfold toggleTask. rewrite map_if_map_if by (intros [] ?; done).
  induction tasks as [|[i x c p] tasks IH]; [done|].
  rewrite map_if_cons, IH. simpl. by destruct (has_id id _), c.
Qed.

(** C10: with unique ids, [toggleTask] flips [completed] of the one task with
    that id, and leaves every other task, and the order, unchanged. *)
Theorem toggleTask_one l1 t l2 :
  ids_unique (l1 ++ t :: l2) ->
  toggleTask (Task.id t) (l1 ++ t :: l2) =
  l1 ++ Task.mk (Task.id t) (Task.text t) (negb (Task.completed t)) (Task.priority t) :: l2.
Proof. apply map_if_has_id_split. Qed.

(** C11: with unique ids, [updateTask] replaces the text and the priority of
    the one task with that id and keeps its id and its [completed] flag; the
    other tasks and the order are unchanged. *)
Theorem updateTask_one l1 t l2 text p :
  ids_unique (l1 ++ t :: l2) ->
  updateTask (Task.id t) text p (l1 ++ t :: l2) =
  l1 ++ Task.mk (Task.id t) text (Task.completed t) p :: l2.
Proof. apply map_if_has_id_split. Qed.

(** C12: with unique ids, [deleteTask] removes exactly the task with that id
    and keeps the others in their relative order. *)
Theorem deleteTask_one l1 t l2 :
  ids_unique (l1 ++ t :: l2) ->
  deleteTask (Task.id t) (l1 ++ t :: l2) = l1 ++ l2.
Proof. apply filter_has_id_split. Qed.

(** C13: an id that is in no task makes [toggleTask], [updateTask] and
    [deleteTask] silent no-ops. *)
Theorem absent_id_noop id text p tasks :
  id ∉ task_ids tasks ->
  toggleTask id tasks = tasks /\ updateTask id text p tasks = tasks /\
  deleteTask id tasks = tasks.
Proof.
  intros Hn%not_in_ids_Forall. split_and!;
    [by apply map_if_id|by apply map_if_id|by apply filter_negb_id].
Qed.

(** The two counters add up to the number of tasks. *)
Theorem counters_partition tasks :
  activeTasks tasks + completedTasks tasks = length tasks.
Proof. apply (length_filter_split Task.completed). Qed.

Lemma completedTasks_app l1 l2 :
  completedTasks (l1 ++ l2) = completedTasks l1 + completedTasks l2.
Proof. unfold completedTasks. by rewrite List.filter_app, length_app. Qed.

(** C31: with unique ids, toggling a task of the collection moves the
    completed counter by exactly one, up or down according to its flag. *)
Theorem toggle_completed_count t tasks :
  ids_unique tasks -> t ∈ tasks ->
  completedTasks (toggleTask (Task.id t) tasks) =
  if Task.completed t then completedTasks tasks - 1 else S (completedTasks tasks).
Proof.
  intros Hu (l1 & l2 & ->)%list_elem_of_split.
  unfold toggleTask. rewrite map_if_has_id_split by done. rewrite !completedTasks_app.
  unfold completedTasks. simpl. destruct (Task.completed t); simpl; lia.
Qed.

(** ** Abstract specification and refinement *)

(** What the store promises (spec §4.1), independently of the array: an
    order of ids and, for each id, the task's data. *)
Module Spec.
Record Entry := entry { text : string; completed : bool; priority : Priority }.
Record Store := store { order : list string; entries : gmap string Entry }.

Definition add (uuid text : string) (p : Priority) (s : Store) : Store :=
  store (order s ++ [uuid]) (<[uuid := entry text false p]> (entries s)).
Definition toggle (id : string) (s : Store) : Store :=
  store (order s)
    (alter (fun e => entry (text e) (negb (completed e)) (priority e)) id (entries s)).
Definition update (id text : string) (p : Priority) (s : Store) : Store :=
  store (order s) (alter (fun e => entry text (completed e) p) id (entries s)).
Definition delete (id : string) (s : Store) : Store :=
  store (List.filter (fun j => negb (bool_decide (j = id))) (order s))
    (base.delete id (entries s)).
End Spec.

(** The store commands, as the UI issues them through the callbacks. *)
Inductive Cmd :=
| CmdAdd (uuid text : string) (p : Priority)
| CmdToggle (id : string)
| CmdUpdate (id text : string) (p : Priority)
| CmdDelete (id : string).

Definition run_cmd (c : Cmd) (tasks : list Task.t) : list Task.t :=
match c with
| CmdAdd u x p => addTask u x p tasks
| CmdToggle i => toggleTask i tasks
| CmdUpdate i x p => updateTask i x p tasks
| CmdDelete i => deleteTask i tasks
end.

Definition spec_cmd (c : Cmd) (s : Spec.Store) : Spec.Store :=
match c with
| CmdAdd u x p => Spec.add u x p s
| CmdToggle i => Spec.toggle i s
| CmdUpdate i x p => Spec.update i x p s
| CmdDelete i => Spec.delete i s
end.

(** The only precondition: the id drawn for a new task is fresh. *)
Definition cmd_pre (c : Cmd) (tasks : list Task.t) : Prop :=
match c with
| CmdAdd u _ _ => u ∉ task_ids tasks
| _ => True
end.

Definition entry_of (t : Task.t) : Spec.Entry :=
Spec.entry (Task.text t) (Task.completed t) (Task.priority t).

Definition entries_of (tasks : list Task.t) : gmap string Spec.Entry :=
list_to_map ((fun t => (Task.id t, entry_of t)) <$> tasks).

(** The abstraction function. *)
Definition abs (tasks : list Task.t) : Spec.Store :=
Spec.store (task_ids tasks) (entries_of tasks).

(** The concretisation: rebuild the array from the abstract store. *)
Definition concretize (s : Spec.Store) : list Task.t :=
omap (fun i => (fun e => Task.mk i (Spec.text e) (Spec.completed e) (Spec.priority e))
                 <$> Spec.entries s !! i) (Spec.order s).

Lemma entries_of_cons t tasks :
entries_of (t :: tasks) = <[Task.id t := entry_of t]> (entries_of tasks).
Proof. done. Qed.

(** Changing the tasks of one id changes the entry of that id (the map
  keeps the first task of each id; all of them are changed). *)
Lemma entries_of_map_if id f g tasks :
(forall t, Task.id (f t) = Task.id t) ->
(forall t, entry_of (f t) = g (entry_of t)) ->
entries_of (map_if (has_id id) f tasks) = alter g id (entries_of tasks).
Proof.
intros Hid Hg. induction tasks as [|t tasks IH]; [done|].
rewrite map_if_cons, !entries_of_cons, IH.
destruct (has_id id t) eqn:E.
- apply has_id_true in E as <-. rewrite Hid, Hg, alter_insert_eq.
  apply insert_alter_eq.
- apply has_id_false in E. by rewrite alter_insert_ne.
Qed.

Lemma entries_of_filter id tasks :
entries_of (List.filter (fun u => negb (has_id id u)) tasks) =
delete id (entries_of tasks).
Proof.
induction tasks as [|t tasks IH].
{ unfold entries_of. simpl. by rewrite delete_empty. }
simpl. rewrite entries_of_cons. destruct (has_id id t) eqn:E; simpl.
- apply has_id_true in E as <-. by rewrite IH, delete_insert_eq.
- apply has_id_false in E. rewrite entries_of_cons, IH.
  by rewrite delete_insert_ne.
Qed.

Lemma entries_of_snoc tasks t :
Task.id t ∉ task_ids tasks ->
entries_of (tasks ++ [t]) = <[Task.id t := entry_of t]> (entries_of tasks).
Proof.
intros Hn. unfold entries_of. rewrite fmap_app. apply list_to_map_snoc.
by rewrite <-list_fmap_compose.
Qed.

Lemma task_ids_filter id tasks :
task_ids (List.filter (fun u => negb (has_id id u)) tasks) =
List.filter (fun j => negb (bool_decide (j = id))) (task_ids tasks).
Proof.
unfold task_ids, has_id in *.
induction tasks as [|t tasks IH]; [done|].
rewrite fmap_cons. cbn [List.filter].
destruct (bool_decide (Task.id t = id)); cbn [negb]; [done|].
by rewrite fmap_cons, IH.
Qed.

Lemma run_cmd_abs c tasks :
cmd_pre c tasks -> abs (run_cmd c tasks) = spec_cmd c (abs tasks).
Proof.
destruct c as [u x p|i|i x p|i]; simpl; intros Hpre; unfold abs.
- unfold addTask, Spec.add, task_ids. rewrite fmap_app. f_equal.
  by apply (entries_of_snoc tasks (Task.mk u x false p)).
- unfold toggleTask, Spec.toggle. f_equal; [by apply task_ids_map_if|].
  by apply entries_of_map_if.
- unfold updateTask, Spec.update. f_equal; [by apply task_ids_map_if|].
  by apply entries_of_map_if.
- unfold deleteTask, Spec.delete. f_equal; [apply task_ids_filter|].
  apply entries_of_filter.
Qed.

(** C3: refinement: each store operation, run on the array, is its
  abstract counterpart on the abstraction (the order of ids and the map
  from ids to data), provided a new task's id is fresh. *)
Theorem store_refines c tasks :
cmd_pre c tasks -> abs (run_cmd c tasks) = spec_cmd c (abs tasks).
Proof. apply run_cmd_abs. Qed.

Lemma concretize_lookup (m : gmap string Spec.Entry) (l : list Task.t) :
Forall (fun t => m !! Task.id t = Some (entry_of t)) l ->
omap (fun i => (fun e => Task.mk i (Spec.text e) (Spec.completed e) (Spec.priority e))
                 <$> m !! i) (task_ids l) = l.
Proof.
induction 1 as [|[i x c p] l Ht _ IH]; [done|].
unfold task_ids in *. rewrite fmap_cons. simpl in Ht.
simpl. rewrite Ht. simpl. f_equal. exact IH.
Qed.

Lemma entries_of_lookup tasks t :
ids_unique tasks -> t ∈ tasks -> entries_of tasks !! Task.id t = Some (entry_of t).
Proof.
intros Hu Ht. apply elem_of_list_to_map_1.
- by rewrite <-list_fmap_compose.
- by apply (list_elem_of_fmap_2 (fun t => (Task.id t, entry_of t))).
Qed.

(** the abstraction loses nothing: for a collection with unique ids,
  the array is rebuilt from the abstract store. *)
Lemma concretize_abs tasks :
ids_unique tasks -> concretize (abs tasks) = tasks.
Proof.
intros Hu. apply concretize_lookup, Forall_forall.
intros t Ht. by apply entries_of_lookup.
Qed.

(** ** Witnesses on concrete collections *)

Definition ex_milk : Task.t := Task.mk "a" "Buy milk" false Low.
Definition ex_alice : Task.t := Task.mk "b" "Call Alice" false High.

Lemma addTask_spec_witness :
  length (addTask "b" "Call Alice" High [ex_milk]) = 2 /\
  take (length [ex_milk]) (addTask "b" "Call Alice" High [ex_milk]) = [ex_milk] /\
  last (addTask "b" "Call Alice" High [ex_milk]) = Some (Task.mk "b" "Call Alice" false High) /\
  ids_unique (addTask "b" "Call Alice" High [ex_milk]).
Proof. apply addTask_spec; decide_prop. Defined.

Lemma toggleTask_one_witness :
  toggleTask (Task.id ex_milk) ([] ++ ex_milk :: [ex_alice]) =
  [] ++ Task.mk "a" "Buy milk" true Low :: [ex_alice].
Proof. apply (toggleTask_one [] ex_milk [ex_alice]). decide_prop. Defined.

Lemma updateTask_one_witness :
  updateTask (Task.id ex_alice) "Call Bob" Medium ([ex_milk] ++ ex_alice :: []) =
  [ex_milk] ++ Task.mk "b" "Call Bob" false Medium :: [].
Proof. apply (updateTask_one [ex_milk] ex_alice [] "Call Bob" Medium). decide_prop. Defined.

Lemma deleteTask_one_witness :
  deleteTask (Task.id ex_milk) ([] ++ ex_milk :: [ex_alice]) = [] ++ [ex_alice].
Proof. apply (deleteTask_one [] ex_milk [ex_alice]). decide_prop. Defined.

Lemma absent_id_noop_witness :
  toggleTask "z" [ex_milk; ex_alice] = [ex_milk; ex_alice] /\
  updateTask "z" "x" Low [ex_milk; ex_alice] = [ex_milk; ex_alice] /\
  deleteTask "z" [ex_milk; ex_alice] = [ex_milk; ex_alice].
Proof. apply absent_id_noop. decide_prop. Defined.

Lemma store_refines_witness :
  abs (run_cmd (CmdAdd "c" "Pay rent" High) [ex_milk; ex_alice]) =
  spec_cmd (CmdAdd "c" "Pay rent" High) (abs [ex_milk; ex_alice]).
Proof. apply store_refines. simpl. decide_prop. Defined.

Lemma toggle_completed_count_witness :
  completedTasks (toggleTask (Task.id ex_milk) [ex_milk; ex_alice]) = S (completedTasks [ex_milk; ex_alice]).
Proof. apply (toggle_completed_count ex_milk); [decide_prop|decide_prop]. Defined.

Lemma concretize_abs_witness : concretize (abs [ex_milk; ex_alice]) = [ex_milk; ex_alice].
Proof. apply concretize_abs. decide_prop. Defined.

End TaskStore.
