(* ===== verification/JsString.v ===== *)
(** * JsString: the JavaScript string operations the components call

    Task texts, ids and the persisted text are JavaScript strings, that is
    sequences of UTF-16 code units.  The development models a string as a
    Rocq [string] whose characters are the code units 0..255 (an [ascii] is
    8 bits): Latin-1, which contains every character the code compares with.
    This file models, from the ECMAScript specification, the two built-ins
    that the guards [if (task.trim())] (TaskInput.tsx) and
    [editingTask.text.trim()] (TaskList.tsx) rely on:
    - [String.prototype.trim] removes leading and trailing WhiteSpace and
      LineTerminator code units; among 0..255 these are TAB, LF, VT, FF, CR,
      SPACE and NO-BREAK SPACE (U+00A0);
    - a string is truthy exactly when it is not empty. *)

From Stdlib Require Import Ascii String.
From stdpp Require Import base list strings.
From S2P Require Import Prelude.

(** WhiteSpace or LineTerminator, restricted to the modelled code units. *)
Definition is_js_space (c : ascii) : bool :=
  match nat_of_ascii c with
  | 9 | 10 | 11 | 12 | 13 | 32 | 160 => true
  | _ => false
  end.

Fixpoint trim_start (s : string) : string :=
  match s with
  | EmptyString => EmptyString
  | String c r => if is_js_space c then trim_start r else s
  end.

Fixpoint trim_end (s : string) : string :=
  match s with
  | EmptyString => EmptyString
  | String c r =>
      match trim_end r with
      | EmptyString => if is_js_space c then EmptyString else String c EmptyString
      | r' => String c r'
      end
  end.

(** [s.trim()] *)
Definition trim (s : string) : string := trim_end (trim_start s).

(** ToBoolean on a string. *)
Definition js_truthy (s : string) : bool :=
  match s with EmptyString => false | String _ _ => true end.

(** The strings whose every code unit is white space. *)
Fixpoint blank (s : string) : bool :=
  match s with
  | EmptyString => true
  | String c r => is_js_space c && blank r
  end.

Lemma trim_start_blank s : trim_start s = EmptyString <-> blank s = true.
Proof.
  induction s as [|c r IH]; simpl; [done|].
  destruct (is_js_space c); simpl; [done|]. split; discriminate.
Qed.

Lemma trim_end_empty s : trim_end s = EmptyString <-> blank s = true.
Proof.
  induction s as [|c r IH]; simpl; [done|].
  destruct (trim_end r) eqn:E.
  - destruct (is_js_space c); simpl; [by rewrite <-IH|]. split; discriminate.
  - rewrite andb_true_iff, <-IH. split; [discriminate|]. intros [_ H]. discriminate H.
Qed.

Lemma trim_start_not_blank s :
  blank s = false -> blank (trim_start s) = false.
Proof.
  induction s as [|c r IH]; simpl; intros H; [done|].
  destruct (is_js_space c) eqn:E; simpl in *; rewrite ?E; auto.
Qed.

(** The guard of both forms: the trimmed text is truthy exactly when the
    text has a code unit that is not white space. *)
Lemma js_truthy_trim s : js_truthy (trim s) = negb (blank s).
Proof.
  unfold trim. destruct (blank s) eqn:B.
  - apply trim_start_blank in B. by rewrite B.
  - apply trim_start_not_blank in B.
    destruct (trim_end (trim_start s)) eqn:E; [|done].
    apply trim_end_empty in E. congruence.
Qed.

#[export] Hint Rewrite js_truthy_trim : todo_rw.
