(* ===== verification/Json.v ===== *)
(** * Json: the [JSON.stringify] / [JSON.parse] pair the storage uses

    [App.tsx] persists [JSON.stringify(tasks)] and reads the collection back
    with [JSON.parse(savedTasks)].  Both are ECMAScript built-ins, modelled
    here from the ECMAScript specification (ECMA-262, JSON object) on the
    value shapes the program handles:
    - [json] is a JSON value: null, booleans, numbers, strings, arrays and
      objects (an object as the list of its properties in creation order);
    - [stringify] is SerializeJSONProperty without indentation, with
      QuoteJSONString's escapes (the seven short escapes, [\u00xx] with
      lowercase hex digits for the other control characters);
    - [parse_value] is the JSON grammar with white space (TAB, LF, CR,
      SPACE) between tokens, string escapes including [\uXXXX]; a repeated
      key in an object keeps its first position and takes the last value
      (CreateDataProperty); [JSON_parse] also requires that only white space
      follows the value.  Failure is [None]: the [SyntaxError] the built-in
      throws, or an escape the model cannot hold;
    - [JSON_accepts] is the grammar alone (the lexer with a decoder that
      accepts every [\uXXXX]): a text it rejects is one [JSON.parse]
      throws on ([JSON_parse_accepts]).

    Numbers are parsed by the grammar of ECMA-404 and kept as their lexeme
    ([JNumber]); their IEEE value and [Number::toString] are not modelled
    (the tasks the program writes hold no number: [json_wf] excludes them
    from the round trip).  Not modelled: [\u] escapes of code units above 255
    (outside the modelled characters: [JSON_parse] fails on them although
    [JSON_accepts] holds), and the reordering of
    integer-like keys of JavaScript objects.

    [parse_value] is structurally recursive on a fuel argument;
    [JSON_parse] passes [S (length s)]; [JSON_parse_fuel_adequate] shows
    that no larger fuel changes the result. *)

From Stdlib Require Import Ascii String Lia.
From stdpp Require Import base list sets strings.
From S2P Require Import Prelude.

#[warnings="-register-all"]
Inductive json :=
| JNull
| JBool (b : bool)
| JNumber (lexeme : string)
| JString (s : string)
| JArray (l : list json)
| JObject (fields : list (string * json)).

(** The characters the escapes use, by their code. *)
Definition dq : ascii := "034"%char.     (* quotation mark *)
Definition bslash : ascii := "092"%char. (* reverse solidus *)

Definition str1 (c : ascii) : string := String c EmptyString.

Definition hex_digit (n : nat) : ascii :=
  ascii_of_nat (if n <? 10 then 48 + n else 87 + n).

(** QuoteJSONString, one code unit. *)
Definition escape_char (c : ascii) : string :=
  match nat_of_ascii c with
  | 8 => String bslash "b"
  | 9 => String bslash "t"
  | 10 => String bslash "n"
  | 12 => String bslash "f"
  | 13 => String bslash "r"
  | 34 => String bslash (str1 dq)
  | 92 => String bslash (str1 bslash)
  | n => if n <? 32
         then String bslash ("u00" +s+ String (hex_digit (n / 16)) (str1 (hex_digit (n mod 16))))
         else str1 c
  end.

Fixpoint escape_string (s : string) : string :=
  match s with
  | EmptyString => EmptyString
  | String c r => escape_char c +s+ escape_string r
  end.

Definition quote (s : string) : string := String dq (escape_string s +s+ str1 dq).

(** SerializeJSONProperty / SerializeJSONArray / SerializeJSONObject. *)
Fixpoint stringify (v : json) : string :=
  match v with
  | JNull => "null"
  | JBool true => "true"
  | JBool false => "false"
  | JNumber n => n
  | JString s => quote s
  | JArray [] => "[]"
  | JArray (x :: l) =>
      "[" +s+ stringify x +s+
      (fix rest (l : list json) : string :=
         match l with
         | [] => "]"
         | y :: l' => "," +s+ stringify y +s+ rest l'
         end) l
  | JObject [] => "{}"
  | JObject ((k, x) :: l) =>
      "{" +s+ quote k +s+ ":" +s+ stringify x +s+
      (fix rest (l : list (string * json)) : string :=
         match l with
         | [] => "}"
         | (k', y) :: l' => "," +s+ quote k' +s+ ":" +s+ stringify y +s+ rest l'
         end) l
  end.

(** ** Parsing *)

Definition is_json_ws (c : ascii) : bool :=
  match nat_of_ascii c with 9 | 10 | 13 | 32 => true | _ => false end.

Fixpoint skip_ws (s : string) : string :=
  match s with
  | String c r => if is_json_ws c then skip_ws r else s
  | EmptyString => EmptyString
  end.

Definition hex_val (c : ascii) : option nat :=
  let n := nat_of_ascii c in
  if (48 <=? n) && (n <=? 57) then Some (n - 48)
  else if (97 <=? n) && (n <=? 102) then Some (n - 87)
  else if (65 <=? n) && (n <=? 70) then Some (n - 55)
  else None.

(** The code unit of a [\uXXXX] escape, when it is a modelled one. *)
Definition unicode_escape (h1 h2 h3 h4 : ascii) : option ascii :=
  match hex_val h1, hex_val h2, hex_val h3, hex_val h4 with
  | Some a, Some b, Some c, Some d =>
      let n := ((a * 16 + b) * 16 + c) * 16 + d in
      if n <? 256 then Some (ascii_of_nat n) else None
  | _, _, _, _ => None
  end.

Definition cons_char (c : ascii) (o : option (string * string)) : option (string * string) :=
  match o with Some (s, r) => Some (String c s, r) | None => None end.

(** The lexer and the parser take the decoder of [\uXXXX] escapes as a
    parameter [uesc]: [JSON.parse] is the parser with [unicode_escape];
    the same grammar with a decoder that accepts every escape tells which
    texts are JSON at all ([JSON_accepts]). *)
Section Lexer.
Context (uesc : ascii -> ascii -> ascii -> ascii -> option ascii).

(** The characters of a string literal after its opening quote, up to and
    including the closing quote; returns the string and the rest. *)
Fixpoint parse_chars (s : string) : option (string * string) :=
  match s with
  | EmptyString => None
  | String c r =>
      if Ascii.eqb c dq then Some (EmptyString, r)
      else if Ascii.eqb c bslash then
        match r with
        | String e r' =>
            match nat_of_ascii e with
            | 34 => cons_char dq (parse_chars r')
            | 92 => cons_char bslash (parse_chars r')
            | 47 => cons_char "/"%char (parse_chars r')
            | 98 => cons_char "008"%char (parse_chars r')
            | 102 => cons_char "012"%char (parse_chars r')
            | 110 => cons_char "010"%char (parse_chars r')
            | 114 => cons_char "013"%char (parse_chars r')
            | 116 => cons_char "009"%char (parse_chars r')
            | 117 =>
                match r' with
                | String h1 (String h2 (String h3 (String h4 r''))) =>
                    match uesc h1 h2 h3 h4 with
                    | Some u => cons_char u (parse_chars r'')
                    | None => None
                    end
                | _ => None
                end
            | _ => None
            end
        | EmptyString => None
        end
      else if nat_of_ascii c <? 32 then None
      else cons_char c (parse_chars r)
  end.

(** *** Numbers (ECMA-404: [-? int frac? exp?]) *)

Definition is_digit (c : ascii) : bool :=
  (48 <=? nat_of_ascii c) && (nat_of_ascii c <=? 57).

(** The longest prefix of decimal digits, and the rest. *)
Fixpoint digits (s : string) : string * string :=
  match s with
  | String c r => if is_digit c then let '(ds, r') := digits r in (String c ds, r') else ("", s)
  | EmptyString => ("", "")
  end.

(** [int]: [0], or a nonzero digit and more digits. *)
Definition parse_int (s : string) : option (string * string) :=
  match s with
  | String c r =>
      if Ascii.eqb c "0" then Some (str1 c, r)
      else if is_digit c then let '(ds, r') := digits r in Some (String c ds, r')
      else None
  | EmptyString => None
  end.

(** [frac]: nothing, or [.] and one or more digits. *)
Definition parse_frac (s : string) : option (string * string) :=
  match s with
  | String c r =>
      if Ascii.eqb c "." then
        match digits r with
        | (String d ds, r') => Some (String c (String d ds), r')
        | (EmptyString, _) => None
        end
      else Some ("", s)
  | EmptyString => Some ("", "")
  end.

(** [exp]: nothing, or [e] or [E], an optional sign, and one or more
    digits. *)
Definition parse_exp (s : string) : option (string * string) :=
  match s with
  | String e r =>
      if Ascii.eqb e "e" || Ascii.eqb e "E" then
        let '(sign, r1) :=
          match r with
          | String c r' => if Ascii.eqb c "+" || Ascii.eqb c "-" then (str1 c, r') else ("", r)
          | EmptyString => ("", r)
          end in
        match digits r1 with
        | (String d ds, r2) => Some (String e (sign +s+ String d ds), r2)
        | (EmptyString, _) => None
        end
      else Some ("", s)
  | EmptyString => Some ("", "")
  end.

(** A number literal: its lexeme and the rest of the text. *)
Definition parse_number (s : string) : option (string * string) :=
  let '(minus, s1) := match s with String "-" r => ("-", r) | _ => ("", s) end in
  match parse_int s1 with
  | Some (i, r1) =>
      match parse_frac r1 with
      | Some (f, r2) =>
          match parse_exp r2 with
          | Some (e, r3) => Some (minus +s+ i +s+ f +s+ e, r3)
          | None => None
          end
      | None => None
      end
  | None => None
  end.

(** CreateDataProperty on the properties parsed so far. *)
Fixpoint set_field (fields : list (string * json)) (k : string) (v : json)
    : list (string * json) :=
  match fields with
  | [] => [(k, v)]
  | (k', v') :: l => if bool_decide (k = k') then (k, v) :: l else (k', v') :: set_field l k v
  end.

Definition build_object (members : list (string * json)) : list (string * json) :=
  fold_left (fun acc '(k, v) => set_field acc k v) members [].

Fixpoint parse_value (fuel : nat) (s : string) {struct fuel} : option (json * string) :=
  match fuel with
  | 0 => None
  | S f =>
      match skip_ws s with
      | String "n" (String "u" (String "l" (String "l" r))) => Some (JNull, r)
      | String "t" (String "r" (String "u" (String "e" r))) => Some (JBool true, r)
      | String "f" (String "a" (String "l" (String "s" (String "e" r)))) => Some (JBool false, r)
      | String "[" r =>
          match skip_ws r with
          | String c r' =>
              if Ascii.eqb c "]" then Some (JArray [], r')
              else match parse_elems f r with
                   | Some (l, r'') => Some (JArray l, r'')
                   | None => None
                   end
          | EmptyString => None
          end
      | String "{" r =>
          match skip_ws r with
          | String c r' =>
              if Ascii.eqb c "}" then Some (JObject [], r')
              else match parse_members f r with
                   | Some (l, r'') => Some (JObject (build_object l), r'')
                   | None => None
                   end
          | EmptyString => None
          end
      | String c r =>
          if Ascii.eqb c dq then
            match parse_chars r with
            | Some (str, r') => Some (JString str, r')
            | None => None
            end
          else
            match parse_number (String c r) with
            | Some (n, r') => Some (JNumber n, r')
            | None => None
            end
      | EmptyString => None
      end
  end
(** Array elements after [\[]: a value, then [,] and more or [\]]. *)
with parse_elems (fuel : nat) (s : string) {struct fuel} : option (list json * string) :=
  match fuel with
  | 0 => None
  | S f =>
      match parse_value f s with
      | Some (v, r) =>
          match skip_ws r with
          | String "," r' =>
              match parse_elems f r' with
              | Some (l, r'') => Some (v :: l, r'')
              | None => None
              end
          | String "]" r' => Some ([v], r')
          | _ => None
          end
      | None => None
      end
  end
(** Object members after [{]: a key, [:], a value, then [,] and more or [}]. *)
with parse_members (fuel : nat) (s : string) {struct fuel}
    : option (list (string * json) * string) :=
  match fuel with
  | 0 => None
  | S f =>
      match skip_ws s with
      | String c r =>
          if Ascii.eqb c dq then
            match parse_chars r with
            | Some (k, r1) =>
                match skip_ws r1 with
                | String ":" r2 =>
                    match parse_value f r2 with
                    | Some (v, r3) =>
                        match skip_ws r3 with
                        | String "," r4 =>
                            match parse_members f r4 with
                            | Some (l, r5) => Some ((k, v) :: l, r5)
                            | None => None
                            end
                        | String "}" r4 => Some ([(k, v)], r4)
                        | _ => None
                        end
                    | None => None
                    end
                | _ => None
                end
            | None => None
            end
          else None
      | EmptyString => None
      end
  end.

(** [JSON.parse(text)]: one value, then nothing but white space; the
    parser runs with [fuel]. *)
Definition JSON_parse_fuel (fuel : nat) (text : string) : option json :=
  match parse_value fuel text with
  | Some (v, r) => match skip_ws r with EmptyString => Some v | _ => None end
  | None => None
  end.

End Lexer.

(** The fuel [JSON_parse] gives is one more than the length of the text;
    [JSON_parse_fuel_adequate] shows that no larger fuel changes the
    result. *)
Definition JSON_parse (text : string) : option json :=
  JSON_parse_fuel unicode_escape (S (String.length text)) text.

(** A decoder that accepts every escape of four hexadecimal digits (its
    code unit is irrelevant: only success matters). *)
Definition any_escape (h1 h2 h3 h4 : ascii) : option ascii :=
  match hex_val h1, hex_val h2, hex_val h3, hex_val h4 with
  | Some a, Some _, Some _, Some _ => Some (ascii_of_nat a)
  | _, _, _, _ => None
  end.

(** The text is JSON: the grammar accepts it, whatever code units its
    escapes denote.  [JSON_parse] fails on such a text only for an escape
    above U+00FF, a code unit the model of strings cannot hold. *)
Definition JSON_accepts (text : string) : bool :=
  bool_decide (is_Some (JSON_parse_fuel any_escape (S (String.length text)) text)).

(** [JSON.stringify(value)] *)
Definition JSON_stringify (v : json) : string := stringify v.

(** ** Round trip: [JSON.parse] inverts [JSON.stringify] *)

(** Every code unit, escaped, is read back by the string lexer; the proof
    checks the 256 code units one by one. *)
Lemma parse_chars_escape_char c t :
  parse_chars unicode_escape (escape_char c +s+ t) = cons_char c (parse_chars unicode_escape t).
Proof.
  destruct c as [[] [] [] [] [] [] [] []]; reflexivity.
Qed.

Lemma parse_chars_escape_string s t :
  parse_chars unicode_escape (escape_string s +s+ String dq t) = Some (s, t).
Proof.
  induction s as [|c s IH]; [reflexivity|].
  simpl. rewrite sapp_assoc, parse_chars_escape_char, IH. done.
Qed.

Lemma str1_app c t : str1 c +s+ t = String c t.
Proof. reflexivity. Qed.

Lemma quote_app s t : quote s +s+ t = String dq (escape_string s +s+ String dq t).
Proof. unfold quote. by rewrite sapp_cons, sapp_assoc. Qed.

(** The properties of a nested JSON value hold of its elements and of its
    properties' values. *)
Section json_ind.
Context (P : json -> Prop).
Context (Hnull : P JNull) (Hbool : forall b, P (JBool b))
        (Hnumber : forall n, P (JNumber n))
        (Hstring : forall s, P (JString s))
        (Harray : forall l, Forall P l -> P (JArray l))
        (Hobject : forall fs, Forall (fun kv => P kv.2) fs -> P (JObject fs)).

Fixpoint json_ind' (v : json) : P v :=
  match v with
  | JNull => Hnull
  | JBool b => Hbool b
  | JNumber n => Hnumber n
  | JString s => Hstring s
  | JArray l =>
      Harray l ((fix go (l : list json) : Forall P l :=
                   match l with
                   | [] => Forall_nil_2 _
                   | x :: l' => Forall_cons_2 _ _ _ (json_ind' x) (go l')
                   end) l)
  | JObject fs =>
      Hobject fs ((fix go (fs : list (string * json)) : Forall (fun kv => P kv.2) fs :=
                     match fs with
                     | [] => Forall_nil_2 _
                     | kv :: fs' => Forall_cons_2 _ _ _ (json_ind' kv.2) (go fs')
                     end) fs)
  end.
End json_ind.

(** Well-formed values: the property names of every object are distinct,
  as they are for every JavaScript object [JSON.stringify] serializes, and
  there is no number (the tasks the program writes hold none; a number is
  printed as its lexeme, which is not [Number::toString] in general). *)
Fixpoint json_wf (v : json) : bool :=
match v with
| JNumber _ => false
| JArray l => forallb json_wf l
| JObject fs => bool_decide (NoDup fs.*1) && forallb (fun kv => json_wf kv.2) fs
| _ => true
end.

(** The fuel a value needs (for a number, its length bounds it). *)
Fixpoint json_size (v : json) : nat :=
match v with
| JNumber n => String.length n
| JArray l => S (list_sum (map (fun x => S (json_size x)) l))
| JObject fs => S (list_sum (map (fun kv => S (json_size kv.2)) fs))
| _ => 1
end.

Definition stringify_elems : list json -> string :=
fix rest (l : list json) : string :=
  match l with
  | [] => "]"
  | y :: l' => "," +s+ stringify y +s+ rest l'
  end.

Definition stringify_members : list (string * json) -> string :=
fix rest (l : list (string * json)) : string :=
  match l with
  | [] => "}"
  | (k', y) :: l' => "," +s+ quote k' +s+ ":" +s+ stringify y +s+ rest l'
  end.

Lemma stringify_array_cons x l :
stringify (JArray (x :: l)) = "[" +s+ stringify x +s+ stringify_elems l.
Proof. reflexivity. Qed.

Lemma stringify_object_cons k x l :
stringify (JObject ((k, x) :: l)) =
"{" +s+ quote k +s+ ":" +s+ stringify x +s+ stringify_members l.
Proof. reflexivity. Qed.

(** A serialized value starts with a character that is neither white space
  nor a closing bracket. *)
Lemma stringify_head v :
json_wf v = true ->
exists c r, stringify v = String c r /\ is_json_ws c = false /\
            Ascii.eqb c "]" = false /\ Ascii.eqb c "}" = false.
Proof.
destruct v as [|[]|n|s|[|x l]|[|[k x] l]]; intros Hwf; try discriminate Hwf;
  do 2 eexists; (split; [reflexivity|done]).
Qed.

Lemma skip_ws_stringify v t :
json_wf v = true ->
exists c r, skip_ws (stringify v +s+ t) = String c r /\
            stringify v +s+ t = String c r /\
            Ascii.eqb c "]" = false /\ Ascii.eqb c "}" = false.
Proof.
intros Hwf. destruct (stringify_head v Hwf) as (c & r & -> & Hws & H1 & H2).
exists c, (r +s+ t). rewrite sapp_cons. simpl. by rewrite Hws.
Qed.

Lemma stringify_elems_nil : stringify_elems [] = "]".
Proof. reflexivity. Qed.
Lemma stringify_elems_cons y l :
stringify_elems (y :: l) = "," +s+ stringify y +s+ stringify_elems l.
Proof. reflexivity. Qed.
Lemma stringify_members_nil : stringify_members [] = "}".
Proof. reflexivity. Qed.
Lemma stringify_members_cons k y l :
stringify_members ((k, y) :: l) =
"," +s+ quote k +s+ ":" +s+ stringify y +s+ stringify_members l.
Proof. reflexivity. Qed.

#[export] Hint Rewrite stringify_array_cons stringify_object_cons stringify_elems_nil
stringify_elems_cons stringify_members_nil stringify_members_cons quote_app str1_app
: todo_rw.

#[local] Arguments quote : simpl never.

(** What the round trip states of one value, used as induction hypothesis. *)
Definition parses_back (v : json) : Prop :=
json_wf v = true -> forall fuel t, json_size v < fuel ->
parse_value unicode_escape fuel (stringify v +s+ t) = Some (v, t).

Lemma parse_elems_stringify l :
Forall parses_back l -> forall x, parses_back x ->
forallb json_wf (x :: l) = true ->
forall fuel t, list_sum (map (fun y => S (json_size y)) (x :: l)) < fuel ->
parse_elems unicode_escape fuel (stringify x +s+ stringify_elems l +s+ t) = Some (x :: l, t).
Proof.
induction 1 as [|y l Hy _ IH]; intros x Hx Hwf [|f] t Hf; simpl in *; try lia;
  apply andb_prop in Hwf as [Hwx Hwl]; rewrite (Hx Hwx) by lia.
- reflexivity.
- simpl_str. simpl. apply andb_prop in Hwl as [Hwy Hwl].
  rewrite (IH y Hy); [done| |lia]. simpl. by rewrite Hwy, Hwl.
Qed.

Lemma parse_members_stringify l :
Forall (fun kv => parses_back kv.2) l -> forall k x, parses_back x ->
forallb (fun kv => json_wf kv.2) ((k, x) :: l) = true ->
forall fuel t, list_sum (map (fun kv => S (json_size kv.2)) ((k, x) :: l)) < fuel ->
parse_members unicode_escape fuel
  (String dq (escape_string k +s+ String dq
     (String ":" (stringify x +s+ stringify_members l +s+ t)))) =
Some ((k, x) :: l, t).
Proof.
induction 1 as [|[k' y] l Hy _ IH]; intros k x Hx Hwf [|f] t Hf; simpl in *; try lia;
  apply andb_prop in Hwf as [Hwx Hwl]; simpl_str; simpl;
  rewrite parse_chars_escape_string; simpl; rewrite (Hx Hwx) by lia.
- reflexivity.
- simpl. apply andb_prop in Hwl as [Hwy Hwl].
  rewrite (IH k' y Hy); [done| |lia]. simpl. by rewrite Hwy, Hwl.
Qed.

Lemma set_field_fresh fields k v :
k ∉ fields.*1 -> set_field fields k v = fields ++ [(k, v)].
Proof.
induction fields as [|[k' v'] fields IH]; intros Hn; [done|].
rewrite fmap_cons, not_elem_of_cons in Hn. destruct Hn as [Hne Hn]. simpl.
rewrite bool_decide_false by done. f_equal. by apply IH.
Qed.

Lemma build_object_aux members acc :
NoDup (acc ++ members).*1 ->
fold_left (fun acc '(k, v) => set_field acc k v) members acc = acc ++ members.
Proof.
revert acc. induction members as [|[k v] members IH]; intros acc Hnd; simpl.
{ by rewrite app_nil_r. }
rewrite set_field_fresh, IH, <-app_assoc; [done|by rewrite <-app_assoc|].
rewrite fmap_app, NoDup_app in Hnd. destruct Hnd as (_ & Hd & _).
intros Hk. apply (Hd k Hk). simpl. apply list_elem_of_here.
Qed.

(** Properties with distinct names are created in order, one each. *)
Lemma build_object_nodup members :
NoDup members.*1 -> build_object members = members.
Proof. intros Hnd. by apply (build_object_aux members []). Qed.

Lemma parse_value_stringify v : parses_back v.
Proof.
induction v as [| b | n | s | l IHl | fs IHfs] using json_ind';
  intros Hwf [|f] t Hf; simpl in Hf; try lia.
- reflexivity.
- by destruct b.
- discriminate Hwf.
- simpl. simpl_str. by rewrite parse_chars_escape_string.
- destruct l as [|x l]; [reflexivity|].
  apply Forall_cons in IHl as [Hx Hl].
  simpl_str. simpl.
  destruct (skip_ws_stringify x (stringify_elems l +s+ t)) as (c & r & Hskip & _ & Hc & _).
  { simpl in Hwf. by apply andb_prop in Hwf as [? _]. }
  rewrite Hskip, Hc, parse_elems_stringify; [done|done|done|done|lia].
- destruct fs as [|[k x] fs]; [reflexivity|].
  apply Forall_cons in IHfs as [Hx Hfs]. simpl in Hwf.
  apply andb_prop in Hwf as [Hnd Hwf].
  simpl_str. simpl.
  rewrite parse_members_stringify; [|done|done|done|lia].
  rewrite build_object_nodup; [done|]. by apply bool_decide_eq_true in Hnd.
Qed.

(** Each value prints to at least as many characters as the fuel it needs. *)
Lemma json_size_le_length v : json_size v <= String.length (stringify v).
Proof.
induction v as [| b | n | s | l IHl | fs IHfs] using json_ind'.
- simpl. lia.
- destruct b; simpl; lia.
- simpl. lia.
- simpl. unfold quote. simpl. lia.
- destruct l as [|x l]; [simpl; lia|].
  rewrite stringify_array_cons, !slength_app.
  apply Forall_cons in IHl as [Hx Hl]. simpl.
  enough (S (list_sum (map (fun y => S (json_size y)) l)) <= String.length (stringify_elems l))
    by lia.
  induction Hl as [|y l Hy _ IH]; [simpl; lia|].
  rewrite stringify_elems_cons, !slength_app. simpl. lia.
- destruct fs as [|[k x] fs]; [simpl; lia|].
  rewrite stringify_object_cons, !slength_app.
  apply Forall_cons in IHfs as [Hx Hfs]. simpl in *.
  enough (S (list_sum (map (fun kv => S (json_size kv.2)) fs))
          <= String.length (stringify_members fs)) by lia.
  induction Hfs as [|[k' y] fs Hy _ IH]; [simpl; lia|].
  rewrite stringify_members_cons, !slength_app. simpl in *. lia.
Qed.

(** ** The fuel of [JSON.parse] is always enough *)

Section Fuel.
Context (uesc : ascii -> ascii -> ascii -> ascii -> option ascii).

(** More fuel never changes a result the parser returns. *)
Lemma parse_fuel_mono m :
(forall s x, parse_value uesc m s = Some x -> parse_value uesc (S m) s = Some x) /\
(forall s x, parse_elems uesc m s = Some x -> parse_elems uesc (S m) s = Some x) /\
(forall s x, parse_members uesc m s = Some x -> parse_members uesc (S m) s = Some x).
Proof.
induction m as [|f (IHv & IHe & IHm)]; [split_and!; discriminate|].
split_and!; intros s x H; cbn [parse_value parse_elems parse_members] in H;
  remember (S f) as g eqn:Hg; cbn [parse_value parse_elems parse_members];
  destruct_in H;
  repeat match goal with
  | E : parse_value uesc f _ = Some _ |- _ => apply IHv in E
  | E : parse_elems uesc f _ = Some _ |- _ => apply IHe in E
  | E : parse_members uesc f _ = Some _ |- _ => apply IHm in E
  end; subst g; rewrite_eqs; done.
Qed.

Lemma parse_fuel_le n m :
n <= m ->
(forall s x, parse_value uesc n s = Some x -> parse_value uesc m s = Some x) /\
(forall s x, parse_elems uesc n s = Some x -> parse_elems uesc m s = Some x) /\
(forall s x, parse_members uesc n s = Some x -> parse_members uesc m s = Some x).
Proof.
induction 1 as [|m _ (IHv & IHe & IHm)]; [done|].
destruct (parse_fuel_mono m) as (Hv & He & Hm). split_and!; auto.
Qed.

Lemma skip_ws_le s t : skip_ws s = t -> String.length t <= String.length s.
Proof.
intros <-. induction s as [|c s IH]; simpl; [lia|]. destruct (is_json_ws c); simpl; lia.
Qed.

(** The string lexer consumes at least the closing quote. *)
Lemma parse_chars_lt s t r : parse_chars uesc s = Some (t, r) -> String.length r < String.length s.
Proof.
revert t r. induction s as [s IH] using (induction_ltof1 _ String.length); unfold ltof in IH.
intros t r H. destruct s as [|c s]; simpl in H; [discriminate|].
destruct_in H; simpl in *; try (injection H; intros; subst; simpl; lia);
  repeat match goal with
  | E : cons_char _ (parse_chars uesc ?a) = _ |- _ =>
      destruct (parse_chars uesc a) as [[? ?]|] eqn:?; simpl in E; [|discriminate E]; injection E
  end; intros; subst;
  repeat match goal with E : parse_chars uesc ?a = Some _ |- _ => apply IH in E; [|simpl; lia] end;
  simpl; lia.
Qed.

Lemma digits_le s : String.length (digits s).2 <= String.length s.
Proof.
induction s as [|c s IH]; simpl; [lia|].
destruct (is_digit c); [|simpl; lia]. destruct (digits s). simpl in *. lia.
Qed.

(** A number literal has at least one digit. *)
Lemma parse_number_lt s n r : parse_number s = Some (n, r) -> String.length r < String.length s.
Proof.
assert (forall s i r1, parse_int s = Some (i, r1) -> String.length r1 < String.length s) as Hint.
{ intros [|c s'] i r1; simpl; [discriminate|].
  destruct (Ascii.eqb c "0"); [intros [= _ <-]; lia|].
  destruct (is_digit c); [|discriminate]. pose proof (digits_le s').
  destruct (digits s'). intros [= _ <-]. simpl in *. lia. }
assert (forall s f r2, parse_frac s = Some (f, r2) -> String.length r2 <= String.length s)
  as Hfrac.
{ intros [|c s'] f r2; simpl; [intros [= _ <-]; simpl; lia|].
  destruct (Ascii.eqb c "."); [|intros [= _ <-]; simpl; lia]. pose proof (digits_le s').
  destruct (digits s') as [[|d ds] r']; [discriminate|]. intros [= _ <-]. simpl in *. lia. }
assert (forall s e r3, parse_exp s = Some (e, r3) -> String.length r3 <= String.length s)
  as Hexp.
{ intros [|c s'] e r3; simpl; [intros [= _ <-]; simpl; lia|].
  destruct (_ || _); [|intros [= _ <-]; simpl; lia].
  destruct (match s' with String c' r' => _ | EmptyString => _ end) as [sign r1] eqn:Es.
  assert (String.length r1 <= String.length s') as Hr1.
  { destruct s' as [|c' r']; [injection Es as _ <-; lia|].
    destruct (_ || _); injection Es as _ <-; simpl; lia. }
  pose proof (digits_le r1).
  destruct (digits r1) as [[|d ds] r2]; [discriminate|]. intros [= _ <-]. simpl in *. lia. }
unfold parse_number. intros H.
destruct (match s with String "-" r => _ | _ => _ end) as [minus s1] eqn:Em.
assert (String.length s1 <= String.length s) as Hs1.
{ destruct_in Em; injection Em as _ <-; simpl; lia. }
destruct_in H. injection H as _ <-.
apply Hint in E. apply Hfrac in E0. apply Hexp in E1. lia.
Qed.

(** The lengths the lexing steps of a successful parse consume. *)
Ltac length_facts :=
repeat match goal with
| E : skip_ws ?a = ?b |- _ => pose proof (skip_ws_le _ _ E); revert E
| E : parse_chars uesc ?a = Some _ |- _ => pose proof (parse_chars_lt _ _ _ E); revert E
| E : parse_number ?a = Some _ |- _ => pose proof (parse_number_lt _ _ _ E); revert E
end; intros; cbn [String.length] in *.

(** A successful parse consumes at least one character per unit of fuel
  it needs: the fuel [length s - length r] already gives the result. *)
Lemma parse_fuel_enough m :
(forall s v r, parse_value uesc m s = Some (v, r) ->
   String.length r < String.length s /\
   parse_value uesc (String.length s - String.length r) s = Some (v, r)) /\
(forall s l r, parse_elems uesc m s = Some (l, r) ->
   String.length r < String.length s /\
   parse_elems uesc (String.length s - String.length r) s = Some (l, r)) /\
(forall s l r, parse_members uesc m s = Some (l, r) ->
   String.length r < String.length s /\
   parse_members uesc (String.length s - String.length r) s = Some (l, r)).
Proof.
induction m as [|f (IHv & IHe & IHm)]; [split_and!; discriminate|].
split_and!; intros s y r H; cbn [parse_value parse_elems parse_members] in H;
  destruct_in H; injection H; intros; subst;
  repeat match goal with
  | E : parse_value uesc f _ = Some _ |- _ => apply IHv in E as [? ?]
  | E : parse_elems uesc f _ = Some _ |- _ => apply IHe in E as [? ?]
  | E : parse_members uesc f _ = Some _ |- _ => apply IHm in E as [? ?]
  end;
  length_facts; (split; [lia|]);
  (match goal with |- context [?n - ?k] =>
     replace (n - k) with (S (n - k - 1)) by lia; remember (n - k - 1) as g eqn:Hg end);
  cbn [parse_value parse_elems parse_members];
  repeat match goal with
  | E : parse_value uesc (?n - ?k) _ = Some _ |- _ =>
      apply (proj1 (parse_fuel_le (n - k) g ltac:(lia))) in E
  | E : parse_elems uesc (?n - ?k) _ = Some _ |- _ =>
      apply (proj1 (proj2 (parse_fuel_le (n - k) g ltac:(lia)))) in E
  | E : parse_members uesc (?n - ?k) _ = Some _ |- _ =>
      apply (proj2 (proj2 (parse_fuel_le (n - k) g ltac:(lia)))) in E
  end; clear Hg; rewrite_eqs; done.
Qed.

(** [parse_value] with [S (length s)] fuel computes the parser's result
  for any fuel at least as large, successes and failures alike. *)
Lemma parse_value_fuel_adequate s n :
S (String.length s) <= n -> parse_value uesc n s = parse_value uesc (S (String.length s)) s.
Proof.
intros Hn. destruct (parse_value uesc n s) as [[v r]|] eqn:E.
- apply parse_fuel_enough in E as [Hlt E]. symmetry.
  apply (proj1 (parse_fuel_le (String.length s - String.length r) (S (String.length s))
    ltac:(lia))), E.
- destruct (parse_value uesc (S (String.length s)) s) as [x|] eqn:E'; [|done].
  apply (proj1 (parse_fuel_le _ n Hn)) in E'. congruence.
Qed.

End Fuel.

(** ** Which texts are JSON

    The parser's success does not depend on the code units its escapes
    decode to: a decoder that accepts at least the escapes another
    accepts makes the parser accept at least the texts the other does. *)
Section Accepts.
Context (uesc uesc' : ascii -> ascii -> ascii -> ascii -> option ascii).
Hypothesis Hesc : forall a b c d x, uesc a b c d = Some x -> is_Some (uesc' a b c d).

Lemma parse_chars_accepts s t r :
  parse_chars uesc s = Some (t, r) -> exists t', parse_chars uesc' s = Some (t', r).
Proof.
  revert t r. induction s as [s IH] using (induction_ltof1 _ String.length); unfold ltof in IH.
  intros t r H. destruct s as [|c s]; simpl in H |- *; [discriminate|].
  destruct_in H; try (injection H; intros; subst; eauto; fail);
    repeat match goal with
    | E : uesc _ _ _ _ = Some _ |- _ => apply Hesc in E as [? ->]
    | E : cons_char _ (parse_chars uesc ?a) = _ |- _ =>
        destruct (parse_chars uesc a) as [[? ?]|] eqn:?; simpl in E; [|discriminate E];
        injection E; intros; subst
    | E : parse_chars uesc ?a = Some _ |- _ =>
        apply IH in E as [? E]; [rewrite E; simpl; eauto|simpl; lia]
    end.
Qed.

Lemma parse_accepts m :
  (forall s v r, parse_value uesc m s = Some (v, r) -> exists v', parse_value uesc' m s = Some (v', r)) /\
  (forall s l r, parse_elems uesc m s = Some (l, r) -> exists l', parse_elems uesc' m s = Some (l', r)) /\
  (forall s l r, parse_members uesc m s = Some (l, r) ->
     exists l', parse_members uesc' m s = Some (l', r)).
Proof.
  induction m as [|f (IHv & IHe & IHm)]; [split_and!; discriminate|].
  split_and!; intros s y r H; cbn [parse_value parse_elems parse_members] in H |- *;
    destruct_in H; injection H; intros; subst;
    repeat match goal with
    | E : parse_value uesc f _ = Some (_, _) |- _ => apply IHv in E as [? E]
    | E : parse_elems uesc f _ = Some (_, _) |- _ => apply IHe in E as [? E]
    | E : parse_members uesc f _ = Some (_, _) |- _ => apply IHm in E as [? E]
    | E : parse_chars uesc _ = Some (_, _) |- _ => apply parse_chars_accepts in E as [? E]
    end; rewrite_eqs; eauto.
Qed.

End Accepts.

Lemma unicode_escape_any a b c d x :
  unicode_escape a b c d = Some x -> is_Some (any_escape a b c d).
Proof.
  unfold unicode_escape, any_escape.
  destruct (hex_val a), (hex_val b), (hex_val c), (hex_val d); by eauto.
Qed.

(** What [JSON_parse] returns, the grammar accepts. *)
Lemma JSON_parse_accepts text v : JSON_parse text = Some v -> JSON_accepts text = true.
Proof.
  unfold JSON_parse, JSON_accepts, JSON_parse_fuel. intros H. apply bool_decide_eq_true.
  destruct (parse_value _ _ text) as [[v' r]|] eqn:E; [|discriminate].
  destruct (proj1 (parse_accepts _ _ unicode_escape_any _) _ _ _ E) as [v'' ->].
  destruct (skip_ws r); [by eexists|discriminate].
Qed.

Lemma JSON_parse_fuel_adequate text n :
S (String.length text) <= n -> JSON_parse_fuel unicode_escape n text = JSON_parse text.
Proof. intros Hn. unfold JSON_parse, JSON_parse_fuel. by rewrite parse_value_fuel_adequate. Qed.

(** [JSON.parse] inverts [JSON.stringify] on every well-formed value:
  strings with any modelled code unit (escaped and unescaped back),
  nested arrays and objects. *)
Theorem JSON_parse_stringify v :
json_wf v = true -> JSON_parse (JSON_stringify v) = Some v.
Proof.
intros Hwf. unfold JSON_parse, JSON_parse_fuel, JSON_stringify.
rewrite <-(sapp_nil_r (stringify v)) at 2.
rewrite parse_value_stringify; [done|done|].
pose proof (json_size_le_length v). lia.
Qed.
