(* ===== verification/Storage.v ===== *)
(** * Storage: persistence of the collection ([src/src/App.tsx])

    The browser's [localStorage] is a map from keys to strings
    ([gmap string string]); [getItem] returns [null] for a missing key.
    [App] reads its initial state in the [useState] initializer

      [const savedTasks = localStorage.getItem('tasks');
       return savedTasks ? JSON.parse(savedTasks) : [];]

    and writes in an effect after every change of [tasks]

      [localStorage.setItem('tasks', JSON.stringify(tasks));]

    A task is serialized as the object [{id, text, completed, priority}]
    (the property order of the object literal in [addTask], kept by the
    spreads of [toggleTask] and [updateTask]).  [JSON.parse] does not check
    that the value it returns is a [Task[]]; [load] classifies its outcome:
    [Loaded] when the value is an array of objects of exactly the shape the
    program writes, [LoadForeign] for any other JSON value (which the code
    then uses as if it were a [Task[]]; this includes task objects written
    by hand with another property order or extra properties, which the code
    would keep and write back as they are, and which [Task.t] cannot
    represent), and [LoadThrows] when [JSON.parse] throws. *)

From Stdlib Require Import Ascii String Lia.
From stdpp Require Import base list gmap strings.
From S2P Require Import Prelude Types JsString Json.

Module Storage.

Abbreviation localStorage := (gmap string string).

Definition getItem (key : string) (ls : localStorage) : option string := ls !! key.

Definition setItem (key value : string) (ls : localStorage) : localStorage :=
  <[key := value]> ls.

(** The one key the program uses. *)
Definition TASKS_KEY : string := "tasks".

(** A [Task] object as [JSON.stringify] sees it. *)
Definition encode_task (t : Task.t) : json :=
  JObject [("id", JString (Task.id t)); ("text", JString (Task.text t));
           ("completed", JBool (Task.completed t));
           ("priority", JString (priority_to_string (Task.priority t)))].

Definition encode_tasks (tasks : list Task.t) : json := JArray (encode_task <$> tasks).

(** Which JSON values are task objects: exactly the shape [encode_task]
    produces, with a priority among the three literals. *)
Definition decode_task (v : json) : option Task.t :=
  match v with
  | JObject [(k1, JString i); (k2, JString x); (k3, JBool c); (k4, JString p)] =>
      if bool_decide (k1 = "id" /\ k2 = "text" /\ k3 = "completed" /\ k4 = "priority")
      then Task.mk i x c <$> priority_of_string p
      else None
  | _ => None
  end.

Definition decode_tasks (v : json) : option (list Task.t) :=
  match v with
  | JArray l => mapM decode_task l
  | _ => None
  end.

(** The outcome of the [useState] initializer. *)
Inductive LoadResult :=
| Loaded (tasks : list Task.t)
| LoadForeign (v : json)
| LoadThrows.

(** [savedTasks ? JSON.parse(savedTasks) : []], with the parser as a
    parameter. *)
Definition load_with (parse : string -> option json) (ls : localStorage) : LoadResult :=
  match getItem TASKS_KEY ls with
  | Some savedTasks =>
      if js_truthy savedTasks then
        match parse savedTasks with
        | Some v => match decode_tasks v with
                    | Some tasks => Loaded tasks
                    | None => LoadForeign v
                    end
        | None => LoadThrows
        end
      else Loaded []
  | None => Loaded []
  end.

Definition load (ls : localStorage) : LoadResult := load_with JSON_parse ls.

(** The effect [localStorage.setItem('tasks', JSON.stringify(tasks))]. *)
Definition save (tasks : list Task.t) (ls : localStorage) : localStorage :=
  setItem TASKS_KEY (JSON_stringify (encode_tasks tasks)) ls.

(** ** Lemmas *)

Lemma decode_encode_task t : decode_task (encode_task t) = Some t.
Proof.
  destruct t as [i x c []]; reflexivity.
Qed.

Lemma decode_encode_tasks tasks : decode_tasks (encode_tasks tasks) = Some tasks.
Proof.
  apply mapM_fmap_Some, decode_encode_task.
Qed.

Lemma encode_tasks_wf tasks : json_wf (encode_tasks tasks) = true.
Proof.
  unfold encode_tasks. simpl. apply forallb_forall.
  intros v Hv%list_elem_of_In. apply list_elem_of_fmap_1 in Hv as (t & -> & _).
  reflexivity.
Qed.

Lemma stringify_encode_truthy tasks : js_truthy (JSON_stringify (encode_tasks tasks)) = true.
Proof. unfold JSON_stringify, encode_tasks. by destruct tasks. Qed.

(** the parse of the initializer always terminates within its fuel:
    running [JSON.parse] on the saved text with any fuel larger than the
    text gives the outcome [load] computes, whether the text parses or
    makes [JSON.parse] throw. *)
Lemma load_fuel_adequate ls n :
  (forall text, getItem TASKS_KEY ls = Some text -> S (String.length text) <= n) ->
  load_with (JSON_parse_fuel unicode_escape n) ls = load ls.
Proof.
  intros Hn. unfold load, load_with.
  destruct (getItem TASKS_KEY ls) as [text|] eqn:E; [|done].
  by rewrite JSON_parse_fuel_adequate by (by apply Hn).
Qed.

(** C2: round trip of the persistence: loading right after saving any
    collection yields that collection, field for field and in order. *)
Theorem load_save tasks ls : load (save tasks ls) = Loaded tasks.
Proof.
  unfold load, load_with, save, getItem, setItem. rewrite lookup_insert_eq.
  rewrite stringify_encode_truthy, JSON_parse_stringify by apply encode_tasks_wf.
  by rewrite decode_encode_tasks.
Qed.

(** the effect writes the one key [tasks] and leaves every other key of
    the store as it was. *)
Lemma save_frame tasks ls k : k <> TASKS_KEY -> save tasks ls !! k = ls !! k.
Proof. intros Hk. unfold save, setItem. by rewrite lookup_insert_ne. Qed.

(** C24: no saved collection (the key is missing, or holds the empty string,
    which is falsy) loads as the empty collection. *)
Theorem load_missing ls :
  getItem TASKS_KEY ls = None \/ getItem TASKS_KEY ls = Some EmptyString ->
  load ls = Loaded [].
Proof. unfold load, load_with. by intros [-> | ->]. Qed.

(** C16: a saved text that is not JSON (the JSON grammar rejects it,
    whatever code units its escapes denote) makes [JSON.parse] throw: the
    initializer does not fall back to the empty collection, contrary to
    spec §4.2 and §7. *)
Theorem load_malformed_throws s ls :
  js_truthy s = true -> JSON_accepts s = false ->
  load (setItem TASKS_KEY s ls) = LoadThrows.
Proof.
  intros Ht Ha. unfold load, load_with, getItem, setItem. rewrite lookup_insert_eq, Ht.
  destruct (JSON_parse s) as [v|] eqn:Hp; [|done].
  apply JSON_parse_accepts in Hp. congruence.
Qed.

(** saved JSON that is not an array of tasks is returned as it is,
    and not replaced by the empty collection that spec §8 expects: [null],
    an object, and an array of numbers. *)
Lemma load_non_array_kept ls :
  load (setItem TASKS_KEY "null" ls) = LoadForeign JNull /\
  load (setItem TASKS_KEY "{}" ls) = LoadForeign (JObject []) /\
  load (setItem TASKS_KEY "[1, -2.5e3]" ls) =
    LoadForeign (JArray [JNumber "1"; JNumber "-2.5e3"]).
Proof. unfold load, load_with, getItem, setItem. by rewrite !lookup_insert_eq. Qed.

(** ** Witnesses *)

Lemma load_missing_witness : load ∅ = Loaded [].
Proof. apply load_missing. left. reflexivity. Defined.

Lemma load_malformed_throws_witness :
  load (setItem TASKS_KEY "not json" ∅) = LoadThrows.
Proof. apply load_malformed_throws; vm_compute; reflexivity. Defined.

End Storage.
