(* ===== verification/TaskInput.v ===== *)
(** * TaskInput: the new-task form ([src/src/components/TaskInput.tsx])

    The component owns two pieces of React state, [task] (the text field,
    initially empty) and [priority] (the select, initially ['medium']), and
    talks to its parent only through the prop [onAddTask].  The props are a
    record of callbacks over the parent's state [S]; the theorems of this
    file are proved for every parent, and [App.v] instantiates them with
    the task store. *)

From Stdlib Require Import Ascii String.
From stdpp Require Import base list strings.
From S2P Require Import Prelude Types JsString Vdom.

Module TaskInput.

(** [interface TaskInputProps]: [onAddTask(task, priority)] acts on the
    parent's state. *)
Record TaskInputProps (S : Type) := {
  onAddTask : string -> Priority -> S -> S
}.
Arguments onAddTask {S} _ _ _ _.

(** The component's state: [useState('')] and [useState('medium')]. *)
Record State := mk { task : string; priority : Priority }.

Definition init : State := mk "" Medium.

(** [onChange={(e) => setTask(e.target.value)}] *)
Definition setTask (value : string) (st : State) : State := mk value (priority st).

(** [onChange={(e) => setPriority(e.target.value as ...)}]: the select only
    offers the three options. *)
Definition setPriority (p : Priority) (st : State) : State := mk (task st) p.

(** [handleSubmit]: [e.preventDefault()] (no effect on the model), then
    [if (task.trim()) { onAddTask(task, priority); setTask(''); }]. *)
Definition handleSubmit {S} (props : TaskInputProps S) (st : State) (s : S) : State * S :=
  if js_truthy (trim (task st))
  then (mk "" (priority st), onAddTask props (task st) (priority st) s)
  else (st, s).

(** The form's handlers, as the messages of its elements. *)
Inductive Msg :=
| ChangeTask (value : string)
| ChangePriority (p : Priority)
| SubmitForm.

(** The JSX the component returns; [lift] embeds its messages in the
    parent's events. *)
Definition view {E} (lift : Msg -> E) (st : State) : node E :=
  Elem "form" [AOnSubmit (lift SubmitForm); AClass "w-full space-y-4"]
    [Elem "div" [AClass "flex gap-4"]
       [Elem "input"
          [AType "text"; AValue (task st); AOnChange (fun v => Some (lift (ChangeTask v)));
           APlaceholder "Add a new task...";
           AClass "flex-1 px-4 py-2 rounded-lg border border-gray-200 dark:border-gray-700 bg-white dark:bg-gray-700 text-gray-800 dark:text-white focus:outline-none focus:ring-2 focus:ring-blue-500 focus:border-transparent transition-all placeholder-gray-400 dark:placeholder-gray-500"]
          [];
        Elem "select"
          [AValue (priority_to_string (priority st));
           AOnChange (select_priority (fun p => lift (ChangePriority p)));
           AClass "px-4 py-2 rounded-lg border border-gray-200 dark:border-gray-700 bg-white dark:bg-gray-700 text-gray-800 dark:text-white focus:outline-none focus:ring-2 focus:ring-blue-500 focus:border-transparent transition-all"]
          priority_options;
        Elem "button"
          [AType "submit";
           AClass "flex items-center gap-2 px-6 py-2 bg-blue-500 text-white rounded-lg hover:bg-blue-600 focus:outline-none focus:ring-2 focus:ring-blue-500 focus:ring-offset-2 transition-all"]
          [Elem "PlusCircle" [ASize 20] []; Text "Add"]]].

(** What each message does: the three handlers. *)
Definition update {S} (props : TaskInputProps S) (m : Msg) (st : State) (s : S) : State * S :=
  match m with
  | ChangeTask v => (setTask v st, s)
  | ChangePriority p => (setPriority p st, s)
  | SubmitForm => handleSubmit props st s
  end.

Section Submit.
Context {S : Type} (props : TaskInputProps S).

(** C25: submitting a text that is empty or only white space changes
    nothing: neither the form nor the parent's state. *)
Theorem handleSubmit_blank st s :
  blank (task st) = true -> handleSubmit props st s = (st, s).
Proof. intros Hb. unfold handleSubmit. by rewrite js_truthy_trim, Hb. Qed.

(** C26: submitting any other text calls [onAddTask] once with the raw
    (untrimmed) text and the selected priority, clears the text field and
    keeps the selected priority. *)
Theorem handleSubmit_adds st s :
  blank (task st) = false ->
  handleSubmit props st s = (mk "" (priority st), onAddTask props (task st) (priority st) s).
Proof. intros Hb. unfold handleSubmit. by rewrite js_truthy_trim, Hb. Qed.
End Submit.

(** The form dispatches exactly: any typed text, each of the three
    priorities, and the submission. *)
Lemma listeners_view {E} (lift : Msg -> E) st :
  listeners (view lift st) =
  [LSubmit (lift SubmitForm); LInput (fun v => Some (lift (ChangeTask v)));
   LSelect (option_values (E:=E) priority_options) (select_priority (fun p => lift (ChangePriority p)))].
Proof. reflexivity. Qed.

Lemma fires_form_view {E} (lift : Msg -> E) st e :
  fires (view lift st) e <->
  (exists v, e = lift (ChangeTask v)) \/ (exists p, e = lift (ChangePriority p)) \/
  e = lift SubmitForm.
Proof.
  unfold fires, has_listener.
  rewrite listeners_view, !Exists_cons, Exists_nil, triggers_select_priority.
  rewrite triggers_input. cbn [triggers]. naive_solver.
Qed.

(** ** Witnesses, with a parent that records the added texts *)

Definition ex_props : TaskInputProps (list string) :=
  {| onAddTask := fun text _ added => text :: added |}.

Lemma handleSubmit_blank_witness :
  handleSubmit ex_props (mk "  " High) [] = (mk "  " High, []).
Proof. apply handleSubmit_blank. reflexivity. Defined.

Lemma handleSubmit_adds_witness :
  handleSubmit ex_props (mk " Buy milk" High) [] = (mk "" High, [" Buy milk"]).
Proof. apply (handleSubmit_adds ex_props (mk " Buy milk" High)). reflexivity. Defined.

End TaskInput.
