(* ===== verification/TaskList.v ===== *)
(** * TaskList: the task rows and the inline editor
    ([src/src/components/TaskList.tsx])

    The component receives [tasks] and three callbacks, and owns one piece
    of state, [editingTask : EditingTask | null] (an [option]): at most one
    row is edited at a time, by construction of the type.  A row whose task
    has the edited id renders the editor (text input, priority select, save
    and cancel buttons); every other row renders the task with its toggle,
    edit and delete buttons.  The handlers are modelled one by one; the
    row rendering is [render]. *)

From Stdlib Require Import Ascii String.
From stdpp Require Import base list sets strings.
From S2P Require Import Prelude Types JsString TaskStore Vdom.

Module TaskList.

(** [interface TaskListProps], the callbacks, over the parent's state. *)
Record TaskListProps (S : Type) := {
  onToggleTask : string -> S -> S;
  onDeleteTask : string -> S -> S;
  onUpdateTask : string -> string -> Priority -> S -> S
}.
Arguments onToggleTask {S} _ _ _.
Arguments onDeleteTask {S} _ _ _.
Arguments onUpdateTask {S} _ _ _ _ _.

(** [useState<EditingTask | null>(null)] *)
Abbreviation State := (option EditingTask.t).

(** [getPriorityColor]: a [switch] on the priority string. *)
Definition getPriorityColor (priority : string) : string :=
  if bool_decide (priority = "high") then
    "bg-red-100 dark:bg-red-900 text-red-800 dark:text-red-200"
  else if bool_decide (priority = "medium") then
    "bg-yellow-100 dark:bg-yellow-900 text-yellow-800 dark:text-yellow-200"
  else if bool_decide (priority = "low") then
    "bg-green-100 dark:bg-green-900 text-green-800 dark:text-green-200"
  else "bg-gray-100 dark:bg-gray-700 text-gray-800 dark:text-gray-200".

(** [handleEdit(task)]: copy the task's id, text and priority. *)
Definition handleEdit (task : Task.t) : State :=
  Some (EditingTask.mk (Task.id task) (Task.text task) (Task.priority task)).

(** [handleCancelEdit] *)
Definition handleCancelEdit : State := None.

(** [handleSaveEdit]: [if (editingTask && editingTask.text.trim())
    { onUpdateTask(...); setEditingTask(null); }]. *)
Definition handleSaveEdit {S} (props : TaskListProps S) (editingTask : State) (s : S)
    : State * S :=
  match editingTask with
  | Some e =>
      if js_truthy (trim (EditingTask.text e))
      then (None, onUpdateTask props (EditingTask.id e) (EditingTask.text e)
                     (EditingTask.priority e) s)
      else (editingTask, s)
  | None => (editingTask, s)
  end.

(** The editor's [onChange] handlers, [{ ...editingTask, text }] and
    [{ ...editingTask, priority }]; they are only rendered when
    [editingTask] is not [null]. *)
Definition setEditText (e : EditingTask.t) (value : string) : State :=
  Some (EditingTask.mk (EditingTask.id e) value (EditingTask.priority e)).

Definition setEditPriority (e : EditingTask.t) (p : Priority) : State :=
  Some (EditingTask.mk (EditingTask.id e) (EditingTask.text e) p).

(** What a row renders. *)
Inductive Row :=
| EditRow (e : EditingTask.t)
| ViewRow (task : Task.t) (color : string).

(** [editingTask?.id === task.id ? <editor> : <task view>] *)
Definition render_row (editingTask : State) (task : Task.t) : Row :=
  match editingTask with
  | Some e =>
      if bool_decide (EditingTask.id e = Task.id task) then EditRow e
      else ViewRow task (getPriorityColor (priority_to_string (Task.priority task)))
  | None => ViewRow task (getPriorityColor (priority_to_string (Task.priority task)))
  end.

(** [tasks.map((task) => ...)] *)
Definition render (tasks : list Task.t) (editingTask : State) : list Row :=
  render_row editingTask <$> tasks.

Definition is_edit_row (r : Row) : bool :=
  match r with EditRow _ => true | ViewRow _ _ => false end.

(** The class of the default branch of the [switch]. *)
Definition default_color : string :=
  "bg-gray-100 dark:bg-gray-700 text-gray-800 dark:text-gray-200".

(** The handlers bound in the rows, as messages; [Toggle], [Edit] and
    [Delete] carry the task the row's closure captured. *)
Inductive Msg :=
| Toggle (task : Task.t)
| Edit (task : Task.t)
| Delete (task : Task.t)
| EditText (value : string)
| EditPriority (p : Priority)
| Save
| Cancel.

(** The editor of a row in edit mode. *)
Definition editor_view {E} (lift : Msg -> E) (e : EditingTask.t) : node E :=
  Elem "div" [AClass "flex items-center gap-4 flex-1"]
    [Elem "input"
       [AType "text"; AValue (EditingTask.text e); AOnChange (fun v => Some (lift (EditText v)));
        AClass "flex-1 px-3 py-1 rounded border border-gray-200 dark:border-gray-600 bg-white dark:bg-gray-600 text-gray-800 dark:text-white focus:outline-none focus:ring-2 focus:ring-blue-500 focus:border-transparent"]
       [];
     Elem "select"
       [AValue (priority_to_string (EditingTask.priority e));
        AOnChange (select_priority (fun p => lift (EditPriority p)));
        AClass "px-2 py-1 rounded border border-gray-200 dark:border-gray-600 bg-white dark:bg-gray-600 text-gray-800 dark:text-white focus:outline-none focus:ring-2 focus:ring-blue-500 focus:border-transparent"]
       priority_options;
     Elem "button"
       [AOnClick (lift Save);
        AClass "p-1 text-green-500 hover:text-green-600 dark:text-green-400 dark:hover:text-green-300"]
       [Elem "Check" [ASize 20] []];
     Elem "button"
       [AOnClick (lift Cancel);
        AClass "p-1 text-red-500 hover:text-red-600 dark:text-red-400 dark:hover:text-red-300"]
       [Elem "X" [ASize 20] []]].

(** The fragment of a row in view mode. *)
Definition task_view {E} (lift : Msg -> E) (task : Task.t) (color : string) : list (node E) :=
  [Elem "div" [AClass "flex items-center gap-4"]
     [Elem "button"
        [AOnClick (lift (Toggle task));
         AClass "text-gray-400 dark:text-gray-500 hover:text-blue-500 dark:hover:text-blue-400 transition-colors"]
        [if Task.completed task
         then Elem "CheckCircle" [AClass "text-green-500 dark:text-green-400"] []
         else Elem "Circle" [] []];
      Elem "span"
        [AClass ("text-lg " +s+ (if Task.completed task
                                 then "line-through text-gray-400 dark:text-gray-500"
                                 else "text-gray-800 dark:text-white"))]
        [Text (Task.text task)];
      Elem "span" [AClass ("px-2 py-1 rounded-full text-xs font-medium " +s+ color)]
        [Text (priority_to_string (Task.priority task))]];
   Elem "div" [AClass "flex items-center gap-2"]
     [Elem "button"
        [AOnClick (lift (Edit task));
         AClass "p-1 text-gray-400 dark:text-gray-500 hover:text-blue-500 dark:hover:text-blue-400 transition-colors"]
        [Elem "Pencil" [ASize 20] []];
      Elem "button"
        [AOnClick (lift (Delete task));
         AClass "p-1 text-gray-400 dark:text-gray-500 hover:text-red-500 dark:hover:text-red-400 transition-colors"]
        [Elem "Trash2" [ASize 20] []]]].

(** The class of a row: [`... ${task.completed ? 'opacity-75' : ''}`]. *)
Definition row_class (task : Task.t) : string :=
  "flex items-center justify-between p-4 bg-white dark:bg-gray-700 rounded-lg shadow-sm border border-gray-100 dark:border-gray-600 transition-all " +s+
  (if Task.completed task then "opacity-75" else "").

(** One row, keyed by the task's id. *)
Definition row_view {E} (lift : Msg -> E) (editingTask : State) (task : Task.t) : node E :=
  Elem "div" [AKey (Task.id task); AClass (row_class task)]
    (match render_row editingTask task with
     | EditRow e => [editor_view lift e]
     | ViewRow t color => task_view lift t color
     end).

(** The JSX the component returns. *)
Definition view {E} (lift : Msg -> E) (tasks : list Task.t) (editingTask : State) : node E :=
  Elem "div" [AClass "space-y-4"] (row_view lift editingTask <$> tasks).

(** What each message does, on the component's state and the parent's. *)
Definition update {S} (props : TaskListProps S) (m : Msg) (editingTask : State) (s : S)
    : State * S :=
  match m with
  | Toggle task => (editingTask, onToggleTask props (Task.id task) s)
  | Edit task => (handleEdit task, s)
  | Delete task => (editingTask, onDeleteTask props (Task.id task) s)
  | EditText v =>
      match editingTask with Some e => (setEditText e v, s) | None => (editingTask, s) end
  | EditPriority p =>
      match editingTask with Some e => (setEditPriority e p, s) | None => (editingTask, s) end
  | Save => handleSaveEdit props editingTask s
  | Cancel => (handleCancelEdit, s)
  end.

Section Handlers.
Context {S : Type} (props : TaskListProps S).

(** C28: saving an edit whose text is empty or only white space is a
    no-op: the parent's state is unchanged and the row stays in edit mode
    (spec §4.4: the user leaves it only through cancel). *)
Theorem handleSaveEdit_blank e s :
  blank (EditingTask.text e) = true -> handleSaveEdit props (Some e) s = (Some e, s).
Proof. intros Hb. unfold handleSaveEdit. by rewrite js_truthy_trim, Hb. Qed.

(** saving any other text calls [onUpdateTask] with the edited id,
    the raw text and the priority, and leaves edit mode. *)
Lemma handleSaveEdit_commit e s :
  blank (EditingTask.text e) = false ->
  handleSaveEdit props (Some e) s =
    (None, onUpdateTask props (EditingTask.id e) (EditingTask.text e)
             (EditingTask.priority e) s).
Proof. intros Hb. unfold handleSaveEdit. by rewrite js_truthy_trim, Hb. Qed.
End Handlers.

Lemma render_row_edit editingTask task :
is_edit_row (render_row editingTask task) =
match editingTask with
| Some e => bool_decide (EditingTask.id e = Task.id task)
| None => false
end.
Proof. destruct editingTask as [e|]; simpl; [|done]. by case_bool_decide. Qed.

(** C29: with unique ids, exactly one row renders the editor when the edited
  id belongs to a task, and none otherwise. *)
Theorem edit_rows_count tasks editingTask :
TaskStore.ids_unique tasks ->
length (List.filter is_edit_row (render tasks editingTask)) =
match editingTask with
| Some e => if bool_decide (EditingTask.id e ∈ task_ids tasks) then 1 else 0
| None => 0
end.
Proof.
unfold TaskStore.ids_unique, render, task_ids.
induction tasks as [|t tasks IH]; intros Hu; [by destruct editingTask|].
rewrite !fmap_cons in *. apply NoDup_cons in Hu as [Hn Hu].
cbn [List.filter]. rewrite render_row_edit.
destruct editingTask as [e|]; [|cbv beta iota; by apply IH].
destruct (decide (EditingTask.id e = Task.id t)) as [Heq|Hne];
  [rewrite (bool_decide_true (_ = _)) by done|rewrite (bool_decide_false (_ = _)) by done];
  cbn [length]; rewrite IH by done; repeat case_bool_decide; try set_solver.
exfalso. apply Hn. by rewrite <-Heq.
Qed.

(** the three priorities get three different colour classes, none of
  them the [default] branch of the [switch]. *)
Lemma priority_colors_distinct p q :
(getPriorityColor (priority_to_string p) = getPriorityColor (priority_to_string q) <-> p = q) /\
getPriorityColor (priority_to_string p) <> default_color.
Proof.
destruct p, q; (split; [split; intros H; (done || discriminate H)|discriminate]).
Qed.

(** The listeners of a row: the editor's four controls on the edited row,
    the toggle, edit and delete buttons of its task on any other row. *)
Lemma listeners_row_view {E} (lift : Msg -> E) editingTask task :
listeners (row_view lift editingTask task) =
match render_row editingTask task with
| EditRow _ =>
    [LInput (fun v => Some (lift (EditText v)));
     LSelect (option_values (E:=E) priority_options) (select_priority (fun p => lift (EditPriority p)));
     LClick (lift Save); LClick (lift Cancel)]
| ViewRow t _ => [LClick (lift (Toggle t)); LClick (lift (Edit t)); LClick (lift (Delete t))]
end.
Proof.
unfold row_view. rewrite listeners_Elem. cbn [omap list_omap attr_listener app].
destruct (render_row editingTask task) as [e|t color]; [reflexivity|].
unfold task_view. by destruct (Task.completed t).
Qed.

Lemma fires_row_view {E} (lift : Msg -> E) editingTask task ev :
fires (row_view lift editingTask task) ev <->
match render_row editingTask task with
| EditRow _ =>
    (exists v, ev = lift (EditText v)) \/ (exists p, ev = lift (EditPriority p)) \/
    ev = lift Save \/ ev = lift Cancel
| ViewRow t _ => ev = lift (Toggle t) \/ ev = lift (Edit t) \/ ev = lift (Delete t)
end.
Proof.
unfold fires, has_listener. rewrite listeners_row_view.
destruct (render_row editingTask task) as [e|t color];
  rewrite !Exists_cons, Exists_nil, ?triggers_input, ?triggers_select_priority;
  cbn [triggers]; naive_solver.
Qed.

Lemma has_listener_list_view {E} (P : listener E -> Prop) (lift : Msg -> E) tasks editingTask :
has_listener P (view lift tasks editingTask) <->
exists task, task ∈ tasks /\ has_listener P (row_view lift editingTask task).
Proof.
unfold view. rewrite has_listener_Elem. cbn [omap list_omap attr_listener]. rewrite Exists_nil.
split; [intros [[]|(c & Hc & Hf)]|intros (task & Ht & Hf)].
- apply list_elem_of_fmap in Hc as (task & -> & Ht). by exists task.
- right. exists (row_view lift editingTask task). split; [|done]. by apply list_elem_of_fmap_2.
Qed.

Lemma fires_list_view {E} (lift : Msg -> E) tasks editingTask ev :
fires (view lift tasks editingTask) ev <->
exists task, task ∈ tasks /\ fires (row_view lift editingTask task) ev.
Proof. exact (has_listener_list_view (triggers ev) lift tasks editingTask). Qed.

(** ** Witnesses, with a parent that records the updates *)

Definition ex_props : TaskListProps (list (string * string)) :=
  {| onToggleTask := fun _ s => s; onDeleteTask := fun _ s => s;
     onUpdateTask := fun id text _ s => (id, text) :: s |}.

Lemma handleSaveEdit_blank_witness :
  handleSaveEdit ex_props (Some (EditingTask.mk "a" "   " Low)) [] =
  (Some (EditingTask.mk "a" "   " Low), []).
Proof. apply handleSaveEdit_blank. reflexivity. Defined.

Lemma handleSaveEdit_commit_witness :
  handleSaveEdit ex_props (Some (EditingTask.mk "a" "Buy oat milk" Low)) [] =
  (None, [("a", "Buy oat milk")]).
Proof. apply (handleSaveEdit_commit ex_props (EditingTask.mk "a" "Buy oat milk" Low)). reflexivity. Defined.

Lemma edit_rows_count_witness :
  length (List.filter is_edit_row
    (render [TaskStore.ex_milk; TaskStore.ex_alice] (handleEdit TaskStore.ex_alice))) = 1.
Proof. apply (edit_rows_count [TaskStore.ex_milk; TaskStore.ex_alice]). decide_prop. Defined.

End TaskList.
