(* ===== verification/App.v ===== *)
(** * App: the composed program ([src/src/App.tsx] with its two children)

    [App] owns [tasks] and passes [addTask] to [TaskInput] and the other
    three callbacks to [TaskList]; each callback calls [setTasks] with a new
    array, and an effect with dependency [[tasks]] writes the collection to
    [localStorage] after the render.  The model keeps in one record
    [AppState] the state of the three components, the browser's storage, the
    number of UUIDs [crypto.randomUUID()] has produced (the UUID source is
    the section variable [randomUUID]), and whether an effect is pending.

    A user event runs one handler ([handle]); [commit] then runs the
    pending effect, as React does after re-rendering.  An event is
    [enabled] when the element it is fired on is rendered: the toggle, edit
    and delete buttons of a row in view mode, and the editor's controls of
    the row in edit mode.  [app_step] is the step relation; [mount] is the
    first render (the [useState] initializer and the first effect). *)

From Stdlib Require Import Ascii String.
From stdpp Require Import base list gmap sets strings relations pretty.
From S2P Require Import Prelude Types JsString Json TaskStore Storage TaskInput TaskList.

Module App.

Record AppState := mk {
  tasks : list Task.t;
  storage : gmap string string;
  input : TaskInput.State;
  editing : TaskList.State;
  uuids : nat;
  pending : bool
}.

Inductive Event :=
| TypeTask (value : string)
| SelectPriority (p : Priority)
| Submit
| ClickToggle (task : Task.t)
| ClickEdit (task : Task.t)
| ClickDelete (task : Task.t)
| TypeEdit (value : string)
| SelectEditPriority (p : Priority)
| ClickSave
| ClickCancel.

Inductive MountResult :=
| Running (st : AppState)
| MountedForeign (v : json)
| Crashed.

Section WithUUID.
(** The values [crypto.randomUUID()] returns, in the order of the calls. *)
Context (randomUUID : nat -> string).

Definition set_input (i : TaskInput.State) (st : AppState) : AppState :=
  mk (tasks st) (storage st) i (editing st) (uuids st) (pending st).
Definition set_editing (e : TaskList.State) (st : AppState) : AppState :=
  mk (tasks st) (storage st) (input st) e (uuids st) (pending st).

(** [setTasks(newTasks)]: a new array, so the effect is scheduled. *)
Definition setTasks (newTasks : list Task.t) (st : AppState) : AppState :=
  mk newTasks (storage st) (input st) (editing st) (uuids st) true.

(** The callbacks of [App]. *)
Definition addTask (text : string) (p : Priority) (st : AppState) : AppState :=
  setTasks (TaskStore.addTask (randomUUID (uuids st)) text p (tasks st))
    (mk (tasks st) (storage st) (input st) (editing st) (S (uuids st)) (pending st)).
Definition toggleTask (id : string) (st : AppState) : AppState :=
  setTasks (TaskStore.toggleTask id (tasks st)) st.
Definition deleteTask (id : string) (st : AppState) : AppState :=
  setTasks (TaskStore.deleteTask id (tasks st)) st.
Definition updateTask (id text : string) (p : Priority) (st : AppState) : AppState :=
  setTasks (TaskStore.updateTask id text p (tasks st)) st.

(** [<TaskInput onAddTask={addTask} />] *)
Definition inputProps : TaskInput.TaskInputProps AppState :=
  {| TaskInput.onAddTask := addTask |}.

(** [<TaskList tasks={tasks} onToggleTask={toggleTask} ... />] *)
Definition listProps : TaskList.TaskListProps AppState :=
  {| TaskList.onToggleTask := toggleTask; TaskList.onDeleteTask := deleteTask;
     TaskList.onUpdateTask := updateTask |}.

(** [useEffect(() => localStorage.setItem(...), [tasks])] after a render. *)
Definition commit (st : AppState) : AppState :=
  if pending st
  then mk (tasks st) (Storage.save (tasks st) (storage st)) (input st) (editing st)
          (uuids st) false
  else st.

(** The handler each event runs. *)
Definition handle (ev : Event) (st : AppState) : AppState :=
  match ev with
  | TypeTask v => set_input (TaskInput.setTask v (input st)) st
  | SelectPriority p => set_input (TaskInput.setPriority p (input st)) st
  | Submit =>
      let '(i, s) := TaskInput.handleSubmit inputProps (input st) st in set_input i s
  | ClickToggle t => TaskList.onToggleTask listProps (Task.id t) st
  | ClickEdit t => set_editing (TaskList.handleEdit t) st
  | ClickDelete t => TaskList.onDeleteTask listProps (Task.id t) st
  | TypeEdit v =>
      match editing st with
      | Some e => set_editing (TaskList.setEditText e v) st
      | None => st
      end
  | SelectEditPriority p =>
      match editing st with
      | Some e => set_editing (TaskList.setEditPriority e p) st
      | None => st
      end
  | ClickSave =>
      let '(e, s) := TaskList.handleSaveEdit listProps (editing st) st in set_editing e s
  | ClickCancel => set_editing TaskList.handleCancelEdit st
  end.

(** Whether the element the event is fired on is rendered. *)
Definition enabled (st : AppState) (ev : Event) : bool :=
  match ev with
  | ClickToggle t | ClickEdit t | ClickDelete t =>
      bool_decide (t ∈ tasks st) && negb (TaskList.is_edit_row (TaskList.render_row (editing st) t))
  | TypeEdit _ | SelectEditPriority _ | ClickSave | ClickCancel =>
      match editing st with
      | Some e => bool_decide (EditingTask.id e ∈ task_ids (tasks st))
      | None => false
      end
  | _ => true
  end.

Definition dispatch (ev : Event) (st : AppState) : AppState := commit (handle ev st).

Definition app_step (st st' : AppState) : Prop :=
  exists ev, enabled st ev = true /\ st' = dispatch ev st.

(** The first render and its effect. *)
Definition mount (ls : gmap string string) : MountResult :=
  match Storage.load ls with
  | Storage.Loaded ts => Running (commit (mk ts ls TaskInput.init None 0 true))
  | Storage.LoadForeign v => MountedForeign v
  | Storage.LoadThrows => Crashed
  end.

(** A sequence of user events, each on a rendered element. *)
Fixpoint run_events (evs : list Event) (st : AppState) : option AppState :=
  match evs with
  | [] => Some st
  | ev :: evs' => if enabled st ev then run_events evs' (dispatch ev st) else None
  end.

Inductive reachable : AppState -> Prop :=
| reachable_mount ls st : mount ls = Running st -> reachable st
| reachable_step st st' : reachable st -> app_step st st' -> reachable st'.

End WithUUID.

(** The scenario of spec §8: add "Buy milk" (low), add "Call Alice"
  (high), toggle "Buy milk". *)
Definition scenario (uuid0 : string) : list Event :=
[TypeTask "Buy milk"; SelectPriority Low; Submit;
 TypeTask "Call Alice"; SelectPriority High; Submit;
 ClickToggle (Task.mk uuid0 "Buy milk" false Low)].

Section Invariants.
Context (randomUUID : nat -> string).

Lemma run_events_rtc evs st st' :
  run_events randomUUID evs st = Some st' -> rtc (app_step randomUUID) st st'.
Proof.
  revert st. induction evs as [|ev evs IH]; simpl; intros st.
  - intros [= ->]. apply rtc_refl.
  - destruct (enabled st ev) eqn:E; [|discriminate]. intros H.
    eapply rtc_l; [exists ev; split; [done|reflexivity]|]. by apply IH.
Qed.

Lemma reachable_rtc st st' :
  reachable randomUUID st -> rtc (app_step randomUUID) st st' -> reachable randomUUID st'.
Proof. intros Hr Hs. induction Hs as [|s1 s2 s3 H _ IH]; [done|]. apply IH. by econstructor. Qed.

(** A handler never writes the storage; it either leaves [tasks] and
    [pending] alone or schedules the effect. *)
Lemma handle_shape ev st :
  storage (handle randomUUID ev st) = storage st /\
  ((tasks (handle randomUUID ev st) = tasks st /\
    pending (handle randomUUID ev st) = pending st) \/
   pending (handle randomUUID ev st) = true).
Proof.
  destruct ev; simpl; try (split; [done|by left]); try (split; [done|by right]).
  - unfold TaskInput.handleSubmit. destruct (js_truthy _); simpl;
      split; [done|by right|done|by left].
  - destruct (editing st); simpl; split; [done|by left|done|by left].
  - destruct (editing st); simpl; split; [done|by left|done|by left].
  - unfold TaskList.handleSaveEdit. destruct (editing st) as [e|]; simpl;
      [destruct (js_truthy _); simpl|]; split; try done; by (left + right).
Qed.

(** What the storage holds when no effect is pending. *)
Definition persisted (st : AppState) : Prop :=
  pending st = false /\
  storage st !! Storage.TASKS_KEY = Some (JSON_stringify (Storage.encode_tasks (tasks st))).

Lemma commit_persisted st :
  (pending st = false -> persisted st) -> persisted (commit st).
Proof.
  unfold commit. destruct (pending st) eqn:E; [|auto].
  intros _. split; [done|]. simpl. apply lookup_insert_eq.
Qed.

Lemma dispatch_persisted ev st : persisted st -> persisted (dispatch randomUUID ev st).
Proof.
  intros [Hp Hs]. apply commit_persisted. intros Hp'.
  destruct (handle_shape ev st) as [Hst [[Ht Hpe]|Hpe]]; [|congruence].
  split; [done|]. by rewrite Hst, Ht.
Qed.

Lemma mount_persisted ls st : mount ls = Running st -> persisted st.
Proof.
  unfold mount. destruct (Storage.load ls); intros H; inversion H; subst.
  by apply commit_persisted.
Qed.

Lemma persisted_load st :
  persisted st -> Storage.load (storage st) = Storage.Loaded (tasks st).
Proof.
  intros [_ Hs]. unfold Storage.load, Storage.load_with, Storage.getItem.
  rewrite Hs, Storage.stringify_encode_truthy.
  rewrite JSON_parse_stringify by apply Storage.encode_tasks_wf.
  by rewrite Storage.decode_encode_tasks.
Qed.

Lemma reachable_persisted st : reachable randomUUID st -> persisted st.
Proof.
  induction 1 as [ls st Hm|st st' _ IH [ev [_ ->]]].
  - by eapply mount_persisted.
  - by apply dispatch_persisted.
Qed.

(** C1: at every reachable state no effect is pending and the storage
    holds the current collection: reloading the page at any point restores
    exactly the tasks on screen. *)
Theorem reload_restores st :
  reachable randomUUID st -> Storage.load (storage st) = Storage.Loaded (tasks st).
Proof. intros Hr. by apply persisted_load, reachable_persisted. Qed.
Lemma commit_fields st :
  tasks (commit st) = tasks st /\ editing (commit st) = editing st /\
  input (commit st) = input st /\ uuids (commit st) = uuids st.
Proof. unfold commit. by destruct (pending st). Qed.

(** The edited id is the id of a task of the collection. *)
Definition editing_ok (st : AppState) : Prop :=
  forall e, editing st = Some e -> EditingTask.id e ∈ task_ids (tasks st).

Lemma handle_editing_ok ev st :
  enabled st ev = true -> editing_ok st -> editing_ok (handle randomUUID ev st).
Proof.
  unfold editing_ok. intros Hen Hok e.
  destruct ev as [v|p| |t|t|t|v|p| | ]; simpl in *; try by apply Hok.
  - unfold TaskInput.handleSubmit. destruct (js_truthy _); simpl; [|by apply Hok].
    intros He%Hok. rewrite TaskStore.task_ids_addTask. set_solver.
  - rewrite TaskStore.task_ids_toggleTask. apply Hok.
  - intros [= <-]. simpl. apply andb_prop in Hen as [Hin _].
    apply bool_decide_eq_true in Hin. by apply list_elem_of_fmap_2.
  - intros He. apply andb_prop in Hen as [_ Hrow].
    rewrite TaskList.render_row_edit, He in Hrow.
    apply TaskStore.elem_of_task_ids_deleteTask. split; [by apply Hok|].
    intros Heq. by rewrite bool_decide_true in Hrow.
  - destruct (editing st) as [e0|] eqn:E; simpl; [|discriminate Hen].
    unfold TaskList.setEditText, TaskList.setEditPriority.
    intros [= <-]. simpl. by apply Hok.
  - destruct (editing st) as [e0|] eqn:E; simpl; [|discriminate Hen].
    unfold TaskList.setEditText, TaskList.setEditPriority.
    intros [= <-]. simpl. by apply Hok.
  - unfold TaskList.handleSaveEdit. destruct (editing st) as [e0|] eqn:E; simpl;
      [destruct (js_truthy _); simpl; [discriminate|]|]; first [discriminate Hen|by apply Hok].
  - discriminate.
Qed.

(** C6: in every reachable state, the row being edited belongs to a task
    of the collection: the editor is never left open on a deleted task. *)
Theorem editing_id_present st e :
  reachable randomUUID st -> editing st = Some e -> EditingTask.id e ∈ task_ids (tasks st).
Proof.
  intros Hr. revert e. change (editing_ok st).
  induction Hr as [ls st Hm|st st' _ IH [ev [Hen ->]]].
  - unfold mount in Hm. destruct (Storage.load ls); inversion Hm; subst.
    unfold editing_ok, commit. simpl. discriminate.
  - intros e. unfold dispatch.
    destruct (commit_fields (handle randomUUID ev st)) as (-> & -> & _).
    by apply handle_editing_ok.
Qed.

(** The collection invariant with the UUID source: ids are unique, and
    no UUID still to be drawn is already an id. *)
Definition ids_inv (st : AppState) : Prop :=
  TaskStore.ids_unique (tasks st) /\
  forall n, uuids st <= n -> randomUUID n ∉ task_ids (tasks st).

Lemma ids_inv_shrink st ts :
  ids_inv st -> NoDup (task_ids ts) -> (forall j, j ∈ task_ids ts -> j ∈ task_ids (tasks st)) ->
  ids_inv (setTasks ts st).
Proof.
  intros [_ Hfr] Hnd Hsub. split; [done|]. intros n Hn Hin. by apply (Hfr n Hn), Hsub.
Qed.

Lemma ids_inv_add `{!Inj (=) (=) randomUUID} text p st :
  ids_inv st -> ids_inv (addTask randomUUID text p st).
Proof.
  intros [Hu Hfr]. unfold ids_inv, addTask, setTasks, TaskStore.ids_unique.
  cbn [tasks uuids]. rewrite TaskStore.task_ids_addTask. split.
  - apply NoDup_app. split_and!; [done| |apply NoDup_singleton].
    intros j Hj ->%list_elem_of_singleton. by apply (Hfr (uuids st)).
  - intros n Hn. rewrite elem_of_app, list_elem_of_singleton.
    intros [Hin| Heq%(inj randomUUID)]; [by apply (Hfr n); [lia|]|lia].
Qed.

Lemma handle_ids_inv `{!Inj (=) (=) randomUUID} ev st :
  ids_inv st -> ids_inv (handle randomUUID ev st).
Proof.
  intros Hinv. pose proof Hinv as [Hu Hfr].
  destruct ev as [v|p| |t|t|t|v|p| | ]; simpl; try done.
  - unfold TaskInput.handleSubmit. destruct (js_truthy _); simpl; [|done].
    by apply ids_inv_add.
  - unfold toggleTask. apply ids_inv_shrink; rewrite ?TaskStore.task_ids_toggleTask; done.
  - apply ids_inv_shrink; [done| |].
    + unfold TaskStore.deleteTask. rewrite TaskStore.task_ids_filter.
      by apply NoDup_list_filter.
    + intros j [Hj _]%TaskStore.elem_of_task_ids_deleteTask. done.
  - by destruct (editing st).
  - by destruct (editing st).
  - unfold TaskList.handleSaveEdit. destruct (editing st) as [e|]; simpl; [|done].
    destruct (js_truthy _); simpl; [|done].
    apply ids_inv_shrink; rewrite ?TaskStore.task_ids_updateTask; done.
Qed.

Lemma dispatch_ids_inv `{!Inj (=) (=) randomUUID} ev st :
  ids_inv st -> ids_inv (dispatch randomUUID ev st).
Proof.
  intros Hinv. unfold dispatch.
  destruct (commit_fields (handle randomUUID ev st)) as (Ht & _ & _ & Hn).
  unfold ids_inv. rewrite Ht, Hn. by apply handle_ids_inv.
Qed.

Lemma ids_inv_rtc `{!Inj (=) (=) randomUUID} st st' :
  ids_inv st -> rtc (app_step randomUUID) st st' -> ids_inv st'.
Proof.
  intros Hinv Hrun. induction Hrun as [st|st st1 st' [ev [_ ->]] _ IH]; [done|].
  by apply IH, dispatch_ids_inv.
Qed.

(** C4: provided [crypto.randomUUID()] never returns the same value twice
    and never an id already loaded, the ids of the collection stay
    pairwise distinct along every run of the program. *)
Theorem ids_unique_run `{!Inj (=) (=) randomUUID} st st' :
  ids_inv st -> rtc (app_step randomUUID) st st' -> TaskStore.ids_unique (tasks st').
Proof. intros Hinv Hrun. by destruct (ids_inv_rtc st st' Hinv Hrun). Qed.

Lemma commit_persisted_id st : persisted st -> commit st = st.
Proof. intros [Hp _]. unfold commit. by rewrite Hp. Qed.

Lemma set_input_id st : set_input (input st) st = st.
Proof. by destruct st. Qed.

(** C27: submitting the form with an empty or white-space text, through
    the real [TaskInput] and [App], changes nothing: not the collection,
    not the storage, not the form. *)
Theorem submit_blank_noop st :
  persisted st -> blank (TaskInput.task (input st)) = true ->
  dispatch randomUUID Submit st = st.
Proof.
  intros Hp Hb. unfold dispatch, handle.
  unfold TaskInput.handleSubmit. rewrite js_truthy_trim, Hb. cbn [negb].
  by rewrite set_input_id, commit_persisted_id.
Qed.

(** C30: the scenario of spec §8, run from an empty storage through the
    real handlers: both tasks are there in insertion order, "Buy milk" is
    completed, and their ids are the two distinct UUIDs drawn. *)
Theorem scenario_from_empty :
  randomUUID 0 <> randomUUID 1 ->
  (match mount ∅ with
   | Running st0 => tasks <$> run_events randomUUID (scenario (randomUUID 0)) st0
   | _ => None
   end) =
  Some [Task.mk (randomUUID 0) "Buy milk" true Low;
        Task.mk (randomUUID 1) "Call Alice" false High].
Proof.
  intros Hne.
  assert (mount ∅ = Running (mk [] {[Storage.TASKS_KEY := "[]"]} TaskInput.init None 0 false))
    as -> by (vm_compute; reflexivity).
  simpl. unfold dispatch at 1.
  rewrite bool_decide_true by (simpl; set_solver).
  simpl. unfold TaskStore.toggleTask, TaskStore.has_id. simpl.
  rewrite bool_decide_true by done. rewrite bool_decide_false by congruence.
  reflexivity.
Qed.

(** C7: saving the editor, through [TaskList] and [App], with unique ids
    and a non-blank text: the edited task gets the new text and priority
    and keeps its id, flag and position, the other tasks are untouched,
    the editor closes and the storage holds the new collection. *)
Theorem save_edit_updates st l1 t l2 e :
  persisted st -> TaskStore.ids_unique (tasks st) -> tasks st = l1 ++ t :: l2 ->
  editing st = Some e -> EditingTask.id e = Task.id t -> blank (EditingTask.text e) = false ->
  tasks (dispatch randomUUID ClickSave st) =
    l1 ++ Task.mk (Task.id t) (EditingTask.text e) (Task.completed t) (EditingTask.priority e) :: l2 /\
  editing (dispatch randomUUID ClickSave st) = None /\
  Storage.load (storage (dispatch randomUUID ClickSave st)) =
    Storage.Loaded (tasks (dispatch randomUUID ClickSave st)).
Proof.
  intros Hp Hu Ht He Hid Hb. unfold dispatch, handle. rewrite He.
  unfold TaskList.handleSaveEdit. rewrite js_truthy_trim, Hb. cbn [negb].
  split_and!; [|done|].
  - simpl. rewrite Ht, Hid. apply TaskStore.map_if_has_id_split. by rewrite <-Ht.
  - apply persisted_load, commit_persisted. simpl. discriminate.
Qed.

(** Data saved by another version or edited by hand: two tasks with the
    same id. *)
Definition dup_storage : gmap string string :=
  {[Storage.TASKS_KEY :=
      JSON_stringify (Storage.encode_tasks
        [Task.mk "a" "Buy milk" false Low; Task.mk "a" "Call Alice" false High])]}.

(** C22: the loaded data is not checked for duplicated ids: every saved
    collection is mounted as it is, the delete button of each of its rows
    is on the page, and that delete removes exactly the tasks whose id is
    the row's id, all of them: with two tasks sharing an id, deleting one
    removes both (the spec's "removes exactly one" needs unique ids). *)
Theorem duplicate_ids_delete_all ls ts t :
  Storage.load ls = Storage.Loaded ts -> t ∈ ts ->
  match mount ls with
  | Running st =>
      tasks st = ts /\ enabled st (ClickDelete t) = true /\
      forall u, u ∈ tasks (dispatch randomUUID (ClickDelete t) st) <-> u ∈ ts /\ Task.id u <> Task.id t
  | _ => False
  end.
Proof.
  intros Hl Ht. unfold mount. rewrite Hl. unfold commit. cbn [pending tasks editing].
  split_and!; [done| |].
  - cbn [enabled tasks editing]. by rewrite TaskList.render_row_edit, bool_decide_true.
  - intros u. unfold dispatch. rewrite (proj1 (commit_fields _)). cbn [handle].
    unfold TaskList.onDeleteTask, listProps, deleteTask, setTasks. cbn [tasks].
    apply TaskStore.elem_of_deleteTask.
Qed.

End Invariants.

(** ** Witnesses, with [pretty] (decimal numerals) as the UUID source *)

Definition st_mounted : AppState :=
  mk [] {[Storage.TASKS_KEY := "[]"]} TaskInput.init None 0 false.

Lemma st_mounted_reachable : reachable pretty st_mounted.
Proof. apply (reachable_mount _ ∅). vm_compute. reflexivity. Qed.

Definition ex_session : list Event :=
  [TypeTask "Buy milk"; Submit; ClickEdit (Task.mk (pretty 0) "Buy milk" false Medium);
   TypeEdit "Buy oat milk"].

Definition st_editing : AppState :=
  default st_mounted (run_events pretty ex_session st_mounted).

Lemma st_editing_reachable : reachable pretty st_editing.
Proof.
  apply (reachable_rtc _ st_mounted); [apply st_mounted_reachable|].
  apply (run_events_rtc _ ex_session). vm_compute. reflexivity.
Qed.

Lemma reload_restores_witness :
  Storage.load (storage st_editing) = Storage.Loaded (tasks st_editing).
Proof. apply (reload_restores pretty). apply st_editing_reachable. Defined.

Lemma editing_id_present_witness :
  EditingTask.id (EditingTask.mk (pretty 0) "Buy oat milk" Medium) ∈ task_ids (tasks st_editing).
Proof.
  apply (editing_id_present pretty). apply st_editing_reachable. vm_compute. reflexivity.
Defined.

Lemma ids_unique_run_witness : TaskStore.ids_unique (tasks st_editing).
Proof.
  apply (ids_unique_run pretty st_mounted).
  - split; [constructor|]. intros n _. apply not_elem_of_nil.
  - apply (run_events_rtc _ ex_session). vm_compute. reflexivity.
Defined.

Lemma submit_blank_noop_witness :
  dispatch pretty Submit (set_input (TaskInput.mk " " Low) st_mounted) =
  set_input (TaskInput.mk " " Low) st_mounted.
Proof. apply submit_blank_noop; [split; reflexivity|reflexivity]. Defined.

Lemma save_edit_updates_witness :
  tasks (dispatch pretty ClickSave st_editing) =
    [] ++ Task.mk (pretty 0) "Buy oat milk" false Medium :: [] /\
  editing (dispatch pretty ClickSave st_editing) = None /\
  Storage.load (storage (dispatch pretty ClickSave st_editing)) =
    Storage.Loaded (tasks (dispatch pretty ClickSave st_editing)).
Proof.
  refine (save_edit_updates pretty st_editing [] (Task.mk (pretty 0) "Buy milk" false Medium) []
           (EditingTask.mk (pretty 0) "Buy oat milk" Medium) _ _ _ _ _ _).
  - split; vm_compute; reflexivity.
  - decide_prop.
  - vm_compute. reflexivity.
  - vm_compute. reflexivity.
  - reflexivity.
  - reflexivity.
Defined.

Lemma scenario_from_empty_witness :
  (match mount ∅ with
   | Running st0 => tasks <$> run_events pretty (scenario (pretty 0)) st0
   | _ => None
   end) =
  Some [Task.mk (pretty 0) "Buy milk" true Low; Task.mk (pretty 1) "Call Alice" false High].
Proof. apply scenario_from_empty. vm_compute. intros H. discriminate H. Defined.

Lemma duplicate_ids_delete_all_witness :
  Storage.load dup_storage =
    Storage.Loaded [Task.mk "a" "Buy milk" false Low; Task.mk "a" "Call Alice" false High] /\
  match mount dup_storage with
  | Running st =>
      tasks st = [Task.mk "a" "Buy milk" false Low; Task.mk "a" "Call Alice" false High] /\
      enabled st (ClickDelete (Task.mk "a" "Buy milk" false Low)) = true /\
      forall u, u ∈ tasks (dispatch pretty (ClickDelete (Task.mk "a" "Buy milk" false Low)) st) <->
        u ∈ [Task.mk "a" "Buy milk" false Low; Task.mk "a" "Call Alice" false High] /\
        Task.id u <> Task.id (Task.mk "a" "Buy milk" false Low)
  | _ => False
  end.
Proof.
  split; [vm_compute; reflexivity|].
  apply (duplicate_ids_delete_all pretty); [vm_compute; reflexivity|apply list_elem_of_here].
Defined.

End App.
