(* ===== verification/Session.v ===== *)
(** * Session: whole runs of the program against the task store's contract

    [App.v] defines one step: a user event, its handler, then the effect.
    This file relates runs of steps to [TaskStore.Spec], the abstract store
    (the order of ids and a map from ids to task data):
    - [event_cmd] names the store operation an event performs in a state
      (the submit of a non-blank text adds, the toggle and delete buttons
      toggle and delete the row's id, the save of a non-blank edit
      updates; every other event leaves the collection alone);
    - [run_cmds] collects these operations along a run of events, and
      [spec_run] runs them on the abstract store;
    - [clear_events] is a strategy for the user: close the editor if the
      first row is being edited, delete the first row, and repeat.

    The theorems: each event changes the collection by its operation and
    nothing else; the abstraction of the collection after a run is the
    abstract store after the run's operations (a simulation of the program
    by its specification); and from every reachable state the strategy
    empties the list and the storage then holds the empty list. *)

From Stdlib Require Import Ascii String Lia.
From stdpp Require Import base list sets strings relations pretty.
From S2P Require Import Prelude Types JsString Json TaskStore Storage TaskInput TaskList App.

Module Session.
Import App.

Section WithUUID.
Context (randomUUID : nat -> string).

(** The store operation an event performs in state [st], if any. *)
Definition event_cmd (ev : Event) (st : AppState) : option TaskStore.Cmd :=
  match ev with
  | Submit =>
      if js_truthy (trim (TaskInput.task (input st)))
      then Some (TaskStore.CmdAdd (randomUUID (uuids st)) (TaskInput.task (input st))
                                  (TaskInput.priority (input st)))
      else None
  | ClickToggle t => Some (TaskStore.CmdToggle (Task.id t))
  | ClickDelete t => Some (TaskStore.CmdDelete (Task.id t))
  | ClickSave =>
      match editing st with
      | Some e =>
          if js_truthy (trim (EditingTask.text e))
          then Some (TaskStore.CmdUpdate (EditingTask.id e) (EditingTask.text e)
                                         (EditingTask.priority e))
          else None
      | None => None
      end
  | _ => None
  end.

(** The operations a run of events performs, in order. *)
Fixpoint run_cmds (evs : list Event) (st : AppState) : list TaskStore.Cmd :=
  match evs with
  | [] => []
  | ev :: evs' =>
      if enabled st ev
      then option_list (event_cmd ev st) ++ run_cmds evs' (dispatch randomUUID ev st)
      else []
  end.

(** The operations, run on the abstract store. *)
Fixpoint spec_run (cs : list TaskStore.Cmd) (s : TaskStore.Spec.Store) : TaskStore.Spec.Store :=
  match cs with
  | [] => s
  | c :: cs' => spec_run cs' (TaskStore.spec_cmd c s)
  end.

(** Empty the list: on each round, cancel the editor if it is open on the
    first row, then delete the first row. *)
Fixpoint clear_events (fuel : nat) (st : AppState) : list Event :=
  match fuel with
  | 0 => []
  | S f =>
      match tasks st with
      | [] => []
      | t :: _ =>
          if TaskList.is_edit_row (TaskList.render_row (editing st) t)
          then ClickCancel :: ClickDelete t ::
               clear_events f (dispatch randomUUID (ClickDelete t)
                                 (dispatch randomUUID ClickCancel st))
          else ClickDelete t :: clear_events f (dispatch randomUUID (ClickDelete t) st)
      end
  end.

(** ** Theorems *)

(** Each event changes the collection by the store operation it performs,
    and an event that performs none leaves the collection as it is:
    typing, choosing a priority, opening, editing or cancelling the editor,
    and submitting or saving a blank text. *)
Lemma dispatch_cmd ev st :
  tasks (dispatch randomUUID ev st) =
  match event_cmd ev st with
  | Some c => TaskStore.run_cmd c (tasks st)
  | None => tasks st
  end.
Proof.
  unfold dispatch. destruct (commit_fields (handle randomUUID ev st)) as (-> & _).
  destruct ev; cbn [handle event_cmd]; try reflexivity.
  - unfold TaskInput.handleSubmit. by destruct (js_truthy _).
  - by destruct (editing st).
  - by destruct (editing st).
  - unfold TaskList.handleSaveEdit. destruct (editing st); [|done]. by destruct (js_truthy _).
Qed.

(** The operations of the program meet their precondition: the id of a
    new task is fresh. *)
Lemma event_cmd_pre ev st c :
  ids_inv randomUUID st -> event_cmd ev st = Some c -> TaskStore.cmd_pre c (tasks st).
Proof.
  intros [_ Hfr]. destruct ev; cbn [event_cmd]; try discriminate.
  - destruct (js_truthy _); intros [= <-]. cbn. by apply Hfr.
  - by intros [= <-].
  - by intros [= <-].
  - destruct (editing st); [|discriminate]. destruct (js_truthy _); [|discriminate].
    by intros [= <-].
Qed.

(** C5: refinement of whole sessions: along every run of user events from
    a state whose ids are distinct and fresh (with a UUID source that never
    repeats), the abstraction of the collection is the abstract store
    obtained by running, from the abstraction of the start, the store
    operations the events perform, in order. *)
Theorem session_refines `{!Inj (=) (=) randomUUID} evs st st' :
  ids_inv randomUUID st -> run_events randomUUID evs st = Some st' ->
  TaskStore.abs (tasks st') = spec_run (run_cmds evs st) (TaskStore.abs (tasks st)).
Proof.
  revert st. induction evs as [|ev evs IH]; intros st Hinv; cbn [run_events run_cmds].
  { by intros [= ->]. }
  destruct (enabled st ev); [|discriminate]. intros Hrun.
  rewrite (IH _ (dispatch_ids_inv randomUUID ev st Hinv) Hrun), dispatch_cmd.
  destruct (event_cmd ev st) as [c|] eqn:Ec; [|done]. cbn.
  by rewrite TaskStore.run_cmd_abs by (by eapply event_cmd_pre).
Qed.

Lemma deleteTask_head_shorter t l :
  length (TaskStore.deleteTask (Task.id t) (t :: l)) < length (t :: l).
Proof.
  pose proof (length_filter_split (TaskStore.has_id (Task.id t)) (t :: l)) as Hsplit.
  unfold TaskStore.deleteTask. cbn [List.filter] in *.
  rewrite (proj2 (TaskStore.has_id_true _ _) eq_refl) in *. cbn [negb length] in *. lia.
Qed.

Lemma dispatch_cancel st :
  tasks (dispatch randomUUID ClickCancel st) = tasks st /\
  editing (dispatch randomUUID ClickCancel st) = None.
Proof. unfold dispatch. by destruct (commit_fields (handle randomUUID ClickCancel st)) as (-> & -> & _). Qed.

Lemma run_events_cons ev evs st :
  run_events randomUUID (ev :: evs) st =
  if enabled st ev then run_events randomUUID evs (dispatch randomUUID ev st) else None.
Proof. reflexivity. Qed.

(** C8: liveness: from every state where no effect is pending and the
    storage holds the collection (every reachable state, by
    [reachable_persisted]), the strategy [clear_events] with as many rounds
    as there are tasks is a run of enabled events that empties the list,
    and the storage then holds the empty list. *)
Theorem clear_all n st :
  persisted st -> length (tasks st) <= n ->
  exists st', run_events randomUUID (clear_events n st) st = Some st' /\
              tasks st' = [] /\ Storage.load (storage st') = Storage.Loaded [].
Proof.
  revert st. induction n as [|n IH]; intros st Hp Hlen; cbn [clear_events].
  { exists st. destruct (tasks st) eqn:Et; [|simpl in Hlen; lia].
    rewrite <-Et. split_and!; [done|done|by apply persisted_load]. }
  destruct (tasks st) as [|t l] eqn:Et.
  { exists st. rewrite <-Et. split_and!; [done|done|by apply persisted_load]. }
  assert (forall st1, persisted st1 -> tasks st1 = t :: l ->
            TaskList.is_edit_row (TaskList.render_row (editing st1) t) = false ->
            exists st', run_events randomUUID
                          (ClickDelete t :: clear_events n (dispatch randomUUID (ClickDelete t) st1))
                          st1 = Some st' /\ tasks st' = [] /\
                        Storage.load (storage st') = Storage.Loaded []) as Hdel.
  { intros st1 Hp1 Ht1 Hrow1. rewrite run_events_cons.
    assert (enabled st1 (ClickDelete t) = true) as ->.
    { cbn [enabled]. by rewrite Ht1, Hrow1, bool_decide_true by apply list_elem_of_here. }
    apply IH; [by apply dispatch_persisted|].
    rewrite dispatch_cmd. cbn [event_cmd TaskStore.run_cmd]. rewrite Ht1.
    pose proof (deleteTask_head_shorter t l). simpl in *. lia. }
  destruct (TaskList.is_edit_row (TaskList.render_row (editing st) t)) eqn:Hrow; [|by apply Hdel].
  rewrite TaskList.render_row_edit in Hrow.
  destruct (editing st) as [e|] eqn:Ee; [|discriminate]. apply bool_decide_eq_true in Hrow.
  destruct (dispatch_cancel st) as [Ht1 He1].
  rewrite run_events_cons.
  assert (enabled st ClickCancel = true) as ->.
  { cbn [enabled]. rewrite Ee, Et, bool_decide_true; [done|]. rewrite Hrow.
    apply list_elem_of_here. }
  apply Hdel; [by apply dispatch_persisted|by rewrite Ht1|by rewrite He1].
Qed.

End WithUUID.

(** ** Witnesses, with [pretty] (decimal numerals) as the UUID source *)

Lemma session_refines_witness :
  TaskStore.abs (tasks st_editing) =
  spec_run (run_cmds pretty ex_session st_mounted) (TaskStore.abs (tasks st_mounted)).
Proof.
  apply (session_refines pretty ex_session st_mounted st_editing).
  - split; [constructor|]. intros n _. apply not_elem_of_nil.
  - vm_compute. reflexivity.
Defined.

Lemma clear_all_witness :
  exists st', run_events pretty (clear_events pretty (length (tasks st_editing)) st_editing)
                st_editing = Some st' /\
              tasks st' = [] /\ Storage.load (storage st') = Storage.Loaded [].
Proof.
  apply clear_all; [|lia]. apply (reachable_persisted pretty), st_editing_reachable.
Defined.

End Session.
