(* ===== verification/AppView.v ===== *)
(** * AppView: what [App] renders ([src/src/App.tsx], lines 50-89)

    [view st] is the element tree [App] returns in state [st]: the header
    (the [CheckSquare] icon, the title, and [ThemeToggle], kept as a leaf),
    the form of [TaskInput], the two counters, the list of [TaskList], and
    the empty-state message when there is no task.  The children's handlers
    become [App]'s events through [input_event] and [list_event].

    The theorems relate the rendered page to the step relation of [App.v]:
    an event is [enabled] exactly when some element of the page dispatches
    it, the priority selects only deliver members of the union, and the
    rows are keyed by the task ids. *)

From Stdlib Require Import Ascii String.
From stdpp Require Import base list sets strings relations pretty.
From S2P Require Import Prelude Types Vdom TaskStore Storage TaskInput TaskList App.

Module AppView.
Import App.

(** [<TaskInput onAddTask={addTask} />]: the form's messages. *)
Definition input_event (m : TaskInput.Msg) : Event :=
  match m with
  | TaskInput.ChangeTask v => TypeTask v
  | TaskInput.ChangePriority p => SelectPriority p
  | TaskInput.SubmitForm => Submit
  end.

(** [<TaskList tasks={tasks} ... />]: the rows' messages. *)
Definition list_event (m : TaskList.Msg) : Event :=
  match m with
  | TaskList.Toggle t => ClickToggle t
  | TaskList.Edit t => ClickEdit t
  | TaskList.Delete t => ClickDelete t
  | TaskList.EditText v => TypeEdit v
  | TaskList.EditPriority p => SelectEditPriority p
  | TaskList.Save => ClickSave
  | TaskList.Cancel => ClickCancel
  end.

(** [<span>{activeTasks} tasks remaining</span>] and
    [<span>{completedTasks} tasks completed</span>]; a number renders as
    its decimal numeral. *)
Definition counters_view (tasks : list Task.t) : node Event :=
  Elem "div" [AClass "mt-8 flex justify-between text-sm text-gray-600 dark:text-gray-400"]
    [Elem "span" [] [Text (pretty (TaskStore.activeTasks tasks)); Text " tasks remaining"];
     Elem "span" [] [Text (pretty (TaskStore.completedTasks tasks)); Text " tasks completed"]].

(** [{tasks.length === 0 && (<div>...</div>)}]: [false] renders nothing. *)
Definition empty_view (tasks : list Task.t) : list (node Event) :=
  if bool_decide (length tasks = 0)
  then [Elem "div" [AClass "text-center py-12 text-gray-500 dark:text-gray-400"]
          [Elem "p" [] [Text "No tasks yet. Add some tasks to get started!"]]]
  else [].

Definition view (st : AppState) : node Event :=
  Elem "div"
    [AClass "min-h-screen bg-gradient-to-br from-blue-50 to-indigo-50 dark:from-gray-900 dark:to-gray-800 py-8 transition-colors duration-200"]
    [Elem "div" [AClass "max-w-3xl mx-auto px-4"]
       [Elem "div"
          [AClass "bg-white dark:bg-gray-800 rounded-xl shadow-lg p-6 md:p-8 transition-colors duration-200"]
          ([Elem "div" [AClass "flex items-center justify-between mb-8"]
              [Elem "div" [AClass "flex items-center gap-3"]
                 [Elem "CheckSquare" [AClass "w-8 h-8 text-blue-500"] [];
                  Elem "h1" [AClass "text-2xl font-bold text-gray-800 dark:text-white"]
                    [Text "Task Master"]];
               Elem "ThemeToggle" [] []];
            TaskInput.view input_event (input st);
            counters_view (tasks st);
            Elem "div" [AClass "mt-6"] [TaskList.view list_event (tasks st) (editing st)]]
           ++ empty_view (tasks st))]].

(** The keys of the rows [TaskList] renders, in order: the keys of the
    children of its list element. *)
Definition row_keys (st : AppState) : list (option string) :=
  match TaskList.view list_event (tasks st) (editing st) with
  | Elem _ _ rows => key_of <$> rows
  | Text _ => []
  end.

(** ** Lemmas *)

Lemma has_listener_app_view (P : listener Event -> Prop) st :
  has_listener P (view st) <->
  has_listener P (TaskInput.view input_event (input st)) \/
  has_listener P (TaskList.view list_event (tasks st) (editing st)).
Proof.
  unfold view.
  do 3 (lazymatch goal with |- context [has_listener P (Elem ?t ?a ?c)] =>
          rewrite (has_listener_children P t a c) by reflexivity end;
        rewrite ?Exists_app, ?Exists_cons, ?Exists_nil).
  rewrite (has_listener_inert P (counters_view _)), (has_listener_inert P (Elem _ _ _))
    by reflexivity.
  rewrite (has_listener_children P "div" [AClass "mt-6"]), Exists_cons, Exists_nil
    by reflexivity.
  assert (Exists (has_listener P) (empty_view (tasks st)) <-> False) as ->.
  { unfold empty_view. case_bool_decide; [|by rewrite Exists_nil].
    rewrite Exists_cons, Exists_nil, has_listener_inert by reflexivity. tauto. }
  tauto.
Qed.

Lemma fires_app_view st ev :
  fires (view st) ev <->
  fires (TaskInput.view input_event (input st)) ev \/
  fires (TaskList.view list_event (tasks st) (editing st)) ev.
Proof. exact (has_listener_app_view (triggers ev) st). Qed.

Lemma fires_row_iff editingTask task ev :
  fires (TaskList.row_view list_event editingTask task) ev <->
  (TaskList.is_edit_row (TaskList.render_row editingTask task) = true /\
   ((exists v, ev = TypeEdit v) \/ (exists p, ev = SelectEditPriority p) \/
    ev = ClickSave \/ ev = ClickCancel)) \/
  (TaskList.is_edit_row (TaskList.render_row editingTask task) = false /\
   (ev = ClickToggle task \/ ev = ClickEdit task \/ ev = ClickDelete task)).
Proof.
  rewrite TaskList.fires_row_view. unfold TaskList.render_row.
  destruct editingTask as [e|]; [case_bool_decide|]; cbn; naive_solver.
Qed.

(** An edit row exists exactly when the edited id is the id of a task. *)
Lemma edit_row_exists (tasks : list Task.t) editingTask :
  (exists task, task ∈ tasks /\ TaskList.is_edit_row (TaskList.render_row editingTask task) = true)
  <-> match editingTask with
      | Some e => EditingTask.id e ∈ task_ids tasks
      | None => False
      end.
Proof.
  setoid_rewrite TaskList.render_row_edit. destruct editingTask as [e|]; [|naive_solver].
  unfold task_ids. rewrite list_elem_of_fmap. setoid_rewrite bool_decide_eq_true. naive_solver.
Qed.

(** the step relation's guard is the rendered page: an event is
    [enabled] exactly when an element of the page [App] renders dispatches
    it.  The form accepts any text, each priority and the submission; a
    row's toggle, edit and delete buttons exist when the row is not being
    edited; the editor's controls exist when the edited id is a task's. *)
Lemma enabled_iff_fires st ev :
  enabled st ev = true <-> fires (view st) ev.
Proof.
  rewrite fires_app_view, TaskInput.fires_form_view, TaskList.fires_list_view.
  setoid_rewrite fires_row_iff.
  pose proof (edit_row_exists (tasks st) (editing st)) as Hedit.
  destruct ev as [v|p| |t|t|t|v|p| | ]; cbn [enabled input_event];
    rewrite ?andb_true_iff, ?negb_true_iff, ?bool_decide_eq_true;
    try (destruct (editing st); rewrite ?bool_decide_eq_true);
    naive_solver.
Qed.

(** C14: the unchecked assertion [e.target.value as 'low' | 'medium' |
    'high'] of both priority selects holds: every select of the page offers
    the three literals of the union and nothing else, and choosing one
    dispatches the priority with that literal, to the form or to the
    row's editor. *)
Theorem select_cast_exact st vs h :
  has_listener (fun l => l = LSelect vs h) (view st) ->
  vs = priority_to_string <$> [Low; Medium; High] /\
  forall v, v ∈ vs -> exists p, v = priority_to_string p /\
    (h v = Some (SelectPriority p) \/ h v = Some (SelectEditPriority p)).
Proof.
  rewrite has_listener_app_view, TaskList.has_listener_list_view.
  unfold has_listener. rewrite TaskInput.listeners_view.
  setoid_rewrite TaskList.listeners_row_view.
  intros [Hin|(task & _ & Hrow)].
  - rewrite !Exists_cons, Exists_nil in Hin.
    destruct Hin as [H1|[H2|[H3|[]]]]; [discriminate H1|discriminate H2|].
    injection H3 as <- <-.
    split; [reflexivity|]. intros v (p & ->)%(priority_select_values (E:=Event)).
    exists p. split; [done|]. left. by rewrite select_priority_to_string.
  - destruct (TaskList.render_row (editing st) task);
      rewrite !Exists_cons, Exists_nil in Hrow;
      [destruct Hrow as [[=]|[[= <- <-]|[[=]|[[=]|[]]]]]|by destruct Hrow as [[=]|[[=]|[[=]|[]]]]].
    split; [reflexivity|]. intros v (p & ->)%(priority_select_values (E:=Event)).
    exists p. split; [done|]. right. by rewrite select_priority_to_string.
Qed.

(** C23: the first render keys its rows by the loaded ids, unchecked:
    for every saved collection, the keys of the mounted rows are pairwise
    distinct exactly when the saved ids are, so a collection with a
    repeated id (which [load] accepts) gives two rows the same key, which
    React requires to be distinct among the children of an array. *)
Theorem duplicate_ids_duplicate_keys ls ts :
  Storage.load ls = Storage.Loaded ts ->
  match mount ls with
  | Running st => NoDup (row_keys st) <-> NoDup (task_ids ts)
  | _ => False
  end.
Proof.
  intros Hl. unfold mount. rewrite Hl. unfold row_keys, TaskList.view.
  rewrite (proj1 (commit_fields _)), <-list_fmap_compose. cbn [tasks].
  rewrite (list_fmap_ext _ (Some ∘ Task.id) ts) by done. rewrite list_fmap_compose.
  split; [apply NoDup_fmap_1|apply NoDup_fmap_2; apply _].
Qed.

Lemma row_keys_ids st : row_keys st = Some <$> task_ids (tasks st).
Proof.
  unfold row_keys, TaskList.view, task_ids. rewrite <-!list_fmap_compose.
  by apply list_fmap_ext.
Qed.

Section WithUUID.
Context (randomUUID : nat -> string).

(** C15: [key={task.id}]: along every run from a state whose ids are
    distinct and not among the UUIDs still to be drawn (with a UUID source
    that never repeats), the rows of the list have pairwise distinct keys,
    as React requires of the children of an array. *)
Theorem row_keys_distinct `{!Inj (=) (=) randomUUID} st st' :
  ids_inv randomUUID st -> rtc (app_step randomUUID) st st' -> NoDup (row_keys st').
Proof.
  intros Hinv Hrun. destruct (ids_inv_rtc randomUUID st st' Hinv Hrun) as [Hu _].
  rewrite row_keys_ids. apply NoDup_fmap; [apply _|done].
Qed.

(** [App]'s handler of each child event is the child's own handler
    wired to [App]'s callbacks: the form's [onChange]s and [handleSubmit]
    with [onAddTask={addTask}], the rows' buttons and editor with
    [onToggleTask], [onDeleteTask] and [onUpdateTask]; each child's state
    is the part of [App]'s state it owns. *)
Lemma handle_child_update st :
  (forall m, handle randomUUID (input_event m) st =
     let '(i, s) := TaskInput.update (inputProps randomUUID) m (input st) st in set_input i s) /\
  (forall m, handle randomUUID (list_event m) st =
     let '(e, s) := TaskList.update listProps m (editing st) st in set_editing e s).
Proof.
  split; intros []; cbn [input_event list_event handle TaskInput.update TaskList.update];
    try reflexivity; try (by destruct st);
    destruct (editing st) eqn:E; try reflexivity; by destruct st; simpl in *; subst.
Qed.

End WithUUID.

(** ** Witnesses *)

Lemma select_cast_exact_witness :
  option_values (E:=Event) priority_options = priority_to_string <$> [Low; Medium; High] /\
  forall v, v ∈ option_values (E:=Event) priority_options ->
    exists p, v = priority_to_string p /\
      (select_priority (fun p => input_event (TaskInput.ChangePriority p)) v = Some (SelectPriority p) \/
       select_priority (fun p => input_event (TaskInput.ChangePriority p)) v = Some (SelectEditPriority p)).
Proof.
  apply (select_cast_exact st_mounted). apply has_listener_app_view. left.
  unfold has_listener. rewrite TaskInput.listeners_view. right; right; left. reflexivity.
Defined.

Lemma row_keys_distinct_witness : NoDup (row_keys st_editing).
Proof.
  apply (row_keys_distinct pretty st_mounted).
  - split; [constructor|]. intros n _. apply not_elem_of_nil.
  - apply (run_events_rtc _ ex_session). vm_compute. reflexivity.
Defined.

Lemma duplicate_ids_duplicate_keys_witness :
  ~ NoDup (task_ids [Task.mk "a" "Buy milk" false Low; Task.mk "a" "Call Alice" false High]) /\
  match mount dup_storage with
  | Running st =>
      NoDup (row_keys st) <->
      NoDup (task_ids [Task.mk "a" "Buy milk" false Low; Task.mk "a" "Call Alice" false High])
  | _ => False
  end.
Proof.
  split; [cbn; rewrite NoDup_cons; set_solver|].
  apply duplicate_ids_duplicate_keys. vm_compute. reflexivity.
Defined.

End AppView.
