(* ===== verification/Foreign.v ===== *)
(** * Foreign: [App] on data [load] does not recognise

    [useState<Task[]>] does not check what [JSON.parse] returns: when the
    saved text is JSON but not the collection the program writes, [App]
    runs with that value as [tasks].  Its first render evaluates, before
    any JSX,

      [const activeTasks = tasks.filter((task) => !task.completed).length;]
      [const completedTasks = tasks.filter((task) => task.completed).length;]

    on the value.  This file models these two lines on a JSON value with
    JavaScript's semantics: [filter] exists only on arrays (on any other
    value the call throws a [TypeError]); [task.completed] reads a property,
    which is [undefined] when absent and throws on [null]; [!] and the
    filter's test use ToBoolean.

    The second part of the file (section [Callbacks]) models what comes
    next on an array.  The rows [TaskList] evaluates: the key, the edit
    test [editingTask?.id === task.id], and the children React renders.
    The editor on such a row, whose fields [handleEdit] copies unchecked.
    The callbacks the rows call: JavaScript's [map], [filter], [===] and
    object spreads.  On the collection the program writes, both agree with
    the typed model.  On foreign data, an element without an [id] crashes
    the first render, and a text that is not a string makes the save of
    the row's editor throw.

    A number is falsy when its mantissa is zero; the underflow of tiny
    literals such as [1e-400] to zero is not modelled.  Property reads are
    modelled for the keys the code reads ([id], [text], [completed],
    [priority]), which no built-in value has as a property. *)

From Stdlib Require Import Ascii String.
From stdpp Require Import base list gmap strings pretty.
From S2P Require Import Prelude Types JsString Json TaskStore Storage TaskList App.

Module Foreign.

(** A JavaScript value read from JSON data: [undefined] or a JSON value. *)
Inductive jsval :=
| JSUndefined
| JSValue (v : json).

(** Whether the mantissa of a number lexeme is zero (the digits before the
    exponent). *)
Fixpoint mantissa_zero (n : string) : bool :=
  match n with
  | EmptyString => true
  | String c r =>
      if Ascii.eqb c "e" || Ascii.eqb c "E" then true
      else if is_digit c then Ascii.eqb c "0" && mantissa_zero r
      else mantissa_zero r
  end.

(** ToBoolean. *)
Definition json_truthy (v : json) : bool :=
  match v with
  | JNull => false
  | JBool b => b
  | JNumber n => negb (mantissa_zero n)
  | JString s => js_truthy s
  | JArray _ | JObject _ => true
  end.

Definition truthy (x : jsval) : bool :=
  match x with JSUndefined => false | JSValue v => json_truthy v end.

(** [v.k] for the keys the code reads ([id], [text], [completed],
    [priority]), which no built-in value has as an own or inherited
    property: [None] is the [TypeError] of a read on [null]. *)
Definition get_prop (v : json) (k : string) : option jsval :=
  match v with
  | JNull => None
  | JObject fs =>
      Some (match list_find (fun kv => kv.1 = k) fs with
            | Some (_, (_, x)) => JSValue x
            | None => JSUndefined
            end)
  | _ => Some JSUndefined
  end.

(** [tasks.filter(test).length]; [None] is a thrown [TypeError]. *)
Definition filter_length (test : jsval -> bool) (tasks : json) : option nat :=
  match tasks with
  | JArray l =>
      (fun flags => length (List.filter test flags)) <$> mapM (fun task => get_prop task "completed") l
  | _ => None
  end.

(** What the first render computes, or the [TypeError] it throws. *)
Inductive RenderOutcome :=
| Rendered (activeTasks completedTasks : nat)
| RenderThrows.

Definition first_render (tasks : json) : RenderOutcome :=
  match filter_length (fun c => negb (truthy c)) tasks with
  | Some a =>
      match filter_length truthy tasks with
      | Some c => Rendered a c
      | None => RenderThrows
      end
  | None => RenderThrows
  end.

(** ** The callbacks of [App] on untyped data

    Once a foreign array has rendered, its rows call [App]'s callbacks:
    [onToggleTask(task.id)] and [onDeleteTask(task.id)] from a row's
    buttons, [onUpdateTask(editingTask.id, ...)] from the editor, and the
    form calls [onAddTask].  Each callback runs JavaScript on the value.

    The ids are compared with [===].  A number is compared by the number
    its lexeme denotes; the rounding of decimals to doubles is not modelled,
    so this equality is the parameter [num_eq] (and the text of a number,
    used by the rows below, the parameter [num_text]).  An id that is an object or
    an array is a reference: it is [===] only to itself.  Elements parsed
    from JSON hold distinct objects, and the spreads copy the reference of
    [id] into the new element.  So such an id is [===] only to the id of the
    element it was read from.  The callbacks therefore take, with the id,
    the index [i] of that element. *)

Section Callbacks.
Context (num_eq : string -> string -> bool) (num_text : string -> string).

(** [x === y] on values read from JSON, objects and arrays apart. *)
Definition strict_eq_prim (x y : jsval) : bool :=
  match x, y with
  | JSUndefined, JSUndefined => true
  | JSValue JNull, JSValue JNull => true
  | JSValue (JBool a), JSValue (JBool b) => Bool.eqb a b
  | JSValue (JNumber a), JSValue (JNumber b) => num_eq a b
  | JSValue (JString a), JSValue (JString b) => bool_decide (a = b)
  | _, _ => false
  end.

(** [x === y] for [x] read from the element at index [j] and [y] from the
    element at index [i]; an element's id is [===] to itself (JSON holds no
    [NaN]). *)
Definition id_strict_eq (j : nat) (x : jsval) (o : option nat) (y : jsval) : bool :=
  bool_decide (o = Some j) || strict_eq_prim x y.

(** The own enumerable properties [{...v}] copies, in order: an object's
    fields, an array's elements and a string's characters under their
    indices, and nothing from [null], a boolean or a number. *)
Definition spread_props (v : json) : list (string * json) :=
  match v with
  | JObject fs => fs
  | JArray l => imap (fun j x => (pretty j, x)) l
  | JString s => imap (fun j c => (pretty j, JString (String c EmptyString))) (list_ascii_of_string s)
  | _ => []
  end.

(** A property written after the spread in an object literal keeps the
    place of the property the spread copied, or comes last. *)
Definition set_prop (fs : list (string * json)) (k : string) (x : json) : list (string * json) :=
  if bool_decide (k ∈ fs.*1)
  then (fun kv => if bool_decide (kv.1 = k) then (k, x) else kv) <$> fs
  else fs ++ [(k, x)].

(** The same with a value that may be [undefined].  A property set to
    [undefined] is modelled as absent: reads give [undefined] and
    [JSON.stringify] omits it either way.  The two differ only in the
    place a later assignment of the key takes. *)
Definition set_prop_js (fs : list (string * json)) (k : string) (x : jsval) : list (string * json) :=
  match x with
  | JSValue v => set_prop fs k v
  | JSUndefined => List.filter (fun kv => negb (bool_decide (kv.1 = k))) fs
  end.

(** [Array.prototype.map] with a callback that may throw; [j] is the index
    of the first element. *)
Fixpoint js_map {B} (f : nat -> json -> option B) (j : nat) (l : list json) : option (list B) :=
  match l with
  | [] => Some []
  | x :: l' => f j x ≫= fun y => (fun ys : list B => y :: ys) <$> js_map f (S j) l'
  end.

(** [Array.prototype.filter] with a test that may throw. *)
Fixpoint js_filter (p : nat -> json -> option bool) (j : nat) (l : list json) : option (list json) :=
  match l with
  | [] => Some []
  | x :: l' => p j x ≫= fun b : bool => (fun ys : list json => if b then x :: ys else ys) <$> js_filter p (S j) l'
  end.

(** [{ ...task, completed: !task.completed }] *)
Definition toggled (task : json) : option json :=
  (fun c => JObject (set_prop (spread_props task) "completed" (JBool (negb (truthy c)))))
    <$> get_prop task "completed".

(** [{ ...task, text, priority }]; the editor's fields are the values
    [handleEdit] copied, or what the user typed or chose. *)
Definition edited (text priority : jsval) (task : json) : json :=
  JObject (set_prop_js (set_prop_js (spread_props task) "text" text) "priority" priority).

(** [toggleTask(id)]: [tasks.map((task) => task.id === id ? {...} : task)]. *)
Definition toggleTask (o : option nat) (id : jsval) (tasks : json) : option json :=
  match tasks with
  | JArray l =>
      JArray <$> js_map (fun j task =>
        tid ← get_prop task "id"; if id_strict_eq j tid o id then toggled task else Some task) 0 l
  | _ => None
  end.

(** [(task) => task.id !== id], the test of [deleteTask]'s [filter]. *)
Definition delete_test (o : option nat) (id : jsval) (j : nat) (task : json) : option bool :=
  tid ← get_prop task "id"; Some (negb (id_strict_eq j tid o id)).

(** [deleteTask(id)]: [tasks.filter((task) => task.id !== id)]. *)
Definition deleteTask (o : option nat) (id : jsval) (tasks : json) : option json :=
  match tasks with
  | JArray l =>
      JArray <$> js_filter (delete_test o id) 0 l
  | _ => None
  end.

(** [updateTask(id, text, priority)]. *)
Definition updateTask (o : option nat) (id text priority : jsval) (tasks : json)
    : option json :=
  match tasks with
  | JArray l =>
      JArray <$> js_map (fun j task =>
        tid ← get_prop task "id";
        Some (if id_strict_eq j tid o id then edited text priority task else task)) 0 l
  | _ => None
  end.

(** [[...tasks, { id: crypto.randomUUID(), text, completed: false, priority }]]:
    spreading iterates an array's elements or a string's characters, and
    throws on any other value. *)
Definition addTask (uuid text priority : string) (tasks : json) : option json :=
  let task := JObject [("id", JString uuid); ("text", JString text);
                       ("completed", JBool false); ("priority", JString priority)] in
  match tasks with
  | JArray l => Some (JArray (l ++ [task]))
  | JString s => Some (JArray (((fun c => JString (String c EmptyString)) <$> list_ascii_of_string s) ++ [task]))
  | _ => None
  end.

(** The buttons of the row at index [i]: [onClick={() => onToggleTask(task.id)}]
    and [onClick={() => onDeleteTask(task.id)}].  [None] also when there is no
    such row. *)
Definition toggle_row (i : nat) (tasks : json) : option json :=
  match tasks with
  | JArray l => task ← l !! i; id ← get_prop task "id"; toggleTask (Some i) id tasks
  | _ => None
  end.

Definition delete_row (i : nat) (tasks : json) : option json :=
  match tasks with
  | JArray l => task ← l !! i; id ← get_prop task "id"; deleteTask (Some i) id tasks
  | _ => None
  end.

(** ** The rows [TaskList] renders from an untyped array

    React renders a child expression [{v}] as follows.  A string is
    rendered as a text.  A number is rendered as the text [Number::toString]
    gives for the double its lexeme denotes; that function is the parameter
    [num_text].  [null], a boolean and [undefined] render nothing.  An array
    renders the children of each of its elements.  An object throws
    ("Objects are not valid as a React child"). *)
Fixpoint react_text (v : json) : option (list string) :=
  match v with
  | JNull | JBool _ => Some []
  | JNumber n => Some [num_text n]
  | JString s => Some [s]
  | JArray l => @List.concat string <$> mapM react_text l
  | JObject _ => None
  end.

Definition react_child (x : jsval) : option (list string) :=
  match x with
  | JSUndefined => Some []
  | JSValue v => react_text v
  end.

(** [getPriorityColor(task.priority)]: the [switch] compares with [===], so
    a value other than the three strings gets the default class. *)
Definition priority_color (x : jsval) : string :=
  match x with
  | JSValue (JString s) => TaskList.getPriorityColor s
  | _ => TaskList.default_color
  end.

(** What a row evaluates: the editor, or the task view with the
    truthiness of [task.completed] (the row's class, the icon and the
    text's class), the texts of [{task.text}] and [{task.priority}], and
    the class of the priority. *)
Inductive RowOut :=
| EditorOut
| TaskOut (completed : bool) (text priority : list string) (color : string).

(** [editingTask] beside untyped rows: the index of the row [handleEdit]
    read it from, and the [id], [text] and [priority] it holds. *)
Record ForeignEditor := FEd {
  fe_origin : option nat;
  fe_id : jsval;
  fe_text : jsval;
  fe_priority : jsval
}.

(** [null] is [None]. *)
Definition ForeignEditing := option ForeignEditor.

(** A typed [editingTask], copied from the row at index [o] if it is still
    in the array. *)
Definition encode_editing (o : option nat) (e : EditingTask.t) : ForeignEditor :=
  FEd o (JSValue (JString (EditingTask.id e))) (JSValue (JString (EditingTask.text e)))
    (JSValue (JString (priority_to_string (EditingTask.priority e)))).

(** Row [j] of [tasks.map((task) => <div key={task.id} ...>)], with its key.
    When [editingTask] is [null], [editingTask?.id] is [undefined], and the
    editor branch reads [editingTask.text] of [null] and throws. *)
Definition row_render (editing : ForeignEditing) (j : nat) (task : json)
    : option (jsval * RowOut) :=
  key ← get_prop task "id";
  c ← get_prop task "completed";
  let edit := match editing with
              | Some e => id_strict_eq j key (fe_origin e) (fe_id e)
              | None => strict_eq_prim JSUndefined key
              end in
  if edit then
    match editing with
    | Some _ => Some (key, EditorOut)
    | None => None
    end
  else
    text ← get_prop task "text"; txt ← react_child text;
    pr ← get_prop task "priority"; ptxt ← react_child pr;
    Some (key, TaskOut (truthy c) txt ptxt (priority_color pr)).

(** The rows of [TaskList]'s JSX. *)
Definition list_render (editing : ForeignEditing) (tasks : json) : option (list (jsval * RowOut)) :=
  match tasks with
  | JArray l => js_map (row_render editing) 0 l
  | _ => None
  end.

(** The first render of [App] and of its child [TaskList], where
    [editingTask] is [null]: the counters, then the rows; [None] is a
    thrown error, which unmounts the application. *)
Definition mount_render (tasks : json) : option (nat * nat * list (jsval * RowOut)) :=
  match first_render tasks with
  | Rendered a c => (fun rows => (a, c, rows)) <$> list_render None tasks
  | RenderThrows => None
  end.

(** What an element needs to render as a row when [editingTask] is
    [null]: it is not [null], it has an [id], and React can render its
    [text] and [priority] ([row_render_null_is_Some]). *)
Definition row_ok (t : json) : Prop :=
  t <> JNull /\ get_prop t "id" <> Some JSUndefined /\
  is_Some (react_child (default JSUndefined (get_prop t "text"))) /\
  is_Some (react_child (default JSUndefined (get_prop t "priority"))).

(** ** The editor on untyped rows *)

(** [handleEdit(task)] from the row at index [j]: [setEditingTask({ id:
    task.id, text: task.text, priority: task.priority })], the fields
    copied without a check. *)
Definition handleEdit (j : nat) (task : json) : option ForeignEditor :=
  id ← get_prop task "id"; text ← get_prop task "text"; pr ← get_prop task "priority";
  Some (FEd (Some j) id text pr).

(** The editor's [onChange]s: [{ ...editingTask, text: e.target.value }]
    and [{ ...editingTask, priority: e.target.value }]. *)
Definition setEditText (e : ForeignEditor) (v : string) : ForeignEditor :=
  FEd (fe_origin e) (fe_id e) (JSValue (JString v)) (fe_priority e).

Definition setEditPriority (e : ForeignEditor) (v : string) : ForeignEditor :=
  FEd (fe_origin e) (fe_id e) (fe_text e) (JSValue (JString v)).

(** [x.trim()]: only a string has the method.  On any other value the call
    throws a [TypeError]: [undefined] and [null] have no properties, and
    numbers, booleans, arrays and objects have no [trim]. *)
Definition js_trim (x : jsval) : option string :=
  match x with
  | JSValue (JString s) => Some (trim s)
  | _ => None
  end.

(** [handleSaveEdit]: [if (editingTask && editingTask.text.trim()) {
    onUpdateTask(editingTask.id, editingTask.text, editingTask.priority);
    setEditingTask(null); }], with [App]'s [updateTask] on [tasks].  The
    result is the new [editingTask] and [tasks], or [None] when it throws
    (an error in an event handler: React keeps the page, and neither state
    changes, as the throw comes before both setters). *)
Definition handleSaveEdit (editing : ForeignEditing) (tasks : json)
    : option (ForeignEditing * json) :=
  match editing with
  | None => Some (None, tasks)
  | Some e =>
      t ← js_trim (fe_text e);
      if js_truthy t
      then (fun tasks' => (None, tasks')) <$>
             updateTask (fe_origin e) (fe_id e) (fe_text e) (fe_priority e) tasks
      else Some (editing, tasks)
  end.

(** ** Theorems *)

Lemma get_prop_encode_task t :
  get_prop (Storage.encode_task t) "completed" = Some (JSValue (JBool (Task.completed t))).
Proof. reflexivity. Qed.

Lemma mapM_get_completed tasks :
  mapM (fun task => get_prop task "completed") (Storage.encode_task <$> tasks) =
  Some ((fun t => JSValue (JBool (Task.completed t))) <$> tasks).
Proof.
  induction tasks as [|t tasks IH]; [done|]. rewrite fmap_cons. cbn [mapM].
  by rewrite IH.
Qed.

Lemma filter_length_encode (test : jsval -> bool) (p : bool -> bool) tasks :
  (forall b, test (JSValue (JBool b)) = p b) ->
  filter_length test (Storage.encode_tasks tasks) =
  Some (length (List.filter (fun t => p (Task.completed t)) tasks)).
Proof.
  intros Hp. unfold filter_length, Storage.encode_tasks. cbv beta iota.
  rewrite mapM_get_completed.
  cbn [fmap option_fmap option_map]. f_equal.
  induction tasks as [|t tasks IH]; [done|]. cbn [fmap list_fmap List.filter].
  rewrite Hp. destruct (p (Task.completed t)); simpl; congruence.
Qed.

(** on the collection the program writes, JavaScript's semantics of
    lines 50-51 agree with the typed counters: the first render computes
    [activeTasks] and [completedTasks] of the collection. *)
Lemma first_render_encode tasks :
  first_render (Storage.encode_tasks tasks) =
  Rendered (TaskStore.activeTasks tasks) (TaskStore.completedTasks tasks).
Proof.
  unfold first_render.
  rewrite (filter_length_encode _ negb) by (by intros []).
  rewrite (filter_length_encode _ id) by (by intros []).
  reflexivity.
Qed.

(** C17: saved JSON that is not an array is mounted as [tasks], and the
    first render throws at [tasks.filter]: the application crashes instead
    of starting with an empty list (spec §7, §8). *)
Theorem foreign_non_array_crashes s ls v :
  js_truthy s = true -> JSON_parse s = Some v -> (forall l, v <> JArray l) ->
  App.mount (Storage.setItem Storage.TASKS_KEY s ls) = App.MountedForeign v /\
  first_render v = RenderThrows.
Proof.
  intros Ht Hp Hv. split.
  - unfold App.mount, Storage.load, Storage.load_with, Storage.getItem, Storage.setItem.
    rewrite lookup_insert_eq, Ht, Hp. destruct v; try reflexivity. by destruct (Hv l).
  - unfold first_render, filter_length. destruct v; try reflexivity. by destruct (Hv l).
Qed.

Lemma get_prop_None v k : get_prop v k = None <-> v = JNull.
Proof. destruct v; simpl; split; congruence. Qed.

Lemma filter_length_array_None test l :
  filter_length test (JArray l) = None <-> JNull ∈ l.
Proof.
  unfold filter_length. rewrite fmap_None, mapM_None, Exists_exists.
  setoid_rewrite get_prop_None. naive_solver.
Qed.

Lemma first_render_throws_iff l : first_render (JArray l) = RenderThrows <-> JNull ∈ l.
Proof.
  unfold first_render. rewrite <-(filter_length_array_None (fun c => negb (truthy c))).
  destruct (filter_length _ (JArray l)) as [a|] eqn:Ea; [|done].
  destruct (filter_length truthy (JArray l)) eqn:Ec; [split; discriminate|].
  apply filter_length_array_None,
    (filter_length_array_None (fun c => negb (truthy c))) in Ec.
  congruence.
Qed.

(** C18: saved data that is an array of anything is rendered unless one of
    its elements is [null], where reading [task.completed] throws; when it
    renders, each element is counted once, as remaining or as completed. *)
Theorem foreign_array_render l :
  (first_render (JArray l) = RenderThrows <-> JNull ∈ l) /\
  forall a c, first_render (JArray l) = Rendered a c -> a + c = length l.
Proof.
  split; [apply first_render_throws_iff|].
  intros a c. unfold first_render, filter_length.
  destruct (mapM _ l) as [flags|] eqn:E; [|discriminate]. cbn [fmap option_fmap option_map].
  intros [= <- <-]. rewrite (length_filter_split truthy).
  apply mapM_Some_1, Forall2_length in E. by rewrite E.
Qed.

(** *** The callbacks *)

(** [map] and [filter] with callbacks that do not throw on a list of values
    [h u]: the results are those of the callbacks, element by element. *)
Lemma js_map_fmap {A B} (h : A -> json) (g : A -> B) f j (ts : list A) :
  (forall k u, ts !! k = Some u -> f (k + j) (h u) = Some (g u)) ->
  js_map f j (h <$> ts) = Some (g <$> ts).
Proof.
  revert j. induction ts as [|u ts IH]; intros j Hf; [done|]. cbn [fmap list_fmap js_map].
  rewrite (Hf 0 u eq_refl : f j (h u) = _). cbn [mbind option_bind].
  rewrite IH; [done|]. intros k u' Hk. rewrite Nat.add_succ_r. by apply (Hf (S k)).
Qed.

Lemma js_filter_fmap {A} (h : A -> json) (q : A -> bool) p j (ts : list A) :
  (forall k u, ts !! k = Some u -> p (k + j) (h u) = Some (q u)) ->
  js_filter p j (h <$> ts) = Some (h <$> List.filter q ts).
Proof.
  revert j. induction ts as [|u ts IH]; intros j Hp; [done|]. cbn [fmap list_fmap js_filter].
  rewrite (Hp 0 u eq_refl : p j (h u) = _). cbn [mbind option_bind].
  rewrite IH; [cbn [List.filter]; by destruct (q u)|]. intros k u' Hk. rewrite Nat.add_succ_r. by apply (Hp (S k)).
Qed.

Lemma get_prop_encode_id t :
  get_prop (Storage.encode_task t) "id" = Some (JSValue (JString (Task.id t))).
Proof. reflexivity. Qed.

Lemma get_prop_not_null v k : v <> JNull -> exists x, get_prop v k = Some x.
Proof. intros Hv. destruct v; [done|..]; eexists; reflexivity. Qed.

Lemma lookup_not_null l k x : Forall (fun t => t <> JNull) l -> l !! k = Some x -> x <> JNull.
Proof. intros Hl Hk. exact (Forall_lookup_1 _ _ _ _ Hl Hk). Qed.

(** On the collection, an id compared with the id [x] read from the
    element at index [o] (if any, and then an element with id [x]): [===]
    holds exactly when [has_id] does, the row with itself included. *)
Lemma id_strict_eq_enc (ts : list Task.t) o x k u :
  (forall i, o = Some i -> exists t, ts !! i = Some t /\ Task.id t = x) -> ts !! k = Some u ->
  id_strict_eq k (JSValue (JString (Task.id u))) o (JSValue (JString x)) = TaskStore.has_id x u.
Proof.
  intros Ho Hk. unfold id_strict_eq, strict_eq_prim, TaskStore.has_id.
  case_bool_decide as E; [|done]. destruct (Ho k E) as (t & Ht & <-).
  rewrite Hk in Ht. injection Ht as ->. by rewrite bool_decide_true.
Qed.

Lemma origin_row (ts : list Task.t) i t :
  ts !! i = Some t -> forall i', Some i = Some i' -> exists t', ts !! i' = Some t' /\ Task.id t' = Task.id t.
Proof. intros Hi i' [= <-]. by exists t. Qed.

Lemma toggled_encode u :
  toggled (Storage.encode_task u) = Some (Storage.encode_task (TaskStore.toggled u)).
Proof. destruct u; reflexivity. Qed.

Lemma edited_encode text p u :
  edited (JSValue (JString text)) (JSValue (JString (priority_to_string p))) (Storage.encode_task u) =
  Storage.encode_task (TaskStore.edited text p u).
Proof. destruct u; reflexivity. Qed.

(** The callback of [map] or [filter] on the element [k] of the collection:
    the id it reads and its test [===]. *)
Ltac encoded_row Ho :=
  let k := fresh "k" in let u := fresh "u" in
  intros k u ?; rewrite Nat.add_0_r; try unfold compose; try unfold delete_test; cbv beta;
  rewrite get_prop_encode_id;
  cbn [mbind option_bind]; rewrite (id_strict_eq_enc _ _ _ k u Ho) by done.

Section Encoded.
Context (ts : list Task.t) (o : option nat) (x : string).
Hypothesis Ho : forall i, o = Some i -> exists t, ts !! i = Some t /\ Task.id t = x.

(** The callbacks on the collection, with the id [x] read from the element
    at index [o]: the typed store operations. *)
Lemma toggleTask_enc :
  toggleTask o (JSValue (JString x)) (Storage.encode_tasks ts) =
  Some (Storage.encode_tasks (TaskStore.toggleTask x ts)).
Proof.
  unfold toggleTask, Storage.encode_tasks, TaskStore.toggleTask, map_if.
  rewrite <-list_fmap_compose. erewrite js_map_fmap; [reflexivity|].
  encoded_row Ho. destruct (TaskStore.has_id _ _); [apply toggled_encode|done].
Qed.

Lemma deleteTask_enc :
  deleteTask o (JSValue (JString x)) (Storage.encode_tasks ts) =
  Some (Storage.encode_tasks (TaskStore.deleteTask x ts)).
Proof.
  unfold deleteTask, Storage.encode_tasks, TaskStore.deleteTask.
  rewrite (js_filter_fmap _ (fun u => negb (TaskStore.has_id x u))); [done|].
  by encoded_row Ho.
Qed.

(** The flags [deleteTask]'s [filter] computes. *)
Lemma delete_flags_enc :
  js_map (delete_test o (JSValue (JString x))) 0 (Storage.encode_task <$> ts) =
  Some ((fun u => negb (TaskStore.has_id x u)) <$> ts).
Proof. apply js_map_fmap. by encoded_row Ho. Qed.

Lemma updateTask_enc text p :
  updateTask o (JSValue (JString x)) (JSValue (JString text)) (JSValue (JString (priority_to_string p)))
    (Storage.encode_tasks ts) =
  Some (Storage.encode_tasks (TaskStore.updateTask x text p ts)).
Proof.
  unfold updateTask, Storage.encode_tasks, TaskStore.updateTask, map_if.
  rewrite <-list_fmap_compose. erewrite js_map_fmap; [reflexivity|].
  encoded_row Ho. destruct (TaskStore.has_id _ _); [by rewrite edited_encode|done].
Qed.

End Encoded.

Lemma addTask_enc ts uuid text p :
  addTask uuid text (priority_to_string p) (Storage.encode_tasks ts) =
  Some (Storage.encode_tasks (TaskStore.addTask uuid text p ts)).
Proof. unfold addTask, Storage.encode_tasks, TaskStore.addTask. cbv beta iota zeta. by rewrite fmap_app. Qed.

(** The row buttons read the id of their row. *)
Lemma row_id_enc (ts : list Task.t) i t (f : jsval -> json -> option json) :
  ts !! i = Some t ->
  (match Storage.encode_tasks ts with
   | JArray l => task ← l !! i; id ← get_prop task "id"; f id (Storage.encode_tasks ts)
   | _ => None
   end) = f (JSValue (JString (Task.id t))) (Storage.encode_tasks ts).
Proof.
  intros Hi. cbn [Storage.encode_tasks]. rewrite list_lookup_fmap, Hi.
  cbn [fmap option_fmap option_map mbind option_bind]. by rewrite get_prop_encode_id.
Qed.

(** on the collection the program writes, the JavaScript of the four
    callbacks computes what the typed store operations compute: a row's
    toggle and delete buttons and the editor's save (with the row's id),
    and the form's submit.  The spreads keep the property order of
    [encode_task], so the saved text is the same as well. *)
Lemma callbacks_encode (ts : list Task.t) i t text p uuid :
  ts !! i = Some t ->
  toggle_row i (Storage.encode_tasks ts) =
    Some (Storage.encode_tasks (TaskStore.toggleTask (Task.id t) ts)) /\
  delete_row i (Storage.encode_tasks ts) =
    Some (Storage.encode_tasks (TaskStore.deleteTask (Task.id t) ts)) /\
  updateTask (Some i) (JSValue (JString (Task.id t))) (JSValue (JString text))
    (JSValue (JString (priority_to_string p)))
    (Storage.encode_tasks ts) =
    Some (Storage.encode_tasks (TaskStore.updateTask (Task.id t) text p ts)) /\
  addTask uuid text (priority_to_string p) (Storage.encode_tasks ts) =
    Some (Storage.encode_tasks (TaskStore.addTask uuid text p ts)).
Proof.
  intros Hi. unfold toggle_row, delete_row.
  rewrite !(row_id_enc ts i t (fun id tasks => _ (Some i) id tasks)) by done.
  split_and!; [apply toggleTask_enc|apply deleteTask_enc|apply updateTask_enc|apply addTask_enc];
    by apply origin_row.
Qed.

(** *** The rows *)

Lemma js_map_is_Some {B} (f : nat -> json -> option B) j l :
  is_Some (js_map f j l) <-> forall k x, l !! k = Some x -> is_Some (f (k + j) x).
Proof.
  revert j. induction l as [|x l IH]; intros j; cbn [js_map].
  { split; [intros _ k y Hk; by rewrite lookup_nil in Hk|by eexists]. }
  destruct (f j x) as [y|] eqn:E; cbn [mbind option_bind].
  - rewrite fmap_is_Some, IH. split.
    + intros H [|k] z Hk; cbn in Hk.
      * injection Hk as <-. rewrite Nat.add_0_l, E. by eexists.
      * rewrite Nat.add_succ_l, <-Nat.add_succ_r. by apply H.
    + intros H k z Hk. rewrite Nat.add_succ_r. by apply (H (S k)).
  - split; [intros []; discriminate|]. intros H. destruct (H 0 x eq_refl) as [z Hz].
    cbn in Hz. congruence.
Qed.

(** On the first render ([editingTask] is [null]) a row renders exactly
    when its element is not [null], has an [id], and its [text] and
    [priority] are children React can render. *)
Lemma row_render_null_is_Some k t :
  is_Some (row_render None k t) <->
  t <> JNull /\ get_prop t "id" <> Some JSUndefined /\
  is_Some (react_child (default JSUndefined (get_prop t "text"))) /\
  is_Some (react_child (default JSUndefined (get_prop t "priority"))).
Proof.
  assert (t = JNull \/ t <> JNull) as [->|Hnn] by (destruct t; [left|right..]; congruence).
  { split; [intros []; discriminate|intros []; done]. }
  unfold row_render.
  destruct (get_prop_not_null t "id" Hnn) as [key ->],
    (get_prop_not_null t "completed" Hnn) as [c ->],
    (get_prop_not_null t "text" Hnn) as [x ->],
    (get_prop_not_null t "priority" Hnn) as [p ->].
  cbn [mbind option_bind].
  destruct key as [|v]; cbn [strict_eq_prim].
  - split; [intros []; discriminate|]. intros (_ & H & _). by destruct H.
  - cbn [from_option id]. destruct (react_child x), (react_child p); cbn [mbind option_bind];
      (split; [intros [? Hs]|intros (_ & _ & [? H1] & [? H2])]; simplify_eq/=);
      [split_and!; [done|discriminate|by eexists|by eexists]|by eexists].
Qed.

Lemma list_render_null_is_Some l :
  is_Some (list_render None (JArray l)) <->
  Forall (fun t => t <> JNull /\ get_prop t "id" <> Some JSUndefined /\
                   is_Some (react_child (default JSUndefined (get_prop t "text"))) /\
                   is_Some (react_child (default JSUndefined (get_prop t "priority")))) l.
Proof.
  unfold list_render. rewrite js_map_is_Some, Forall_lookup.
  setoid_rewrite row_render_null_is_Some. done.
Qed.


Lemma get_prop_encode_completed t :
  get_prop (Storage.encode_task t) "completed" = Some (JSValue (JBool (Task.completed t))).
Proof. reflexivity. Qed.

(** A row of the collection the program writes: the editor when the
    editing test holds, the task view of the task otherwise. *)
Lemma row_render_encode editing k u :
  row_render editing k (Storage.encode_task u) =
  if match editing with
     | Some e => id_strict_eq k (JSValue (JString (Task.id u))) (fe_origin e) (fe_id e)
     | None => false
     end
  then Some (JSValue (JString (Task.id u)), EditorOut)
  else Some (JSValue (JString (Task.id u)),
             TaskOut (Task.completed u) [Task.text u] [priority_to_string (Task.priority u)]
               (TaskList.getPriorityColor (priority_to_string (Task.priority u)))).
Proof.
  unfold row_render. rewrite get_prop_encode_id, get_prop_encode_completed.
  cbn [mbind option_bind]. destruct editing as [e|]; [destruct (id_strict_eq _ _ _ _)|];
    reflexivity.
Qed.

(** The rows of the collection, beside an editor whose origin, if any, is
    a row with the edited id. *)
Lemma list_render_enc (ts : list Task.t) eT o :
  (forall e k, eT = Some e -> o = Some k ->
     exists t, ts !! k = Some t /\ Task.id t = EditingTask.id e) ->
  list_render (encode_editing o <$> eT) (Storage.encode_tasks ts) =
  Some ((fun t => (JSValue (JString (Task.id t)),
                   match TaskList.render_row eT t with
                   | TaskList.EditRow _ => EditorOut
                   | TaskList.ViewRow t' color =>
                       TaskOut (Task.completed t') [Task.text t'] [priority_to_string (Task.priority t')] color
                   end)) <$> ts).
Proof.
  intros Hedit. unfold list_render, Storage.encode_tasks.
  erewrite js_map_fmap; [reflexivity|]. intros k u Hk.
  rewrite Nat.add_0_r, row_render_encode.
  destruct eT as [e|]; cbn [fmap option_fmap option_map TaskList.render_row encode_editing fe_origin fe_id];
    [|reflexivity].
  rewrite (id_strict_eq_enc ts o (EditingTask.id e) k u); [|intros i Hi; exact (Hedit e i eq_refl Hi)|done].
  unfold TaskStore.has_id. repeat case_bool_decide; try reflexivity; congruence.
Qed.

(** on the collection the program writes, JavaScript's evaluation of
    TaskList's rows is the typed [render_row]: with [editingTask] [null] or
    copied from a row with the edited id (or from a row since deleted),
    each row is keyed by its id and renders the editor exactly when
    [render_row] says so, or else the task view with the task's
    [completed], [text], [priority] and colour. *)
Lemma render_encode (ts : list Task.t) eT o :
  (forall e k, eT = Some e -> o = Some k ->
     exists t, ts !! k = Some t /\ Task.id t = EditingTask.id e) ->
  list_render (encode_editing o <$> eT) (Storage.encode_tasks ts) =
  Some ((fun t => (JSValue (JString (Task.id t)),
                   match TaskList.render_row eT t with
                   | TaskList.EditRow _ => EditorOut
                   | TaskList.ViewRow t' color =>
                       TaskOut (Task.completed t') [Task.text t'] [priority_to_string (Task.priority t')] color
                   end)) <$> ts).
Proof. apply list_render_enc. Qed.

(** *** The editor *)

(** [updateTask] on an array without [null] never throws. *)
Lemma updateTask_is_Some i id text pr l :
  Forall (fun t => t <> JNull) l -> is_Some (updateTask i id text pr (JArray l)).
Proof.
  intros Hnn. unfold updateTask. apply fmap_is_Some, js_map_is_Some.
  intros k x Hk. destruct (get_prop_not_null x "id" (lookup_not_null _ _ _ Hnn Hk)) as [tid ->].
  by eexists.
Qed.

(** C20: on a rendered array, opening the editor of a row and saving it
    without typing throws exactly when the row's [text] is not a string:
    [handleEdit] copies [task.text] unchecked and [handleSaveEdit] calls
    [editingTask.text.trim()].  A row whose text is a number renders (the
    number as text), and its save throws: the error is not a render error,
    so the page stays, but the click does nothing and the editor stays
    open. *)
Theorem foreign_edit_save l j task :
  Forall (fun t => t <> JNull) l -> l !! j = Some task ->
  exists e, handleEdit j task = Some e /\
    (handleSaveEdit (Some e) (JArray l) = None <->
     forall s, get_prop task "text" <> Some (JSValue (JString s))).
Proof.
  intros Hnn Hj. pose proof (lookup_not_null _ _ _ Hnn Hj) as Ht.
  destruct (get_prop_not_null task "id" Ht) as [id Eid],
    (get_prop_not_null task "text" Ht) as [text Etext],
    (get_prop_not_null task "priority" Ht) as [pr Epr].
  exists (FEd (Some j) id text pr). split.
  { unfold handleEdit. by rewrite Eid, Etext, Epr. }
  rewrite Etext. unfold handleSaveEdit. cbn [fe_text fe_origin fe_id fe_priority].
  destruct text as [|[| | |s| |]]; cbn [js_trim mbind option_bind];
    try (split; [intros _ s; discriminate|done]).
  split; [|intros H; by destruct (H s)].
  destruct (js_truthy (trim s)); [|discriminate].
  destruct (updateTask_is_Some (Some j) id (JSValue (JString s)) pr l Hnn) as [tasks' ->].
  discriminate.
Qed.

(** *** Rows stay renderable *)

(** The value of a property of an object. *)
Lemma get_prop_JObject fs k :
  get_prop (JObject fs) k =
  Some (match list_find (fun kv => kv.1 = k) fs with
        | Some (_, (_, x)) => JSValue x
        | None => JSUndefined
        end).
Proof. reflexivity. Qed.

Lemma get_prop_cons k' x fs k :
  get_prop (JObject ((k', x) :: fs)) k =
  if bool_decide (k' = k) then Some (JSValue x) else get_prop (JObject fs) k.
Proof.
  rewrite !get_prop_JObject. cbn [list_find]. case_bool_decide; rewrite ?decide_True, ?decide_False by done;
    [done|]. by destruct (list_find _ fs) as [[? []]|].
Qed.

Lemma get_prop_map_set_ne fs k' x k :
  k' <> k ->
  get_prop (JObject ((fun kv => if bool_decide (kv.1 = k') then (k', x) else kv) <$> fs)) k =
  get_prop (JObject fs) k.
Proof.
  intros Hne. induction fs as [|[k1 x1] fs IH]; [done|]. cbn [fmap list_fmap fst].
  case_bool_decide as E1; rewrite !get_prop_cons, IH; [|done].
  subst k1. by rewrite !bool_decide_false.
Qed.

Lemma get_prop_map_set_eq fs k' x :
  k' ∈ fs.*1 ->
  get_prop (JObject ((fun kv => if bool_decide (kv.1 = k') then (k', x) else kv) <$> fs)) k' =
  Some (JSValue x).
Proof.
  induction fs as [|[k1 x1] fs IH]; [by intros ?%not_elem_of_nil|].
  cbn [fmap list_fmap fst]. intros Hin. case_bool_decide as E1.
  - by rewrite get_prop_cons, bool_decide_true.
  - rewrite get_prop_cons, bool_decide_false by done.
    apply elem_of_cons in Hin as [Hin|Hin]; [congruence|]. by apply IH.
Qed.

Lemma get_prop_set_prop fs k' x k :
  get_prop (JObject (set_prop fs k' x)) k =
  if bool_decide (k' = k) then Some (JSValue x) else get_prop (JObject fs) k.
Proof.
  unfold set_prop. case_bool_decide as Hin.
  - case_bool_decide as E; [subst k; by apply get_prop_map_set_eq|by apply get_prop_map_set_ne].
  - induction fs as [|[k1 x1] fs IH].
    + cbn [app]. rewrite get_prop_cons. by case_bool_decide.
    + cbn [fmap list_fmap fst] in Hin. apply not_elem_of_cons in Hin as [Hne Hin].
      rewrite <-app_comm_cons, !get_prop_cons, IH by done.
      destruct (decide (k1 = k)) as [<-|E].
      * by rewrite (bool_decide_true (k1 = k1)), (bool_decide_false (k' = k1)).
      * by rewrite (bool_decide_false (k1 = k)).
Qed.

Lemma get_prop_set_prop_js fs k' x k :
  get_prop (JObject (set_prop_js fs k' x)) k =
  if bool_decide (k' = k) then Some x else get_prop (JObject fs) k.
Proof.
  destruct x as [|x]; cbn [set_prop_js]; [|apply get_prop_set_prop].
  induction fs as [|[k1 x1] fs IH]; cbn [List.filter fst].
  { rewrite get_prop_JObject. by case_bool_decide. }
  destruct (decide (k1 = k')) as [->|E1].
  - rewrite (bool_decide_true (k' = k')) by done. cbn [negb].
    rewrite IH, get_prop_cons. by case_bool_decide.
  - rewrite (bool_decide_false (k1 = k')) by done. cbn [negb]. rewrite !get_prop_cons, IH.
    destruct (decide (k1 = k)) as [<-|E].
    + by rewrite (bool_decide_true (k1 = k1)), (bool_decide_false (k' = k1)).
    + by rewrite (bool_decide_false (k1 = k)).
Qed.

(** An element with an [id] is an object. *)
Lemma has_id_object t :
  t <> JNull -> get_prop t "id" <> Some JSUndefined -> exists fs, t = JObject fs.
Proof. destruct t; try done; by eexists. Qed.

Lemma js_map_Forall {B} (f : nat -> json -> option B) (P : json -> Prop) (Q : B -> Prop) j l l' :
  Forall P l -> (forall k x y, P x -> f k x = Some y -> Q y) ->
  js_map f j l = Some l' -> Forall Q l'.
Proof.
  intros Hl Hf. revert j l'. induction Hl as [|x l Hx _ IH]; intros j l'; cbn [js_map].
  { by intros [= <-]. }
  destruct (f j x) as [y|] eqn:E; [|discriminate]. cbn [mbind option_bind].
  destruct (js_map f (S j) l) as [ys|] eqn:Es; [|discriminate]. intros [= <-].
  constructor; [by eapply Hf|by eapply IH].
Qed.

Lemma js_filter_Forall (p : nat -> json -> option bool) (P : json -> Prop) j l l' :
  Forall P l -> js_filter p j l = Some l' -> Forall P l'.
Proof.
  intros Hl. revert j l'. induction Hl as [|x l Hx _ IH]; intros j l'; cbn [js_filter].
  { by intros [= <-]. }
  destruct (p j x) as [b|]; [|discriminate]. cbn [mbind option_bind].
  destruct (js_filter p (S j) l) as [ys|] eqn:Es; [|discriminate]. intros [= <-].
  destruct b; [constructor; [done|]|]; by eapply IH.
Qed.

(** The spreads of the callbacks keep a row renderable: the toggle writes
    [completed] only, the save writes a string [text] and a renderable
    [priority]. *)
Lemma toggled_row_ok t t' : row_ok t -> toggled t = Some t' -> row_ok t'.
Proof.
  intros (Hnn & Hid & Htx & Hpr). destruct (has_id_object t Hnn Hid) as [fs ->].
  unfold toggled. cbn [spread_props].
  destruct (get_prop (JObject fs) "completed") as [c|]; [|discriminate]. intros [= <-].
  unfold row_ok. rewrite !get_prop_set_prop, !bool_decide_false by discriminate.
  split_and!; [discriminate|done..].
Qed.

Lemma edited_row_ok s pr t :
  row_ok t -> is_Some (react_child pr) -> row_ok (edited (JSValue (JString s)) pr t).
Proof.
  intros (Hnn & Hid & Htx & Hpr) Hp. destruct (has_id_object t Hnn Hid) as [fs ->].
  unfold edited, row_ok. cbn [spread_props].
  rewrite !get_prop_set_prop_js.
  rewrite (bool_decide_false ("priority" = "id")), (bool_decide_false ("text" = "id")),
    (bool_decide_false ("priority" = "text")), (bool_decide_true ("text" = "text")),
    (bool_decide_true ("priority" = "priority")) by done.
  split_and!; [discriminate|done|cbn; by eexists|done].
Qed.

Lemma fmap_JArray_Some (m : option (list json)) t :
  JArray <$> m = Some t -> exists l', m = Some l' /\ t = JArray l'.
Proof. destruct m as [l'|]; [intros [= <-]; by exists l'|discriminate]. Qed.

(** Every callback keeps the rows renderable: toggling, deleting, saving
    the editor (whose text is then a string and whose priority is one a
    row rendered or the select offers) and adding. *)
Lemma callbacks_row_ok l o id s pr uuid text p tasks' :
  Forall row_ok l -> is_Some (react_child pr) ->
  toggleTask o id (JArray l) = Some tasks' \/ deleteTask o id (JArray l) = Some tasks' \/
  updateTask o id (JSValue (JString s)) pr (JArray l) = Some tasks' \/
  addTask uuid text p (JArray l) = Some tasks' ->
  exists l', tasks' = JArray l' /\ Forall row_ok l'.
Proof.
  intros Hl Hp [H|[H|[H|H]]].
  - apply fmap_JArray_Some in H as (l' & E & ->). exists l'. split; [done|].
    refine (js_map_Forall _ row_ok row_ok 0 l l' Hl _ E). intros k x y Hx.
    destruct (get_prop x "id"); cbn [mbind option_bind]; [|discriminate].
    destruct (id_strict_eq _ _ _ _); [by apply toggled_row_ok|congruence].
  - apply fmap_JArray_Some in H as (l' & E & ->). exists l'. split; [done|].
    by apply (js_filter_Forall _ row_ok 0 l l' Hl E).
  - apply fmap_JArray_Some in H as (l' & E & ->). exists l'. split; [done|].
    refine (js_map_Forall _ row_ok row_ok 0 l l' Hl _ E). intros k x y Hx.
    destruct (get_prop x "id"); cbn [mbind option_bind]; [|discriminate]. intros [= <-].
    destruct (id_strict_eq _ _ _ _); [by apply edited_row_ok|done].
  - injection H as <-. eexists. split; [done|]. apply Forall_app. split; [done|].
    constructor; [|constructor]. split_and!; [discriminate|discriminate|cbn; by eexists..].
Qed.

(** Rows that are all renderable render beside any [editingTask]: a row
    the edit test picks shows the editor, any other its task view. *)
Lemma list_render_row_ok ed l : Forall row_ok l -> is_Some (list_render ed (JArray l)).
Proof.
  intros Hl. unfold list_render. apply js_map_is_Some. intros k x Hk.
  destruct (Forall_lookup_1 _ _ _ _ Hl Hk) as (Hnn & Hid & [txt Htxt] & [ptxt Hptxt]).
  unfold row_render.
  destruct (get_prop_not_null x "id" Hnn) as [key Ekey],
    (get_prop_not_null x "completed" Hnn) as [c ->],
    (get_prop_not_null x "text" Hnn) as [t Et],
    (get_prop_not_null x "priority" Hnn) as [pr Epr].
  rewrite Ekey, Et, Epr in *. cbn [mbind option_bind from_option id] in *.
  destruct ed as [e|]; [destruct (id_strict_eq _ _ _ _); [by eexists|]|].
  - rewrite Htxt, Hptxt. by eexists.
  - destruct key as [|v]; [done|]. cbn [strict_eq_prim]. rewrite Htxt, Hptxt. by eexists.
Qed.

End Callbacks.

(** ** Witnesses *)

Lemma foreign_non_array_crashes_witness :
  App.mount (Storage.setItem Storage.TASKS_KEY "{}" ∅) = App.MountedForeign (JObject []) /\
  first_render (JObject []) = RenderThrows.
Proof.
  apply foreign_non_array_crashes; [reflexivity|vm_compute; reflexivity|discriminate].
Defined.

Lemma foreign_array_render_witness :
  (first_render (JArray [JNumber "1"; JNull]) = RenderThrows <-> JNull ∈ [JNumber "1"; JNull]) /\
  forall a c, first_render (JArray [JNumber "1"; JNull]) = Rendered a c ->
    a + c = length [JNumber "1"; JNull].
Proof. apply foreign_array_render. Defined.

(** Saved data [[1, {"text": "a"}, {"id": "x"}]]: two elements without an
    id, and one with. *)
Definition ex_foreign : list json :=
  [JNumber "1"; JObject [("text", JString "a")]; JObject [("id", JString "x")]].

(** The saved data [ex_foreign] passes the counters but crashes the rows:
    its first two elements have no [id]. *)
Example ex_foreign_crashes :
  first_render (JArray ex_foreign) = Rendered 3 0 /\
  mount_render (fun a b => bool_decide (a = b)) id (JArray ex_foreign) = None.
Proof. split; reflexivity. Qed.

(** Saved data [[{"id": "a", "text": 5}]]: a task whose text is a number. *)
Definition ex_numeric_text : list json := [JObject [("id", JString "a"); ("text", JNumber "5")]].

Lemma foreign_edit_save_witness :
  exists e, handleEdit 0 (JObject [("id", JString "a"); ("text", JNumber "5")]) = Some e /\
    (handleSaveEdit (fun a b => bool_decide (a = b)) (Some e) (JArray ex_numeric_text) = None <->
     forall s, get_prop (JObject [("id", JString "a"); ("text", JNumber "5")]) "text" <>
               Some (JSValue (JString s))).
Proof. apply foreign_edit_save; [repeat constructor; discriminate|reflexivity]. Defined.

(** That data renders (the text [5] shown as ["5"]), and saving its row
    from the editor, untouched, throws. *)
Example ex_numeric_text_crashes_on_save :
  mount_render (fun a b => bool_decide (a = b)) id (JArray ex_numeric_text) =
    Some (1, 0, [(JSValue (JString "a"), TaskOut false ["5"] [] TaskList.default_color)]) /\
  (handleEdit 0 (JObject [("id", JString "a"); ("text", JNumber "5")]) ≫= fun e =>
     handleSaveEdit (fun a b => bool_decide (a = b)) (Some e) (JArray ex_numeric_text)) = None.
Proof. split; reflexivity. Qed.

End Foreign.
