(* ===== verification/ForeignSession.v ===== *)
(** * ForeignSession: runs of [App] on data [load] does not recognise

    [Foreign.v] models what [App] and [TaskList] do, once, on whatever
    [JSON.parse] returned.  This file composes those pieces into the
    program a user runs: a state ([FState]) holding the untyped [tasks],
    [TaskList]'s [editingTask], [TaskInput]'s state and the number of
    UUIDs drawn; the handler of each user event ([fhandle]); and a step
    relation ([fstep]) over the events whose element is on the page.

    The form is the typed [TaskInput] of [TaskInput.v], its [onAddTask]
    being [App]'s [addTask] on the untyped value.  A handler that throws is
    an error in a React event handler: React keeps the page, and since
    every throw of this program comes before its state setters, the state
    is as it was ([fdispatch]).  The effect that writes the storage is not
    part of this model: [JSON.stringify] of foreign numbers needs
    [Number::toString], which is not modelled.

    [fe_origin], the index of the element the editor's [id] was read from,
    is bookkeeping of identity, not program state: [deleteTask] moves the
    elements, and the editor's origin moves with them ([reindex]).

    The theorems: once saved data has rendered, no state a run reaches
    throws while rendering; and every run of the typed model [App.app_step]
    is matched by a run of [fstep] on the encoded data ([encodes]), so the
    typed model is what the JavaScript does on data the program wrote. *)

From Stdlib Require Import Ascii String.
From stdpp Require Import base list strings relations pretty.
From S2P Require Import Prelude Types JsString Json TaskStore Storage TaskInput TaskList App Foreign.

Module ForeignSession.
Import Foreign.

Section Run.
Context (num_eq : string -> string -> bool) (num_text : string -> string)
  (randomUUID : nat -> string).

(** The state of the running program. *)
Record FState := mk {
  ftasks : json;
  fediting : ForeignEditing;
  finput : TaskInput.State;
  fuuids : nat
}.

(** The first render: [tasks] as [JSON.parse] returned it, [editingTask]
    [null], the form empty. *)
Definition fmount (tasks : json) : FState := mk tasks None TaskInput.init 0.

(** What the user does: the form, the buttons of row [i], the editor. *)
Inductive FEvent :=
| FTypeTask (value : string)
| FSelectPriority (p : Priority)
| FSubmit
| FClickToggle (i : nat)
| FClickEdit (i : nat)
| FClickDelete (i : nat)
| FTypeEdit (value : string)
| FSelectEditPriority (p : Priority)
| FClickSave
| FClickCancel.

(** Where the element at index [o] goes when [filter] keeps the elements
    flagged [true]: its new index, or [None] when it is removed. *)
Fixpoint reindex (keep : list bool) (o : nat) : option nat :=
  match keep, o with
  | [], _ => None
  | b :: _, 0 => if b then Some 0 else None
  | b :: keep', S o' => (fun n => if b then S n else n) <$> reindex keep' o'
  end.

Definition reorigin (keep : list bool) (e : ForeignEditor) : ForeignEditor :=
  FEd (fe_origin e ≫= reindex keep) (fe_id e) (fe_text e) (fe_priority e).

(** [onAddTask] of the form: [App]'s [addTask] on the untyped value, with
    the next UUID; [None] is a thrown error. *)
Definition inputProps : TaskInput.TaskInputProps (option (json * nat)) :=
  {| TaskInput.onAddTask := fun text p s =>
       '(tasks, n) ← s;
       tasks' ← addTask (randomUUID n) text (priority_to_string p) tasks;
       Some (tasks', S n) |}.

(** The delete button of row [i]; [keep] records which elements the
    [filter] keeps, for the editor's origin. *)
Definition click_delete (i : nat) (st : FState) : option FState :=
  match ftasks st with
  | JArray l =>
      task ← l !! i; id ← get_prop task "id";
      keep ← js_map (delete_test num_eq (Some i) id) 0 l;
      tasks' ← deleteTask num_eq (Some i) id (ftasks st);
      Some (mk tasks' (reorigin keep <$> fediting st) (finput st) (fuuids st))
  | _ => None
  end.

Definition set_editing (e : ForeignEditing) (st : FState) : FState :=
  mk (ftasks st) e (finput st) (fuuids st).

(** The handler of each event; [None] when it throws. *)
Definition fhandle (ev : FEvent) (st : FState) : option FState :=
  match ev with
  | FTypeTask v => Some (mk (ftasks st) (fediting st) (TaskInput.setTask v (finput st)) (fuuids st))
  | FSelectPriority p =>
      Some (mk (ftasks st) (fediting st) (TaskInput.setPriority p (finput st)) (fuuids st))
  | FSubmit =>
      let '(i, s) := TaskInput.handleSubmit inputProps (finput st) (Some (ftasks st, fuuids st)) in
      (fun '(tasks, n) => mk tasks (fediting st) i n) <$> s
  | FClickToggle i => (fun tasks => mk tasks (fediting st) (finput st) (fuuids st)) <$> toggle_row num_eq i (ftasks st)
  | FClickEdit i =>
      match ftasks st with
      | JArray l => e ← l !! i ≫= handleEdit i; Some (set_editing (Some e) st)
      | _ => None
      end
  | FClickDelete i => click_delete i st
  | FTypeEdit v =>
      Some (match fediting st with Some e => set_editing (Some (setEditText e v)) st | None => st end)
  | FSelectEditPriority p =>
      Some (match fediting st with
            | Some e => set_editing (Some (setEditPriority e (priority_to_string p))) st
            | None => st
            end)
  | FClickSave =>
      '(e, tasks) ← handleSaveEdit num_eq (fediting st) (ftasks st);
      Some (mk tasks e (finput st) (fuuids st))
  | FClickCancel => Some (set_editing None st)
  end.

(** An error thrown in an event handler leaves the state as it was. *)
Definition fdispatch (ev : FEvent) (st : FState) : FState := default st (fhandle ev st).

Definition is_editor (r : jsval * RowOut) : bool :=
  match r.2 with EditorOut => true | TaskOut _ _ _ _ => false end.

(** The element an event is fired on is on the page: the form always; the
    buttons of row [i] when the row shows its task view; the editor's
    controls when some row shows the editor. *)
Definition fenabled (st : FState) (ev : FEvent) : bool :=
  match list_render num_eq num_text (fediting st) (ftasks st) with
  | Some rows =>
      match ev with
      | FClickToggle i | FClickEdit i | FClickDelete i =>
          match rows !! i with Some r => negb (is_editor r) | None => false end
      | FTypeEdit _ | FSelectEditPriority _ | FClickSave | FClickCancel => existsb is_editor rows
      | _ => true
      end
  | None => false
  end.

Definition fstep (st st' : FState) : Prop :=
  exists ev, fenabled st ev = true /\ st' = fdispatch ev st.

(** ** The typed program on the data it writes

    [App.v] models the program with typed tasks.  A typed state and a state
    of this file agree ([encodes]) when the untyped [tasks] is the
    collection's encoding, the form and the UUIDs drawn are the same, and
    the editor holds the encoded [editingTask], read from a row with the
    edited id, if that row is still there. *)
Definition editing_agrees (ts : list Task.t) (eT : TaskList.State) (ed : ForeignEditing) : Prop :=
  match eT, ed with
  | None, None => True
  | Some e, Some fe =>
      fe = encode_editing (fe_origin fe) e /\
      forall k, fe_origin fe = Some k -> exists t, ts !! k = Some t /\ Task.id t = EditingTask.id e
  | _, _ => False
  end.

Definition encodes (st : App.AppState) (fst : FState) : Prop :=
  ftasks fst = Storage.encode_tasks (App.tasks st) /\ finput fst = App.input st /\
  fuuids fst = App.uuids st /\ editing_agrees (App.tasks st) (App.editing st) (fediting fst).

(** The row the typed [render_row] describes, as [row_render] records it. *)
Definition typed_row (eT : TaskList.State) (t : Task.t) : jsval * RowOut :=
  (JSValue (JString (Task.id t)),
   match TaskList.render_row eT t with
   | TaskList.EditRow _ => EditorOut
   | TaskList.ViewRow t' color =>
       TaskOut (Task.completed t') [Task.text t'] [priority_to_string (Task.priority t')] color
   end).

(** ** Theorems *)

(** The invariant: the rows are renderable, and the editor's priority is
    one React can render. *)
Definition finv (st : FState) : Prop :=
  (exists l, ftasks st = JArray l /\ Forall (row_ok num_text) l) /\
  forall e, fediting st = Some e -> is_Some (react_child num_text (fe_priority e)).

Lemma finv_mount l :
  is_Some (mount_render num_eq num_text (JArray l)) -> finv (fmount (JArray l)).
Proof.
  unfold mount_render. intros H. split; [|done]. exists l. split; [done|].
  destruct (first_render (JArray l)); [|by destruct H as [? ?]].
  apply fmap_is_Some, list_render_null_is_Some in H. exact H.
Qed.

Lemma string_child s : is_Some (react_child num_text (JSValue (JString s))).
Proof. by eexists. Qed.

(** The callbacks of [Foreign.v], on the state. *)
Ltac callback_ok Hl :=
  match goal with
  | H : _ = Some ?t |- exists l', ?t = JArray l' /\ _ =>
      eapply (callbacks_row_ok num_eq num_text);
        [exact Hl| |repeat (first [left; eassumption|right]); eassumption];
        first [eassumption|apply string_child]
  end.

Lemma fhandle_finv ev st st' : finv st -> fhandle ev st = Some st' -> finv st'.
Proof.
  intros [(l & Hts & Hl) He]. destruct ev; cbn [fhandle].
  - intros [= <-]. split; [by exists l|done].
  - intros [= <-]. split; [by exists l|done].
  - unfold TaskInput.handleSubmit. destruct (js_truthy _).
    + cbn [TaskInput.onAddTask inputProps mbind option_bind]. rewrite Hts.
      destruct (addTask _ _ _ (JArray l)) as [tasks'|] eqn:E; [|discriminate].
      cbn. intros [= <-]. split; [cbn; callback_ok Hl|done].
    + cbn. intros [= <-]. split; [by exists l|done].
  - unfold toggle_row. rewrite Hts.
    destruct (l !! i) as [task|]; [|discriminate]. cbn [mbind option_bind].
    destruct (get_prop task "id") as [id|]; [|discriminate]. cbn [mbind option_bind].
    destruct (toggleTask num_eq _ _ _) as [tasks'|] eqn:E; [|discriminate].
    intros [= <-]. split; [cbn; callback_ok Hl|done].
  - rewrite Hts. destruct (l !! i) as [task|] eqn:Ei; [|discriminate]. cbn [mbind option_bind].
    unfold handleEdit. destruct (Forall_lookup_1 _ _ _ _ Hl Ei) as (Hnn & _ & _ & Hpr).
    destruct (get_prop task "id"), (get_prop task "text"); try discriminate.
    destruct (get_prop task "priority") as [pr|] eqn:Epr; [|discriminate].
    intros [= <-]. split; [by exists l|]. intros e [= <-]. exact Hpr.
  - unfold click_delete. rewrite Hts.
    destruct (l !! i) as [task|]; [|discriminate]. cbn [mbind option_bind].
    destruct (get_prop task "id") as [id|]; [|discriminate]. cbn [mbind option_bind].
    destruct (js_map _ 0 l) as [keep|]; [|discriminate]. cbn [mbind option_bind].
    rewrite <-Hts. destruct (deleteTask num_eq _ _ (ftasks st)) as [tasks'|] eqn:E; [|discriminate].
    rewrite Hts in E. intros [= <-]. split; [cbn; callback_ok Hl|].
    cbn. intros e (e0 & Hfe & ->)%fmap_Some. exact (He e0 Hfe).
  - intros [= <-]. split; [destruct (fediting st); by exists l|].
    destruct (fediting st) as [e|] eqn:Ee; cbn;
      [intros e' [= <-]; exact (He e eq_refl)|intros e0 He0; congruence].
  - intros [= <-]. split; [destruct (fediting st); by exists l|].
    destruct (fediting st) as [e|] eqn:Ee; cbn;
      [intros e' [= <-]; apply string_child|intros e0 He0; congruence].
  - unfold handleSaveEdit. destruct (fediting st) as [e|] eqn:Ee.
    + specialize (He e eq_refl). destruct (fe_text e) as [|[| | |s| |]] eqn:Et; try discriminate.
      cbn [js_trim mbind option_bind]. destruct (js_truthy _).
      * rewrite Hts. destruct (updateTask num_eq _ _ _ _ (JArray l)) as [tasks'|] eqn:E; [|discriminate].
        cbn. intros [= <-]. split; [cbn; callback_ok Hl|done].
      * cbn. intros [= <-]. split; [by exists l|]. intros ? [= <-]. exact He.
    + cbn. intros [= <-]. split; [by exists l|intros ? [=]].
  - intros [= <-]. split; [by exists l|intros ? [=]].
  Unshelve. all: first [exact None|exact JSUndefined|exact EmptyString].
Qed.

Lemma fstep_finv st st' : finv st -> fstep st st' -> finv st'.
Proof.
  intros Hinv (ev & _ & ->). unfold fdispatch.
  destruct (fhandle ev st) as [st1|] eqn:E; [|done]. by eapply fhandle_finv.
Qed.

Lemma finv_rtc x y : rtc fstep x y -> finv x -> finv y.
Proof.
  induction 1 as [|x y z Hxy _ IH]; [done|]. intros Hx. apply IH. by eapply fstep_finv.
Qed.

(** C21: once saved data that is an array has rendered, it never crashes
    the page again: every state a run of events reaches renders its rows,
    beside the [editingTask] it holds.  On foreign data the first render
    is the only render that can throw; the save of [foreign_edit_save]
    throws in a handler, which React survives. *)
Theorem foreign_runs_render l st :
  is_Some (mount_render num_eq num_text (JArray l)) -> rtc fstep (fmount (JArray l)) st ->
  is_Some (list_render num_eq num_text (fediting st) (ftasks st)).
Proof.
  intros Hm Hrun. destruct (finv_rtc _ _ Hrun (finv_mount l Hm)) as [(l' & -> & Hl') _].
  by apply list_render_row_ok.
Qed.

(** *** The typed program refines the running program *)

Lemma reindex_lookup {A} (q : A -> bool) (ts : list A) o k' :
  reindex (q <$> ts) o = Some k' -> exists t, ts !! o = Some t /\ List.filter q ts !! k' = Some t.
Proof.
  revert o k'. induction ts as [|t ts IH]; intros [|o] k'; cbn [fmap list_fmap reindex];
    try discriminate.
  - destruct (q t) eqn:E; [|discriminate]. intros [= <-]. exists t.
    cbn [List.filter]. by rewrite E.
  - intros (n & Hn & ->)%fmap_Some. destruct (IH _ _ Hn) as (t' & H1 & H2).
    exists t'. split; [done|]. cbn [List.filter]. by destruct (q t).
Qed.

Lemma encodes_commit s fs : encodes (App.commit s) fs <-> encodes s fs.
Proof. unfold encodes. by destruct (App.commit_fields s) as (-> & -> & -> & ->). Qed.

Lemma encodes_rows st fst :
  encodes st fst ->
  list_render num_eq num_text (fediting fst) (ftasks fst) = Some (typed_row (App.editing st) <$> App.tasks st).
Proof.
  intros (Ht & _ & _ & He). rewrite Ht. unfold editing_agrees in He.
  destruct (App.editing st) as [e|], (fediting fst) as [fe|]; try contradiction.
  - destruct He as [Hfe Ho]. rewrite Hfe.
    exact (list_render_enc num_eq num_text _ (Some e) (fe_origin fe)
             (fun e' k He' Hk => match He' with eq_refl => Ho k Hk end)).
  - exact (list_render_enc num_eq num_text _ None None (fun _ _ H => match H with end)).
Qed.

Lemma is_editor_typed_row eT t : is_editor (typed_row eT t) = TaskList.is_edit_row (TaskList.render_row eT t).
Proof. unfold typed_row. by destruct (TaskList.render_row eT t). Qed.

(** The editor's agreement survives the store operations: a map that keeps
    each task's id, an append, and a [filter] with the editor's origin
    re-indexed. *)
Lemma editing_agrees_map (f : Task.t -> Task.t) ts eT ed :
  (forall t, Task.id (f t) = Task.id t) ->
  editing_agrees ts eT ed -> editing_agrees (f <$> ts) eT ed.
Proof.
  intros Hf. destruct eT as [e|], ed as [fe|]; try done. intros [Hfe Ho]. split; [done|].
  intros k Hk. destruct (Ho k Hk) as (t & Ht & <-). exists (f t).
  by rewrite list_lookup_fmap, Ht.
Qed.

Lemma editing_agrees_app ts ts' eT ed :
  editing_agrees ts eT ed -> editing_agrees (ts ++ ts') eT ed.
Proof.
  destruct eT as [e|], ed as [fe|]; try done. intros [Hfe Ho]. split; [done|].
  intros k Hk. destruct (Ho k Hk) as (t & Ht & <-). exists t.
  split; [by apply lookup_app_l_Some|done].
Qed.

Lemma editing_agrees_filter (q : Task.t -> bool) ts eT ed :
  editing_agrees ts eT ed -> editing_agrees (List.filter q ts) eT (reorigin (q <$> ts) <$> ed).
Proof.
  destruct eT as [e|], ed as [fe|]; try done. intros [Hfe Ho]. cbn [fmap option_fmap option_map].
  split; [by rewrite Hfe at 1|]. cbn [reorigin fe_origin].
  intros k' (k & Hk & Hk')%bind_Some. destruct (reindex_lookup q ts k k' Hk') as (t & Ht & Ht').
  destruct (Ho k Hk) as (t0 & Ht0 & Hid). rewrite Ht in Ht0. injection Ht0 as <-. by exists t.
Qed.

Lemma editing_agrees_edit ts eT fe e :
  editing_agrees ts eT (Some fe) -> eT = Some e ->
  editing_agrees ts eT (Some fe) /\ fe = encode_editing (fe_origin fe) e.
Proof. intros H ->. split; [done|]. apply H. Qed.

Lemma handleEdit_enc i t :
  handleEdit i (Storage.encode_task t) = Some (encode_editing (Some i) (EditingTask.mk (Task.id t) (Task.text t) (Task.priority t))).
Proof. destruct t; reflexivity. Qed.

(** The editor is on the page exactly when a row has the edited id. *)
Lemma existsb_editor e ts :
  EditingTask.id e ∈ task_ids ts -> existsb is_editor (typed_row (Some e) <$> ts) = true.
Proof.
  intros (t & Hid & Ht)%list_elem_of_fmap. apply existsb_exists.
  exists (typed_row (Some e) t). split; [apply list_elem_of_In, list_elem_of_fmap_2, Ht|].
  rewrite is_editor_typed_row. cbn. by rewrite bool_decide_true.
Qed.

(** One step of the typed program: the same user action on the running
    program's page is enabled, does not throw, and leads to a state that
    agrees with the typed one. *)
Lemma step_encodes st fst ev :
  encodes st fst -> App.enabled st ev = true ->
  exists fev, fenabled fst fev = true /\
    exists fst', fhandle fev fst = Some fst' /\ encodes (App.dispatch randomUUID ev st) fst'.
Proof.
  intros Henc Hen. pose proof (encodes_rows _ _ Henc) as Hrows.
  destruct Henc as (Ht & Hi & Hu & He).
  unfold App.dispatch. setoid_rewrite encodes_commit. unfold fenabled. rewrite Hrows.
  destruct ev as [v|p| |t|t|t|v|p| |]; cbn [App.handle App.enabled] in *.
  - exists (FTypeTask v). split; [done|]. eexists. split; [reflexivity|].
    unfold encodes. cbn. by rewrite Hi.
  - exists (FSelectPriority p). split; [done|]. eexists. split; [reflexivity|].
    unfold encodes. cbn. by rewrite Hi.
  - exists FSubmit. split; [done|]. cbn [fhandle]. rewrite Hi, Ht, Hu.
    unfold TaskInput.handleSubmit. destruct (js_truthy _).
    + cbn [TaskInput.onAddTask App.inputProps inputProps mbind option_bind].
      rewrite addTask_enc. eexists. split; [reflexivity|].
      unfold encodes. cbn. split_and!; [done..|by apply editing_agrees_app].
    + eexists. split; [reflexivity|]. unfold encodes. cbn. by split_and!.
  - apply andb_true_iff in Hen as [Hin Hrow].
    apply bool_decide_eq_true, list_elem_of_lookup in Hin as [i Hti].
    exists (FClickToggle i). rewrite list_lookup_fmap, Hti. cbn [fmap option_fmap option_map].
    rewrite is_editor_typed_row, Hrow. split; [done|]. cbn [fhandle]. unfold toggle_row. rewrite Ht.
    rewrite (row_id_enc _ i t (fun id tasks => toggleTask num_eq (Some i) id tasks)) by done.
    rewrite toggleTask_enc by (by apply origin_row). eexists. split; [reflexivity|].
    unfold encodes. cbn. split_and!; [done..|].
    apply editing_agrees_map; [intros u; unfold TaskStore.toggled; by destruct (TaskStore.has_id _ _)|done].
  - apply andb_true_iff in Hen as [Hin Hrow].
    apply bool_decide_eq_true, list_elem_of_lookup in Hin as [i Hti].
    exists (FClickEdit i). rewrite list_lookup_fmap, Hti. cbn [fmap option_fmap option_map].
    rewrite is_editor_typed_row, Hrow. split; [done|]. cbn [fhandle]. rewrite Ht.
    cbn [Storage.encode_tasks]. rewrite list_lookup_fmap, Hti. cbn [fmap option_fmap option_map mbind option_bind].
    rewrite handleEdit_enc. eexists. split; [reflexivity|].
    unfold encodes. cbn. split_and!; try done. intros k [= <-]. by exists t.
  - apply andb_true_iff in Hen as [Hin Hrow].
    apply bool_decide_eq_true, list_elem_of_lookup in Hin as [i Hti].
    exists (FClickDelete i). rewrite list_lookup_fmap, Hti. cbn [fmap option_fmap option_map].
    rewrite is_editor_typed_row, Hrow. split; [done|]. cbn [fhandle]. unfold click_delete. rewrite Ht.
    cbn [Storage.encode_tasks]. rewrite list_lookup_fmap, Hti. cbn [fmap option_fmap option_map mbind option_bind].
    rewrite get_prop_encode_id. cbn [mbind option_bind].
    rewrite (delete_flags_enc num_eq (App.tasks st) (Some i) (Task.id t)) by (by apply origin_row).
    cbn [mbind option_bind].
    change (JArray (Storage.encode_task <$> App.tasks st)) with (Storage.encode_tasks (App.tasks st)).
    rewrite deleteTask_enc by (by apply origin_row). eexists. split; [reflexivity|].
    unfold encodes. cbn. split_and!; [done..|]. by apply editing_agrees_filter.
  - destruct (App.editing st) as [e|] eqn:Ee; [|discriminate]. apply bool_decide_eq_true in Hen.
    unfold editing_agrees in He. destruct (fediting fst) as [fe|] eqn:Efe; [|contradiction].
    destruct He as [Hfe Ho].
    exists (FTypeEdit v). rewrite existsb_editor by done. split; [done|]. cbn [fhandle]. rewrite Efe.
    eexists. split; [reflexivity|]. unfold encodes. cbn.
    split_and!; [done|done|done|rewrite Hfe at 1; reflexivity|done].
  - destruct (App.editing st) as [e|] eqn:Ee; [|discriminate]. apply bool_decide_eq_true in Hen.
    unfold editing_agrees in He. destruct (fediting fst) as [fe|] eqn:Efe; [|contradiction].
    destruct He as [Hfe Ho].
    exists (FSelectEditPriority p). rewrite existsb_editor by done. split; [done|]. cbn [fhandle]. rewrite Efe.
    eexists. split; [reflexivity|]. unfold encodes. cbn.
    split_and!; [done|done|done|rewrite Hfe at 1; reflexivity|done].
  - destruct (App.editing st) as [e|] eqn:Ee; [|discriminate]. apply bool_decide_eq_true in Hen.
    unfold editing_agrees in He. destruct (fediting fst) as [fe|] eqn:Efe; [|contradiction].
    destruct He as [Hfe Ho].
    exists FClickSave. rewrite existsb_editor by done. split; [done|]. cbn [fhandle]. rewrite Efe.
    unfold handleSaveEdit, TaskList.handleSaveEdit. rewrite Hfe. cbn [fe_text fe_origin fe_id fe_priority encode_editing js_trim mbind option_bind].
    destruct (js_truthy _).
    + rewrite Ht, updateTask_enc by done. eexists. split; [reflexivity|].
      unfold encodes. cbn. split_and!; done.
    + eexists. split; [reflexivity|]. unfold encodes. cbn. split_and!; try done.
  - destruct (App.editing st) as [e|] eqn:Ee; [|discriminate]. apply bool_decide_eq_true in Hen.
    exists FClickCancel. rewrite existsb_editor by done. split; [done|].
    eexists. split; [reflexivity|]. unfold encodes. cbn. split_and!; done.
Qed.

(** refinement of the typed model by JavaScript's semantics, for
    whole runs: from a typed state and a running program that agree,
    every run of enabled events of the typed program ([App.app_step]) is
    matched by a run of the same user actions on the running program's
    page ([fstep]), none of which throws, and the states at the end still
    agree.  The typed [App.v] is thus what the JavaScript does on the data
    the program writes, the editor's [===] on ids and the [filter] of
    [deleteTask] included. *)
Lemma typed_runs_foreign st0 st fst0 :
  encodes st0 fst0 -> rtc (App.app_step randomUUID) st0 st ->
  exists fst, rtc fstep fst0 fst /\ encodes st fst.
Proof.
  intros H0 Hrun. revert fst0 H0. induction Hrun as [x|x y z Hxy _ IH]; intros f0 H0.
  - by exists f0.
  - destruct Hxy as (ev & Hen & ->).
    destruct (step_encodes _ _ _ H0 Hen) as (fev & Hfen & f1 & Hf1 & Henc).
    destruct (IH f1 Henc) as (f & Hf & Hz). exists f. split; [|done].
    eapply rtc_l; [|exact Hf]. exists fev. split; [done|]. unfold fdispatch. by rewrite Hf1.
Qed.

End Run.

(** ** Witnesses *)

Lemma foreign_runs_render_witness :
  is_Some (list_render (fun a b => bool_decide (a = b)) id
    (fediting (fdispatch (fun a b => bool_decide (a = b)) pretty (FClickEdit 0) (fmount (JArray ex_numeric_text))))
    (ftasks (fdispatch (fun a b => bool_decide (a = b)) pretty (FClickEdit 0) (fmount (JArray ex_numeric_text))))).
Proof.
  apply (foreign_runs_render _ id pretty ex_numeric_text); [by eexists|].
  apply rtc_once. exists (FClickEdit 0). split; reflexivity.
Defined.

End ForeignSession.
